(** * The multi-client primary-lease coordinator of IndexedDbPersistence

    A shallow embedding of
    [packages/firestore/src/local/indexeddb_persistence.ts]: the lease
    evaluation ([canActAsPrimary]), the transaction gate ([runTransaction]),
    the metadata refresher, the garbage collection of client state, and the
    start / shutdown life cycle, followed by the properties of the
    specification that concern them.

    Conventions of the embedding.
    - Millisecond timestamps and change ids are integers ([Z]); the one
      non-finite number of the source, [Number.NEGATIVE_INFINITY], is a
      constructor of [number].
    - The IndexedDB object stores are finite maps; LocalStorage is a finite
      map from keys to strings when it works.
    - A method that mutates the instance or the stores is a function of the
      monad [M]: state in, result (value or thrown error) and state out.
      A method that only reads is a plain function of the state.
    - [Date.now()] reads the field [now] of the state. *)

From stdpp Require Import base strings pretty gmap list option.

Local Open Scope Z_scope.

(** ** Errors *)

Inductive Code := UNIMPLEMENTED | FAILED_PRECONDITION.

(** What a method can throw (or reject its promise with). *)
Inductive Error :=
| FirestoreError (code : Code) (message : string)
| AssertionError (message : string)   (* a failed [assert] of util/assert *)
| TypeError                           (* a member access on undefined or null *)
| DOMException (name : string).       (* raised by LocalStorage or IndexedDB *)

Inductive Result (A : Type) :=
| Ok (a : A)
| Err (e : Error).
Arguments Ok {A} a.
Arguments Err {A} e.

Global Instance Code_eq_dec : EqDecision Code.
Proof. solve_decision. Defined.
Global Instance Error_eq_dec : EqDecision Error.
Proof. solve_decision. Defined.

(** ** Constants *)

Definition CLIENT_METADATA_MAX_AGE_MS : Z := 5000.
Definition CLIENT_STATE_GARBAGE_COLLECTION_THRESHOLD_MS : Z := 30 * 60 * 1000.
Definition CLIENT_METADATA_REFRESH_INTERVAL_MS : Z := 4000.

Definition PRIMARY_LEASE_LOST_ERROR_MSG : string :=
  "The current tab is not in the required state to perform this operation. " +:+
  "It might be necessary to refresh the browser tab.".
Definition PRIMARY_LEASE_EXCLUSIVE_ERROR_MSG : string :=
  "There is another tab open with offline" +:+
  " persistence enabled. Only one such tab is allowed at a time. The" +:+
  " other tab must be closed or persistence must be disabled.".
Definition UNSUPPORTED_PLATFORM_ERROR_MSG : string :=
  "This platform is either missing" +:+
  " IndexedDB or is known to have an incomplete implementation. Offline" +:+
  " persistence has been disabled.".
Definition ZOMBIED_CLIENTS_KEY_PREFIX : string := "firestore_zombie".

Definition PRIMARY_LEASE_LOST : Error :=
  FirestoreError FAILED_PRECONDITION PRIMARY_LEASE_LOST_ERROR_MSG.
Definition PRIMARY_LEASE_EXCLUSIVE : Error :=
  FirestoreError FAILED_PRECONDITION PRIMARY_LEASE_EXCLUSIVE_ERROR_MSG.

(** ** Numbers *)

(** The timestamps the code compares: finite, or the initial value of
    [lastGarbageCollectionTime]. *)
Inductive number :=
| NEGATIVE_INFINITY
| Finite (z : Z).

(** [a < b] on [number]. *)
Definition number_lt (a b : number) : bool :=
  match a, b with
  | NEGATIVE_INFINITY, NEGATIVE_INFINITY => false
  | NEGATIVE_INFINITY, Finite _ => true
  | Finite _, NEGATIVE_INFINITY => false
  | Finite x, Finite y => x <? y
  end.

(** ** Stored records (indexeddb_schema.ts declares them; the constructor
    argument order is the one used at the [new] sites of the source) *)

Module DbPrimaryClient.
Record t := mk {
  ownerId : string;
  allowTabSynchronization : bool;
  leaseTimestampMs : Z
}.
End DbPrimaryClient.

Module DbClientMetadata.
Record t := mk {
  clientId : string;
  updateTimeMs : Z;
  networkEnabled : bool;
  inForeground : bool;
  (* [None] is a missing value, which the code reads with [|| 0] *)
  lastProcessedDocumentChangeId : option Z
}.
End DbClientMetadata.

Global Instance DbPrimaryClient_eq_dec : EqDecision DbPrimaryClient.t.
Proof. solve_decision. Defined.
Global Instance DbClientMetadata_eq_dec : EqDecision DbClientMetadata.t.
Proof. solve_decision. Defined.

(** The object stores the coordinator touches: [primaryClient] holds a
    single record under the fixed key [DbPrimaryClient.key];
    [clientMetadata] is keyed by client id; of the document change log only
    the change ids matter here. *)
Record Db := mkDb {
  primaryClient : option DbPrimaryClient.t;
  clientMetadata : gmap string DbClientMetadata.t;
  remoteDocumentChanges : gset Z
}.

Definition emptyDb : Db := mkDb None ∅ ∅.

(** ** The platform *)

(** [window.localStorage]: undefined, present but throwing on every access,
    or a working key/value store. *)
Inductive LocalStorage :=
| LsUndefined
| LsFailing
| LsItems (items : gmap string string).

Record Window := mkWindow {
  localStorage : LocalStorage;
  (* [typeof window.addEventListener === 'function'] *)
  window_addEventListener : bool;
  (* [typeof window.removeEventListener === 'function'] *)
  window_removeEventListener : bool
}.

Record Document := mkDocument {
  (* [typeof document.addEventListener === 'function'] *)
  document_addEventListener : bool;
  visibilityState : string
}.

(** ** The async queue (util/async_queue.ts is not part of the sources) *)

Inductive TimerId := ClientMetadataRefresh.

(** The closures the coordinator hands to the queue, one constructor per
    closure of the source. *)
Inductive Task :=
| NotifyPrimaryStateIfStarted      (* updateClientMetadataAndTryBecomePrimary *)
| NotifyPrimaryState (isPrimary : bool)             (* runTransaction *)
| RefreshIfStarted                                  (* setNetworkEnabled *)
| VisibilityChanged                                 (* documentVisibilityHandler *)
| Shutdown                                          (* windowUnloadHandler *)
| RefreshMetadataAndLease. (* scheduleClientMetadataAndPrimaryLeaseRefreshes *)

Record DelayedOperation := mkDelayedOperation {
  handle : nat;
  timerId : TimerId;
  delayMs : Z;
  op : Task
}.

(** Modelled from the spec: the AsyncQueue of section 4.2. [operations] are
    the tasks passed to [enqueueAndForget], in FIFO order;
    [delayedOperations] are the pending [enqueueAfterDelay] tasks, each with
    the handle its [CancelablePromise] cancels. *)
Record AsyncQueue := mkAsyncQueue {
  operations : list Task;
  delayedOperations : list DelayedOperation;
  nextHandle : nat
}.

Global Instance TimerId_eq_dec : EqDecision TimerId.
Proof. solve_decision. Defined.
Global Instance Task_eq_dec : EqDecision Task.
Proof. solve_decision. Defined.
Global Instance DelayedOperation_eq_dec : EqDecision DelayedOperation.
Proof. solve_decision. Defined.

(** ** The instance and its surroundings *)

(** The handle [this.simpleDb]; the stores themselves are shared between
    the clients and live in the state. *)
Record SimpleDb := mkSimpleDb {
  closed : bool
}.

(** The fields of an [IndexedDbPersistence] instance. A registered handler
    is [true], a [null] one is [false]; [simpleDb] and
    [clientMetadataRefresher] are [None] while the field is still
    undefined. [lastProcessedDocumentChangeId] is the getter of
    [this.remoteDocumentCache]. *)
Record IndexedDbPersistence := mkPersistence {
  persistenceKey : string;
  clientId : string;
  allowTabSynchronization : bool;
  simpleDb : option SimpleDb;
  _started : bool;
  isPrimary : bool;
  networkEnabled : bool;
  persistenceError : option Error;
  windowUnloadHandler : bool;
  inForeground : bool;
  documentVisibilityHandler : bool;
  clientMetadataRefresher : option nat;
  lastGarbageCollectionTime : number;
  lastProcessedDocumentChangeId : Z
}.

(** What the absent collaborators answer: [SimpleDb.isAvailable()],
    [process.env.USE_MOCK_PERSISTENCE === 'YES'], and the error, if any, of
    [SimpleDb.openOrCreate] and of [remoteDocumentCache.start]. *)
Record Environment := mkEnvironment {
  isAvailable : bool;
  USE_MOCK_PERSISTENCE : bool;
  openOrCreate_error : option Error;
  remoteDocumentCache_start_error : option Error
}.

Record State := mkState {
  this : IndexedDbPersistence;
  db : Db;
  window : option Window;
  document : option Document;
  queue : AsyncQueue;
  now : Z;
  env : Environment;
  (* the arguments of the calls to
     [remoteDocumentCache.removeDocumentChangesThroughChangeId], oldest
     first *)
  removedThrough : list Z
}.

(** Field updates. *)

Definition set_simpleDb (v : option SimpleDb) (p : IndexedDbPersistence) :=
  let 'mkPersistence a b c _ e f g h i j k l m n := p in
  mkPersistence a b c v e f g h i j k l m n.
Definition set_started (v : bool) (p : IndexedDbPersistence) :=
  let 'mkPersistence a b c d _ f g h i j k l m n := p in
  mkPersistence a b c d v f g h i j k l m n.
Definition set_isPrimary (v : bool) (p : IndexedDbPersistence) :=
  let 'mkPersistence a b c d e _ g h i j k l m n := p in
  mkPersistence a b c d e v g h i j k l m n.
Definition set_networkEnabled (v : bool) (p : IndexedDbPersistence) :=
  let 'mkPersistence a b c d e f _ h i j k l m n := p in
  mkPersistence a b c d e f v h i j k l m n.
Definition set_persistenceError (v : option Error) (p : IndexedDbPersistence) :=
  let 'mkPersistence a b c d e f g _ i j k l m n := p in
  mkPersistence a b c d e f g v i j k l m n.
Definition set_windowUnloadHandler (v : bool) (p : IndexedDbPersistence) :=
  let 'mkPersistence a b c d e f g h _ j k l m n := p in
  mkPersistence a b c d e f g h v j k l m n.
Definition set_inForeground (v : bool) (p : IndexedDbPersistence) :=
  let 'mkPersistence a b c d e f g h i _ k l m n := p in
  mkPersistence a b c d e f g h i v k l m n.
Definition set_documentVisibilityHandler (v : bool) (p : IndexedDbPersistence) :=
  let 'mkPersistence a b c d e f g h i j _ l m n := p in
  mkPersistence a b c d e f g h i j v l m n.
Definition set_clientMetadataRefresher (v : option nat) (p : IndexedDbPersistence) :=
  let 'mkPersistence a b c d e f g h i j k _ m n := p in
  mkPersistence a b c d e f g h i j k v m n.
Definition set_lastGarbageCollectionTime (v : number) (p : IndexedDbPersistence) :=
  let 'mkPersistence a b c d e f g h i j k l _ n := p in
  mkPersistence a b c d e f g h i j k l v n.

Definition with_this (f : IndexedDbPersistence → IndexedDbPersistence) (st : State) :=
  let 'mkState t d w doc q n e r := st in mkState (f t) d w doc q n e r.
Definition with_db (f : Db → Db) (st : State) :=
  let 'mkState t d w doc q n e r := st in mkState t (f d) w doc q n e r.
Definition with_window (f : option Window → option Window) (st : State) :=
  let 'mkState t d w doc q n e r := st in mkState t d (f w) doc q n e r.
Definition with_queue (f : AsyncQueue → AsyncQueue) (st : State) :=
  let 'mkState t d w doc q n e r := st in mkState t d w doc (f q) n e r.
Definition with_removedThrough (f : list Z → list Z) (st : State) :=
  let 'mkState t d w doc q n e r := st in mkState t d w doc q n e (f r).

Definition set_primaryClient (v : option DbPrimaryClient.t) (d : Db) :=
  mkDb v (clientMetadata d) (remoteDocumentChanges d).
Definition set_clientMetadata (v : gmap string DbClientMetadata.t) (d : Db) :=
  mkDb (primaryClient d) v (remoteDocumentChanges d).
Definition set_remoteDocumentChanges (v : gset Z) (d : Db) :=
  mkDb (primaryClient d) (clientMetadata d) v.

(** ** The monad of the methods: state in, result and state out *)

Definition M (A : Type) : Type := State → Result A * State.

Definition ret {A} (a : A) : M A := λ st, (Ok a, st).
Definition throw {A} (e : Error) : M A := λ st, (Err e, st).
(** An error skips what follows and keeps the state reached so far, as a
    rejected promise skips its [then] / [next] callbacks. *)
Definition bind {A B} (c : M A) (k : A → M B) : M B :=
  λ st, match c st with
        | (Ok a, st') => k a st'
        | (Err e, st') => (Err e, st')
        end.
Definition modify (f : State → State) : M unit := λ st, (Ok tt, f st).
(** A read-only, possibly failing, evaluation. *)
Definition eval {A} (f : State → Result A) : M A := λ st, (f st, st).
Definition assert (cond : bool) (message : string) : M unit :=
  if cond then ret tt else throw (AssertionError message).

Declare Scope method_scope.
Delimit Scope method_scope with method.
Notation "x <- c ;; k" := (bind c (λ x, k))
  (at level 100, c at next level, right associativity) : method_scope.
Notation "c ;;; k" := (bind c (λ _, k))
  (at level 100, right associativity) : method_scope.

(** The same short circuit for read-only evaluations. *)
Definition rbind {A B} (r : Result A) (k : A → Result B) : Result B :=
  match r with
  | Ok a => k a
  | Err e => Err e
  end.
Notation "x <-r c ;; k" := (rbind c (λ x, k))
  (at level 100, c at next level, right associativity) : method_scope.
Local Open Scope method_scope.

Definition try_catch (c : M unit) : M unit :=
  λ st, match c st with
        | (Ok a, st') => (Ok a, st')
        | (Err _, st') => (Ok tt, st')
        end.

Fixpoint forEach {A} (l : list A) (f : A → M unit) : M unit :=
  match l with
  | [] => ret tt
  | x :: xs => f x ;;; forEach xs f
  end.

(** [Array.prototype.filter] with a callback that can throw. *)
Fixpoint filterR {A} (p : A → Result bool) (l : list A) : Result (list A) :=
  match l with
  | [] => Ok []
  | x :: xs =>
      b <-r p x ;;
      rest <-r filterR p xs ;;
      Ok (if b then x :: rest else rest)
  end.

(** ** Side channel: zombie markers in LocalStorage *)

Definition zombiedClientLocalStorageKey (st : State) (clientId : string) : string :=
  ZOMBIED_CLIENTS_KEY_PREFIX +:+ "_" +:+ persistenceKey (this st) +:+ "_" +:+ clientId.

(** [isClientZombied]: [Ok None] is the [null] the source returns when
    LocalStorage is missing or throws. *)
Definition isClientZombied (st : State) (clientId : string) : Result (option bool) :=
  match window st with
  | None => Err TypeError
  | Some w =>
      match localStorage w with
      | LsUndefined =>
          if USE_MOCK_PERSISTENCE (env st) then Ok None
          else Err (AssertionError
                 "Operating without LocalStorage is only supported with IndexedDbShim.")
      | LsFailing => Ok None
      | LsItems items =>
          let isZombied :=
            match items !! zombiedClientLocalStorageKey st clientId with
            | Some _ => true
            | None => false
            end in
          Ok (Some isZombied)
      end
  end.

(** Truthiness of [boolean | null]. *)
Definition truthy (v : option bool) : bool :=
  match v with
  | Some b => b
  | None => false
  end.

Definition localStorage_setItem (key value : string) : M unit :=
  λ st, match window st with
        | None => (Err TypeError, st)
        | Some w =>
            match localStorage w with
            | LsUndefined => (Err TypeError, st)
            | LsFailing => (Err (DOMException "SecurityError"), st)
            | LsItems items =>
                (Ok tt,
                 with_window (λ _, Some (mkWindow (LsItems (<[key := value]> items))
                                          (window_addEventListener w)
                                          (window_removeEventListener w))) st)
            end
        end.

Definition localStorage_removeItem (key : string) : M unit :=
  λ st, match window st with
        | None => (Err TypeError, st)
        | Some w =>
            match localStorage w with
            | LsUndefined => (Err TypeError, st)
            | LsFailing => (Err (DOMException "SecurityError"), st)
            | LsItems items =>
                (Ok tt,
                 with_window (λ _, Some (mkWindow (LsItems (delete key items))
                                          (window_addEventListener w)
                                          (window_removeEventListener w))) st)
            end
        end.

Definition markClientZombied : M unit :=
  try_catch (λ st,
    localStorage_setItem (zombiedClientLocalStorageKey st (clientId (this st)))
                         (pretty (now st)) st).

Definition removeClientZombiedEntry : M unit :=
  try_catch (λ st,
    localStorage_removeItem (zombiedClientLocalStorageKey st (clientId (this st))) st).

(** ** Lease evaluation *)

Definition isWithinAge (st : State) (updateTimeMs : number) (maxAgeMs : Z) : bool :=
  let now := now st in
  let minAcceptable := now - maxAgeMs in
  let maxAcceptable := now in
  if number_lt updateTimeMs (Finite minAcceptable) then false
  else if number_lt (Finite maxAcceptable) updateTimeMs then false
  else true.

Definition isLocalClient (st : State) (client : option DbPrimaryClient.t) : bool :=
  match client with
  | Some c => bool_decide (DbPrimaryClient.ownerId c = clientId (this st))
  | None => false
  end.

(** The predicate of [filterActiveClients]. *)
Definition isActiveClient (st : State) (activityThresholdMs : Z)
    (client : DbClientMetadata.t) : Result bool :=
  if isWithinAge st (Finite (DbClientMetadata.updateTimeMs client)) activityThresholdMs
  then z <-r isClientZombied st (DbClientMetadata.clientId client) ;;
       Ok (negb (truthy z))
  else Ok false.

Definition filterActiveClients (st : State) (clients : list DbClientMetadata.t)
    (activityThresholdMs : Z) : Result (list DbClientMetadata.t) :=
  filterR (isActiveClient st activityThresholdMs) clients.

(** [clientMetadataStore(txn).loadAll()]: the records of the store. The
    code looks for a preferred client and for a minimum among them, so the
    order in which they come does not matter. *)
Definition loadAll (st : State) : list DbClientMetadata.t :=
  (map_to_list (clientMetadata (db st))).*2.

(** The expression [currentLeaseIsValid] of [canActAsPrimary] and of
    [verifyAllowTabSynchronization]. *)
Definition currentLeaseIsValid (st : State)
    (currentPrimary : option DbPrimaryClient.t) : Result bool :=
  match currentPrimary with
  | None => Ok false
  | Some p =>
      if isWithinAge st (Finite (DbPrimaryClient.leaseTimestampMs p))
           CLIENT_METADATA_MAX_AGE_MS
      then z <-r isClientZombied st (DbPrimaryClient.ownerId p) ;;
           Ok (negb (truthy z))
      else Ok false
  end.

(** The callback of [find] in [canActAsPrimary]. *)
Definition isPreferredCandidate (st : State) (otherClient : DbClientMetadata.t) : bool :=
  if bool_decide (clientId (this st) ≠ DbClientMetadata.clientId otherClient) then
    let otherClientHasBetterNetworkState :=
      negb (networkEnabled (this st)) && DbClientMetadata.networkEnabled otherClient in
    let otherClientHasBetterVisibility :=
      negb (inForeground (this st)) && DbClientMetadata.inForeground otherClient in
    let otherClientHasSameNetworkState :=
      bool_decide (networkEnabled (this st) = DbClientMetadata.networkEnabled otherClient) in
    if otherClientHasBetterNetworkState
       || (otherClientHasBetterVisibility && otherClientHasSameNetworkState)
    then true
    else false
  else false.

(** The tail of [canActAsPrimary], from [if (this.networkEnabled &&
    this.inForeground)] on. *)
Definition canActAsPrimary_scan (st : State) : Result bool :=
  if networkEnabled (this st) && inForeground (this st) then Ok true
  else
    let existingClients := loadAll st in
    active <-r filterActiveClients st existingClients CLIENT_METADATA_MAX_AGE_MS ;;
    let preferredCandidate := List.find (isPreferredCandidate st) active in
    Ok match preferredCandidate with
       | None => true
       | Some _ => false
       end.

(** [canActAsPrimary]; the last callback of the source only logs and
    returns its argument. *)
Definition canActAsPrimary (st : State) : Result bool :=
  let currentPrimary := primaryClient (db st) in
  currentLeaseIsValid_ <-r currentLeaseIsValid st currentPrimary ;;
  if currentLeaseIsValid_ then
    if isLocalClient st currentPrimary && networkEnabled (this st) then Ok true
    else if negb (isLocalClient st currentPrimary) then
      match currentPrimary with
      | Some p =>
          if negb (DbPrimaryClient.allowTabSynchronization p)
          then Err PRIMARY_LEASE_EXCLUSIVE
          else Ok false
      | None => Err TypeError
      end
    else canActAsPrimary_scan st
  else canActAsPrimary_scan st.

Definition verifyAllowTabSynchronization (st : State) : Result unit :=
  let currentPrimary := primaryClient (db st) in
  currentLeaseIsValid_ <-r currentLeaseIsValid st currentPrimary ;;
  if currentLeaseIsValid_ && negb (isLocalClient st currentPrimary) then
    match currentPrimary with
    | Some p =>
        if negb (DbPrimaryClient.allowTabSynchronization p)
        then Err PRIMARY_LEASE_EXCLUSIVE
        else Ok tt
    | None => Err TypeError
    end
  else Ok tt.

Definition acquireOrExtendPrimaryLease : M unit :=
  λ st,
    let newPrimary :=
      DbPrimaryClient.mk (clientId (this st)) (allowTabSynchronization (this st)) (now st) in
    (Ok tt, with_db (set_primaryClient (Some newPrimary)) st).

Definition releasePrimaryLeaseIfHeld : M unit :=
  modify (with_this (set_isPrimary false)) ;;;
  λ st,
    let primaryClient := primaryClient (db st) in
    if isLocalClient st primaryClient
    then (Ok tt, with_db (set_primaryClient None) st)
    else (Ok tt, st).

Definition removeClientMetadata : M unit :=
  modify (λ st, with_db (λ d, set_clientMetadata (delete (clientId (this st)) (clientMetadata d)) d) st).

(** ** The async queue operations *)

(** Modelled from the spec: [enqueueAndForget] of section 4.2 appends the
    task to the queue; its result is ignored by the caller. *)
Definition enqueueAndForget (task : Task) : M unit :=
  modify (with_queue (λ q,
    mkAsyncQueue (operations q ++ [task]) (delayedOperations q) (nextHandle q))).

(** Modelled from the spec: [enqueueAfterDelay] of section 4.2 schedules
    the task once after the delay and returns the handle that cancels it. *)
Definition enqueueAfterDelay (timerId : TimerId) (delayMs : Z) (op : Task) : M nat :=
  λ st,
    let h := nextHandle (queue st) in
    (Ok h,
     with_queue (λ q,
       mkAsyncQueue (operations q)
         (delayedOperations q ++ [mkDelayedOperation h timerId delayMs op])
         (S h)) st).

(** Modelled from the spec: [CancelablePromise.cancel()] of section 4.2;
    the operation, if still pending, will not run. *)
Definition cancel (h : nat) : M unit :=
  modify (with_queue (λ q,
    mkAsyncQueue (operations q)
      (List.filter (λ d, negb (bool_decide (handle d = h))) (delayedOperations q))
      (nextHandle q))).

(** ** The transactional store adapter *)

(** Modelled from the spec: [SimpleDb.runTransaction] (simple_db.ts is not
    part of the sources), section 4.1: the body executes within a single
    atomic transaction; an error inside the body aborts the transaction, so
    the stores keep their contents from before it, and propagates. The
    fields of the instance, the queue and LocalStorage are not part of the
    transaction. The mode and the list of stores are not tracked, and the
    spec does not say what a transaction on a closed handle does: [closed]
    is recorded and not consulted. Calling the method on an instance whose
    [simpleDb] is still undefined is a [TypeError]. *)
Definition SimpleDb_runTransaction {A} (transactionFn : M A) : M A :=
  λ st,
    match simpleDb (this st) with
    | None => (Err TypeError, st)
    | Some _ =>
        match transactionFn st with
        | (Ok a, st') => (Ok a, st')
        | (Err e, st') => (Err e, with_db (λ _, db st) st')
        end
    end.

(** Modelled from the spec: [SimpleDb.openOrCreate]; it either fails with
    the error of the environment or yields an open handle. *)
Definition SimpleDb_openOrCreate : M SimpleDb :=
  λ st,
    match openOrCreate_error (env st) with
    | Some e => (Err e, st)
    | None => (Ok (mkSimpleDb false), st)
    end.

(** Modelled from the spec: [SimpleDb.delete(dbName)] removes the database
    of this instance. *)
Definition SimpleDb_delete : M unit :=
  modify (with_db (λ _, emptyDb)).

(** Modelled from the spec: [SimpleDb.close()], step 6 of section 4.7. *)
Definition SimpleDb_close : M unit :=
  λ st,
    match simpleDb (this st) with
    | None => (Err TypeError, st)
    | Some _ => (Ok tt, with_this (set_simpleDb (Some (mkSimpleDb true))) st)
    end.

(** ** The collaborator: remote document cache *)

(** Modelled from the spec: [remoteDocumentCache.start(txn)]; of this
    collaborator only whether it fails is represented. *)
Definition remoteDocumentCache_start : M unit :=
  λ st,
    match remoteDocumentCache_start_error (env st) with
    | Some e => (Err e, st)
    | None => (Ok tt, st)
    end.

(** Modelled from the spec: [removeDocumentChangesThroughChangeId(txn,
    changeId)], the [truncate_through(changeId)] of section 6: the entries
    of the change log with an id up to [changeId] are removed. The call is
    recorded in [removedThrough]. *)
Definition removeDocumentChangesThroughChangeId (changeId : Z) : M unit :=
  modify (λ st,
    with_removedThrough (λ l, l ++ [changeId])
      (with_db (λ d, set_remoteDocumentChanges
                       (filter (λ i, changeId < i) (remoteDocumentChanges d)) d) st)).

(** ** The transaction gate *)

Definition runTransaction {T} (action : string) (requirePrimaryLease : bool)
    (transactionOperation : M T) : M T :=
  λ st,
    match persistenceError (this st) with
    | Some e => (Err e, st)
    | None =>
        SimpleDb_runTransaction
          (if requirePrimaryLease then
             result <- (canActAsPrimary_ <- eval canActAsPrimary ;;
                        if negb canActAsPrimary_ then
                          modify (with_this (set_isPrimary false)) ;;;
                          enqueueAndForget (NotifyPrimaryState false) ;;;
                          throw PRIMARY_LEASE_LOST
                        else transactionOperation) ;;
             acquireOrExtendPrimaryLease ;;;
             ret result
           else
             eval verifyAllowTabSynchronization ;;;
             transactionOperation) st
    end.

(** ** Heartbeat *)

(** [metadataStore.put(record)] stores the record under its [clientId], the
    key path of the store. *)
Definition updateClientMetadataAndTryBecomePrimary : M unit :=
  SimpleDb_runTransaction
    ((λ st,
        let record :=
          DbClientMetadata.mk (clientId (this st)) (now st) (networkEnabled (this st))
            (inForeground (this st)) (Some (lastProcessedDocumentChangeId (this st))) in
        (Ok tt,
         with_db (λ d, set_clientMetadata
                         (<[DbClientMetadata.clientId record := record]> (clientMetadata d)) d)
           st)) ;;;
     canActAsPrimary_ <- eval canActAsPrimary ;;
     wasPrimary <- eval (λ st, Ok (isPrimary (this st))) ;;
     modify (with_this (set_isPrimary canActAsPrimary_)) ;;;
     (if negb (bool_decide (wasPrimary = canActAsPrimary_))
      then enqueueAndForget NotifyPrimaryStateIfStarted
      else ret tt) ;;;
     if wasPrimary && negb canActAsPrimary_ then releasePrimaryLeaseIfHeld
     else if canActAsPrimary_ then acquireOrExtendPrimaryLease
     else ret tt).

(** ** Garbage collection of client state *)

(** [x || 0] for a change id. *)
Definition or_zero (x : option Z) : Z :=
  match x with
  | Some z => z
  | None => 0
  end.

(** [Math.min(first, ...rest)]. *)
Definition Math_min (first : Z) (rest : list Z) : Z := foldl Z.min first rest.

(** The transaction body of [maybeGarbageCollectMultiClientState]; it
    returns the closure variable [inactiveClients]. [indexOf] compares
    object identities; equal records are active together or inactive
    together, so comparing the records gives the same list. *)
Definition garbageCollectTransaction : M (list DbClientMetadata.t) :=
  existingClients <- eval (λ st, Ok (loadAll st)) ;;
  activeClients <- eval (λ st,
    filterActiveClients st existingClients CLIENT_STATE_GARBAGE_COLLECTION_THRESHOLD_MS) ;;
  let inactiveClients :=
    List.filter (λ client, bool_decide (client ∉ activeClients)) existingClients in
  forEach inactiveClients (λ inactiveClient,
    modify (with_db (λ d, set_clientMetadata
      (delete (DbClientMetadata.clientId inactiveClient) (clientMetadata d)) d))) ;;;
  activeClients' <- eval (λ st, Ok (List.filter
    (λ client, bool_decide (DbClientMetadata.clientId client ≠ clientId (this st)))
    activeClients)) ;;
  let processedChangeIds :=
    map (λ client, or_zero (DbClientMetadata.lastProcessedDocumentChangeId client))
        activeClients' in
  match processedChangeIds with
  | first :: rest =>
      let oldestChangeId := Math_min first rest in
      removeDocumentChangesThroughChangeId oldestChangeId
  | [] => ret tt
  end ;;;
  ret inactiveClients.

Definition maybeGarbageCollectMultiClientState : M unit :=
  λ st,
    if isPrimary (this st)
       && negb (isWithinAge st (lastGarbageCollectionTime (this st))
                  CLIENT_STATE_GARBAGE_COLLECTION_THRESHOLD_MS)
    then
      (modify (λ st, with_this (set_lastGarbageCollectionTime (Finite (now st))) st) ;;;
       inactiveClients <- runTransaction "readwrite" true garbageCollectTransaction ;;
       forEach inactiveClients (λ inactiveClient st,
         localStorage_removeItem
           (zombiedClientLocalStorageKey st (DbClientMetadata.clientId inactiveClient)) st)) st
    else (Ok tt, st).

(** ** The metadata refresher *)

Definition scheduleClientMetadataAndPrimaryLeaseRefreshes : M unit :=
  h <- enqueueAfterDelay ClientMetadataRefresh CLIENT_METADATA_REFRESH_INTERVAL_MS
         RefreshMetadataAndLease ;;
  modify (with_this (set_clientMetadataRefresher (Some h))).

(** The closure scheduled by
    [scheduleClientMetadataAndPrimaryLeaseRefreshes]. *)
Definition clientMetadataRefresherOp : M unit :=
  updateClientMetadataAndTryBecomePrimary ;;;
  maybeGarbageCollectMultiClientState ;;;
  scheduleClientMetadataAndPrimaryLeaseRefreshes.

(** ** Visibility and unload observers *)

Definition attachVisibilityHandler : M unit :=
  λ st,
    match document st with
    | Some d =>
        if document_addEventListener d then
          (Ok tt,
           with_this (λ p, set_inForeground (bool_decide (visibilityState d = "visible"))
                             (set_documentVisibilityHandler true p)) st)
        else (Ok tt, st)
    | None => (Ok tt, st)
    end.

Definition detachVisibilityHandler : M unit :=
  λ st,
    if documentVisibilityHandler (this st) then
      (assert (match document st with
               | Some d => document_addEventListener d
               | None => false
               end)
              "Expected 'document.addEventListener' to be a function" ;;;
       modify (with_this (set_documentVisibilityHandler false))) st
    else (Ok tt, st).

Definition attachWindowUnloadHook : M unit :=
  λ st,
    match window st with
    | None => (Err TypeError, st)
    | Some w =>
        if window_addEventListener w
        then (Ok tt, with_this (set_windowUnloadHandler true) st)
        else (Ok tt, st)
    end.

Definition detachWindowUnloadHook : M unit :=
  λ st,
    if windowUnloadHandler (this st) then
      match window st with
      | None => (Err TypeError, st)
      | Some w =>
          (assert (window_removeEventListener w)
                  "Expected 'window.removeEventListener' to be a function" ;;;
           modify (with_this (set_windowUnloadHandler false))) st
      end
    else (Ok tt, st).

(** ** Life cycle *)

(** The getter [started]. *)
Definition started (st : State) : bool := _started (this st).

Definition startRemoteDocumentCache : M unit :=
  SimpleDb_runTransaction remoteDocumentCache_start.

Definition start : M unit :=
  λ st,
    if negb (isAvailable (env st)) then
      let e := FirestoreError UNIMPLEMENTED UNSUPPORTED_PLATFORM_ERROR_MSG in
      (Err e, with_this (set_persistenceError (Some e)) st)
    else
      (assert (negb (started st)) "IndexedDbPersistence double-started!" ;;;
       assert (bool_decide (window st ≠ None)) "Expected 'window' to be defined" ;;;
       simpleDb_ <- SimpleDb_openOrCreate ;;
       modify (with_this (set_simpleDb (Some simpleDb_))) ;;;
       startRemoteDocumentCache ;;;
       attachVisibilityHandler ;;;
       attachWindowUnloadHook ;;;
       updateClientMetadataAndTryBecomePrimary ;;;
       scheduleClientMetadataAndPrimaryLeaseRefreshes ;;;
       modify (with_this (set_started true))) st.

Definition shutdown (deleteData : bool) : M unit :=
  modify (with_this (set_started false)) ;;;
  markClientZombied ;;;
  (λ st, match clientMetadataRefresher (this st) with
         | Some h => cancel h st
         | None => (Ok tt, st)
         end) ;;;
  detachVisibilityHandler ;;;
  detachWindowUnloadHook ;;;
  SimpleDb_runTransaction (releasePrimaryLeaseIfHeld ;;; removeClientMetadata) ;;;
  SimpleDb_close ;;;
  removeClientZombiedEntry ;;;
  if deleteData then SimpleDb_delete else ret tt.

Definition setNetworkEnabled (networkEnabled_ : bool) : M unit :=
  λ st,
    if negb (bool_decide (networkEnabled (this st) = networkEnabled_)) then
      (modify (with_this (set_networkEnabled networkEnabled_)) ;;;
       enqueueAndForget RefreshIfStarted) st
    else (Ok tt, st).

Definition getActiveClients : M (list string) :=
  SimpleDb_runTransaction
    (eval (λ st,
       clients <-r filterActiveClients st (loadAll st) CLIENT_METADATA_MAX_AGE_MS ;;
       Ok (map DbClientMetadata.clientId clients))).

(** What the queue runs for each task. The primary-state listener is a
    callback of the caller; its invocation leaves the coordinator as it
    is. *)
Definition runTask (task : Task) : M unit :=
  match task with
  | NotifyPrimaryStateIfStarted => ret tt
  | NotifyPrimaryState _ => ret tt
  | RefreshIfStarted =>
      λ st, if started st then updateClientMetadataAndTryBecomePrimary st else (Ok tt, st)
  | VisibilityChanged =>
      (λ st, match document st with
             | Some d =>
                 (Ok tt, with_this (set_inForeground
                                      (bool_decide (visibilityState d = "visible"))) st)
             | None => (Err TypeError, st)
             end) ;;;
      updateClientMetadataAndTryBecomePrimary
  | Shutdown => shutdown false
  | RefreshMetadataAndLease => clientMetadataRefresherOp
  end.

(** ** Storage prefix and error classification *)

(** The fields of [DatabaseInfo] and [DatabaseId] (core/database_info.ts)
    that [buildStoragePrefix] reads. *)
Module DatabaseId.
Record t := mk {
  projectId : string;
  database : string;
  isDefaultDatabase : bool
}.
End DatabaseId.

Module DatabaseInfo.
Record t := mk {
  databaseId : DatabaseId.t;
  persistenceKey : string
}.
End DatabaseInfo.

(** [buildStoragePrefix]; [+] associates to the left. *)
Definition buildStoragePrefix (databaseInfo : DatabaseInfo.t) : string :=
  let database := DatabaseId.projectId (DatabaseInfo.databaseId databaseInfo) in
  let database :=
    if negb (DatabaseId.isDefaultDatabase (DatabaseInfo.databaseId databaseInfo))
    then database +:+ ("." +:+ DatabaseId.database (DatabaseInfo.databaseId databaseInfo))
    else database in
  ((("firestore/" +:+ DatabaseInfo.persistenceKey databaseInfo) +:+ "/") +:+ database) +:+ "/".

(** [isPrimaryLeaseLostError]; an error that is not a [FirestoreError] has
    no such [code]. *)
Definition isPrimaryLeaseLostError (err : Error) : bool :=
  match err with
  | FirestoreError code message =>
      bool_decide (code = FAILED_PRECONDITION)
      && bool_decide (message = PRIMARY_LEASE_LOST_ERROR_MSG)
  | AssertionError _ | TypeError | DOMException _ => false
  end.

(** ** Concrete states, used to run the definitions *)

Definition exampleWindow (items : gmap string string) : Window :=
  mkWindow (LsItems items) true true.

Definition exampleDocument : Document := mkDocument true "visible".

Definition exampleEnv : Environment := mkEnvironment true false None None.

(** A freshly constructed instance: the field initialisers of the class. *)
Definition newPersistence (persistenceKey clientId : string) (synchronizeTabs : bool)
    : IndexedDbPersistence :=
  mkPersistence persistenceKey clientId synchronizeTabs None false false true None
    false false false None NEGATIVE_INFINITY 0.

(** Client "A" of an application with persistence key "app", with an open
    database handle. *)
Definition clientA (isPrimary_ networkEnabled_ inForeground_ : bool) : IndexedDbPersistence :=
  mkPersistence "app" "A" true (Some (mkSimpleDb false)) true isPrimary_ networkEnabled_
    None true inForeground_ true (Some 0%nat) NEGATIVE_INFINITY 0.

Definition exampleState (p : IndexedDbPersistence) (d : Db) (items : gmap string string)
    (now_ : Z) : State :=
  mkState p d (Some (exampleWindow items)) (Some exampleDocument)
    (mkAsyncQueue [] [] 1) now_ exampleEnv [].

(** The lease record of a client, written at [leaseTimestampMs]. *)
Definition leaseOf (owner : string) (allowTabSynchronization_ : bool) (leaseTimestampMs : Z) :=
  DbPrimaryClient.mk owner allowTabSynchronization_ leaseTimestampMs.

(** "A" holds a fresh lease, has its network disabled, and is alone. *)
Definition stateHolderOffline : State :=
  exampleState (clientA true false true) (mkDb (Some (leaseOf "A" true 1000)) ∅ ∅) ∅ 2000.

(** No lease; "A" is online in the background, "B" online in the
    foreground, "C" online in the background but last seen long ago. *)
Definition stateBackground : State :=
  exampleState (clientA false true false)
    (mkDb None
       (<["B" := DbClientMetadata.mk "B" 1500 true true (Some 10)]>
        (<["C" := DbClientMetadata.mk "C" 100 true true (Some 2)]> ∅)) ∅)
    ∅ 6000.

(** No lease; "A" is online in the foreground and alone. *)
Definition stateSolo : State :=
  exampleState (clientA false true true) emptyDb ∅ 2000.

(** "B" holds a fresh lease and has not opted into tab synchronization. *)
Definition stateExclusive : State :=
  exampleState (clientA false true true) (mkDb (Some (leaseOf "B" false 1000)) ∅ ∅) ∅ 2000.

(** "A" is primary, online in the foreground, and has never collected
    garbage; "A" (cursor 3) and "B" (cursor 10) are both active. *)
Definition stateCollect : State :=
  exampleState (clientA true true true)
    (mkDb (Some (leaseOf "A" true 1500))
       (<["A" := DbClientMetadata.mk "A" 1500 true true (Some 3)]>
        (<["B" := DbClientMetadata.mk "B" 1800 true false (Some 10)]> ∅))
       {[ 2; 7; 10; 12 ]})
    ∅ 2000.

(** A new instance for client "A", before [start]. *)
Definition stateFresh : State :=
  exampleState (newPersistence "app" "A" true) emptyDb ∅ 2000.

(** The same on a platform without a usable IndexedDB. *)
Definition stateUnavailable : State :=
  mkState (newPersistence "app" "A" true) emptyDb (Some (exampleWindow ∅))
    (Some exampleDocument) (mkAsyncQueue [] [] 1) 2000
    (mkEnvironment false false None None) [].

(** "B" holds a fresh lease and has opted into tab synchronization. *)
Definition stateShared : State :=
  exampleState (clientA false true true) (mkDb (Some (leaseOf "B" true 1000)) ∅ ∅) ∅ 2000.

(** "B" holds a fresh lease but has left a zombie marker behind. *)
Definition stateZombiedHolder : State :=
  exampleState (clientA false true true) (mkDb (Some (leaseOf "B" true 1900)) ∅ ∅)
    {[ "firestore_zombie_app_B" := "1950" ]} 2000.

(** A new instance for "A", long after "B", which held the persistence
    layer exclusively, wrote its last lease. *)
Definition stateFreshAfterCrash : State :=
  exampleState (newPersistence "app" "A" true)
    (mkDb (Some (leaseOf "B" false 1000)) ∅ ∅) ∅ 9000.

(** "A" is started and alone in an empty database. *)
Definition stateIdle : State := exampleState (clientA false true true) emptyDb ∅ 2000.

(** Client "B", sharing the stores one second after "A", alone and online
    in the foreground, wrote its lease. *)
Definition stateOtherClient : State :=
  mkState
    (mkPersistence "app" "B" true (Some (mkSimpleDb false)) true false true None true true
       true (Some 0%nat) NEGATIVE_INFINITY 0)
    (mkDb (Some (leaseOf "A" true 2000)) ∅ ∅)
    (Some (exampleWindow ∅)) (Some exampleDocument) (mkAsyncQueue [] [] 1) 3000
    exampleEnv [].

(** A new instance for "A" while "B" holds a fresh exclusive lease. *)
Definition stateFreshExclusive : State :=
  exampleState (newPersistence "app" "A" true)
    (mkDb (Some (leaseOf "B" false 1000)) ∅ ∅) ∅ 2000.

(** "A" holds a fresh lease, is in the background with its network
    disabled, and only its own record is in the store. *)
Definition stateAloneOffline : State :=
  exampleState (clientA true false false)
    (mkDb (Some (leaseOf "A" true 1000))
       (<["A" := DbClientMetadata.mk "A" 1000 false false (Some 0)]> ∅) ∅)
    ∅ 2000.

(** "A" on a platform whose LocalStorage throws on every access. *)
Definition stateBlockedStorage : State :=
  mkState (clientA false true true) emptyDb (Some (mkWindow LsFailing true true))
    (Some exampleDocument) (mkAsyncQueue [] [] 1) 2000 exampleEnv [].

(** ** The vocabulary of the specification *)

(** The side channel holds a zombie marker for [clientId]. A side channel
    that is missing or out of order holds none. *)
Definition zombieMarked (st : State) (clientId : string) : bool :=
  match window st with
  | Some w =>
      match localStorage w with
      | LsItems items =>
          bool_decide (is_Some (items !! zombiedClientLocalStorageKey st clientId))
      | LsUndefined | LsFailing => false
      end
  | None => false
  end.

(** The platform the code supports: a window, and a LocalStorage that is
    defined unless the mock persistence of the tests is in use (the
    assertion of [isClientZombied]). *)
Definition sideChannelSupported (st : State) : bool :=
  match window st with
  | Some w =>
      match localStorage w with
      | LsUndefined => USE_MOCK_PERSISTENCE (env st)
      | LsFailing | LsItems _ => true
      end
  | None => false
  end.

(** [t] lies at most [maxAgeMs] before now and not after now. *)
Definition withinAge (st : State) (t maxAgeMs : Z) : Prop :=
  now st - maxAgeMs ≤ t ≤ now st.

Definition leaseValid (st : State) (p : DbPrimaryClient.t) : Prop :=
  withinAge st (DbPrimaryClient.leaseTimestampMs p) 5000
  ∧ zombieMarked st (DbPrimaryClient.ownerId p) = false.

Definition activeClient (st : State) (maxAgeMs : Z) (c : DbClientMetadata.t) : Prop :=
  withinAge st (DbClientMetadata.updateTimeMs c) maxAgeMs
  ∧ zombieMarked st (DbClientMetadata.clientId c) = false.

(** The preference predicate: peer [P] is preferred over the local
    client. *)
Definition preferredOverSelf (st : State) (P : DbClientMetadata.t) : Prop :=
  (DbClientMetadata.networkEnabled P = true ∧ networkEnabled (this st) = false)
  ∨ (DbClientMetadata.inForeground P = true ∧ inForeground (this st) = false
     ∧ DbClientMetadata.networkEnabled P = networkEnabled (this st)).

(** No other active client is preferred over the local one. *)
Definition noPreferredPeer (st : State) : Prop :=
  ∀ P, P ∈ loadAll st →
       activeClient st 5000 P →
       DbClientMetadata.clientId P ≠ clientId (this st) →
       ¬ preferredOverSelf st P.

(** The active clients other than the local one, as the garbage collection
    sees them. *)
Definition activePeer (st : State) (c : DbClientMetadata.t) : Prop :=
  c ∈ loadAll st
  ∧ activeClient st CLIENT_STATE_GARBAGE_COLLECTION_THRESHOLD_MS c
  ∧ DbClientMetadata.clientId c ≠ clientId (this st).

(** The cursor of a client into the change log; a missing one reads 0. *)
Definition cursor (c : DbClientMetadata.t) : Z :=
  or_zero (DbClientMetadata.lastProcessedDocumentChangeId c).

(** The delayed operation a run of the refresher adds. *)
Definition nextRefresh (st : State) : DelayedOperation :=
  mkDelayedOperation (nextHandle (queue st)) ClientMetadataRefresh
    CLIENT_METADATA_REFRESH_INTERVAL_MS RefreshMetadataAndLease.

(** The executable counterparts of [withinAge] and [activeClient]. *)
Definition activeClientb (st : State) (maxAgeMs : Z) (c : DbClientMetadata.t) : bool :=
  isWithinAge st (Finite (DbClientMetadata.updateTimeMs c)) maxAgeMs
  && negb (zombieMarked st (DbClientMetadata.clientId c)).

(** A method leaves the component [f] of the state as it found it,
    whatever it returns. *)
Definition preserves {X A} (f : State → X) (c : M A) : Prop :=
  ∀ st, f (snd (c st)) = f st.

(** The pending delayed operations and the next free handle. *)
Definition timers (st : State) : list DelayedOperation * nat :=
  (delayedOperations (queue st), nextHandle (queue st)).

(** The lists the garbage collection computes: the active clients, the
    inactive ones, and the active ones other than the local client. *)
Definition gcActive (st : State) : list DbClientMetadata.t :=
  List.filter (activeClientb st CLIENT_STATE_GARBAGE_COLLECTION_THRESHOLD_MS) (loadAll st).
Definition gcInactive (st : State) : list DbClientMetadata.t :=
  List.filter (λ client, bool_decide (client ∉ gcActive st)) (loadAll st).
Definition gcPeers (st : State) : list DbClientMetadata.t :=
  List.filter
    (λ client, bool_decide (DbClientMetadata.clientId client ≠ clientId (this st)))
    (gcActive st).

(** The state after the deletion of the metadata of [clients]. *)
Definition deleteClientMetadata (clients : list DbClientMetadata.t) (st : State) : State :=
  foldl (λ s client,
           with_db (λ d, set_clientMetadata
                           (delete (DbClientMetadata.clientId client) (clientMetadata d)) d) s)
        st clients.

(** The state after [removeDocumentChangesThroughChangeId changeId]. *)
Definition truncated (changeId : Z) (st : State) : State :=
  with_removedThrough (λ l, l ++ [changeId])
    (with_db (λ d, set_remoteDocumentChanges
                     (filter (λ i, changeId < i) (remoteDocumentChanges d)) d) st).

(** Every record of the client metadata store sits under its own client
    id, as the key path of the store has it. *)
Definition keysMatch (d : Db) : Prop :=
  ∀ k c, clientMetadata d !! k = Some c → DbClientMetadata.clientId c = k.

(** The record a heartbeat writes, and the state once it is written. *)
Definition heartbeatRecord (st : State) : DbClientMetadata.t :=
  DbClientMetadata.mk (clientId (this st)) (now st) (networkEnabled (this st))
    (inForeground (this st)) (Some (lastProcessedDocumentChangeId (this st))).
Definition withHeartbeat (st : State) : State :=
  with_db (λ d, set_clientMetadata
                  (<[clientId (this st) := heartbeatRecord st]> (clientMetadata d)) d) st.

(** The lease the local client writes at the time of [st]. *)
Definition ownLease (st : State) : DbPrimaryClient.t :=
  DbPrimaryClient.mk (clientId (this st)) (allowTabSynchronization (this st)) (now st).

(** The clock showing [t]. *)
Definition at_time (t : Z) (st : State) : State :=
  let 'mkState p d w doc q _ e r := st in mkState p d w doc q t e r.

(** A method keeps the property [P] of the stores. *)
Definition keepsDb (P : Db → Prop) {A} (c : M A) : Prop :=
  ∀ st, P (db st) → P (db (snd (c st))).

(** The observers that are registered can be detached: the assertions of
    [detachVisibilityHandler] and [detachWindowUnloadHook] hold. *)
Definition observersDetachable (st : State) : bool :=
  implb (documentVisibilityHandler (this st))
        (match document st with
         | Some d => document_addEventListener d
         | None => false
         end)
  && implb (windowUnloadHandler (this st))
           (match window st with
            | Some w => window_removeEventListener w
            | None => false
            end).

(** The stores once the local client has released its lease, if it held
    it, and removed its metadata. *)
Definition withoutClient (clientId : string) (d : Db) : Db :=
  mkDb (match primaryClient d with
        | Some p =>
            if bool_decide (DbPrimaryClient.ownerId p = clientId) then None else Some p
        | None => None
        end)
       (delete clientId (clientMetadata d))
       (remoteDocumentChanges d).

(** The character [.], code 46, least significant bit first. *)
Definition dot : Ascii.ascii := Ascii.Ascii false true true true false true false false.

(** The string holds no dot, as a project id, being a DNS label, does
    not. *)
Fixpoint dotFree (s : string) : bool :=
  match s with
  | EmptyString => true
  | String c s' => negb (Ascii.eqb c dot) && dotFree s'
  end.

(** The state a heartbeat leaves when [canActAsPrimary] answered [b]. *)
Definition heartbeatState (b : bool) (st : State) : State :=
  mkState
    (set_isPrimary b (this st))
    (mkDb (if b then Some (ownLease st)
           else if isPrimary (this st) && isLocalClient st (primaryClient (db st)) then None
           else primaryClient (db st))
          (<[clientId (this st) := heartbeatRecord st]> (clientMetadata (db st)))
          (remoteDocumentChanges (db st)))
    (window st) (document st)
    (mkAsyncQueue
       (if bool_decide (isPrimary (this st) = b) then operations (queue st)
        else operations (queue st) ++ [NotifyPrimaryStateIfStarted])
       (delayedOperations (queue st)) (nextHandle (queue st)))
    (now st) (env st) (removedThrough st).

(** * Properties *)

(** ** The side channel and the age test *)

Lemma isWithinAge_spec st t maxAgeMs :
  isWithinAge st (Finite t) maxAgeMs = true ↔ withinAge st t maxAgeMs.
Proof.
  unfold isWithinAge, withinAge, number_lt.
  destruct (Z.ltb_spec t (now st - maxAgeMs)), (Z.ltb_spec (now st) t);
    split; intros; try discriminate; try lia; reflexivity.
Qed.

Lemma isWithinAge_NEGATIVE_INFINITY st maxAgeMs :
  isWithinAge st NEGATIVE_INFINITY maxAgeMs = false.
Proof. reflexivity. Qed.

Lemma isClientZombied_supported st cid :
  sideChannelSupported st = true →
  ∃ z, isClientZombied st cid = Ok z ∧ truthy z = zombieMarked st cid.
Proof.
  unfold sideChannelSupported, isClientZombied, zombieMarked.
  destruct (window st) as [w|]; [|discriminate].
  destruct (localStorage w) as [| |items]; intros Hs.
  - rewrite Hs. by exists None.
  - by exists None.
  - eexists. split; [reflexivity|]. simpl.
    destruct (items !! _) eqn:E; symmetry.
    + apply bool_decide_eq_true. eauto.
    + apply bool_decide_eq_false. intros [? ?]. congruence.
Qed.

Lemma isActiveClient_supported st maxAgeMs c :
  sideChannelSupported st = true →
  isActiveClient st maxAgeMs c = Ok (activeClientb st maxAgeMs c).
Proof.
  intros Hs. unfold isActiveClient, activeClientb.
  destruct (isWithinAge _ _ _); [|reflexivity].
  destruct (isClientZombied_supported st (DbClientMetadata.clientId c) Hs) as (z & -> & <-).
  reflexivity.
Qed.

Lemma activeClientb_spec st maxAgeMs c :
  activeClientb st maxAgeMs c = true ↔ activeClient st maxAgeMs c.
Proof.
  unfold activeClientb, activeClient.
  rewrite andb_true_iff, isWithinAge_spec, negb_true_iff. reflexivity.
Qed.

Lemma filterR_total {A} (p : A → Result bool) (q : A → bool) (l : list A) :
  (∀ x, p x = Ok (q x)) → filterR p l = Ok (List.filter q l).
Proof.
  intros Hp. induction l as [|x xs IH]; [reflexivity|].
  simpl. rewrite Hp, IH. simpl. reflexivity.
Qed.

Lemma filterActiveClients_supported st clients maxAgeMs :
  sideChannelSupported st = true →
  filterActiveClients st clients maxAgeMs
  = Ok (List.filter (activeClientb st maxAgeMs) clients).
Proof.
  intros Hs. apply filterR_total. intros c. by apply isActiveClient_supported.
Qed.

Lemma currentLeaseIsValid_supported st p :
  sideChannelSupported st = true →
  currentLeaseIsValid st (Some p)
  = Ok (isWithinAge st (Finite (DbPrimaryClient.leaseTimestampMs p)) CLIENT_METADATA_MAX_AGE_MS
        && negb (zombieMarked st (DbPrimaryClient.ownerId p))).
Proof.
  intros Hs. unfold currentLeaseIsValid.
  destruct (isWithinAge _ _ _); [|reflexivity].
  destruct (isClientZombied_supported st (DbPrimaryClient.ownerId p) Hs) as (z & -> & <-).
  reflexivity.
Qed.

Lemma currentLeaseIsValid_leaseValid st p :
  sideChannelSupported st = true →
  leaseValid st p →
  currentLeaseIsValid st (Some p) = Ok true.
Proof.
  intros Hs [Hage Hz]. rewrite currentLeaseIsValid_supported by done.
  apply isWithinAge_spec in Hage. unfold CLIENT_METADATA_MAX_AGE_MS.
  by rewrite Hage, Hz.
Qed.

(** ** Lease validity *)

(** C3. The lease read from the store is considered valid exactly when the
    record exists, its [leaseTimestampMs] lies at most 5000 ms before now
    and not after now, and the side channel holds no zombie marker for its
    owner. *)
Theorem currentLeaseIsValid_iff st currentPrimary :
  sideChannelSupported st = true →
  ∃ valid,
    currentLeaseIsValid st currentPrimary = Ok valid
    ∧ (valid = true ↔
       ∃ p, currentPrimary = Some p
            ∧ now st - 5000 ≤ DbPrimaryClient.leaseTimestampMs p ≤ now st
            ∧ zombieMarked st (DbPrimaryClient.ownerId p) = false).
Proof.
  intros Hs. destruct currentPrimary as [p|].
  - rewrite currentLeaseIsValid_supported by done. eexists. split; [reflexivity|].
    rewrite andb_true_iff, isWithinAge_spec, negb_true_iff.
    unfold withinAge, CLIENT_METADATA_MAX_AGE_MS. split.
    + intros [? ?]. by exists p.
    + intros (p' & [= <-] & ? & ?). done.
  - exists false. split; [reflexivity|]. split; [discriminate|].
    intros (p & ? & _). discriminate.
Qed.

Lemma currentLeaseIsValid_iff_witness :
  ∃ valid,
    currentLeaseIsValid stateHolderOffline (Some (leaseOf "A" true 1000)) = Ok valid
    ∧ (valid = true ↔
       ∃ p, Some (leaseOf "A" true 1000) = Some p
            ∧ now stateHolderOffline - 5000 ≤ DbPrimaryClient.leaseTimestampMs p
              ≤ now stateHolderOffline
            ∧ zombieMarked stateHolderOffline (DbPrimaryClient.ownerId p) = false).
Proof. apply (currentLeaseIsValid_iff stateHolderOffline). reflexivity. Defined.

(** ** The peer scan *)

Lemma isPreferredCandidate_spec st P :
  isPreferredCandidate st P = true ↔
  DbClientMetadata.clientId P ≠ clientId (this st) ∧ preferredOverSelf st P.
Proof.
  unfold isPreferredCandidate, preferredOverSelf.
  destruct (networkEnabled (this st)), (inForeground (this st)),
    (DbClientMetadata.networkEnabled P), (DbClientMetadata.inForeground P);
    simpl; repeat case_bool_decide; simpl; intuition congruence.
Qed.

Lemma canActAsPrimary_scan_spec st :
  sideChannelSupported st = true →
  ∃ b, canActAsPrimary_scan st = Ok b
       ∧ (b = true ↔
          (networkEnabled (this st) = true ∧ inForeground (this st) = true)
          ∨ noPreferredPeer st).
Proof.
  intros Hs. unfold canActAsPrimary_scan.
  destruct (networkEnabled (this st) && inForeground (this st)) eqn:Hnf.
  - exists true. split; [reflexivity|]. apply andb_true_iff in Hnf. tauto.
  - rewrite filterActiveClients_supported by done. simpl.
    eexists. split; [reflexivity|].
    destruct (List.find _ _) as [P|] eqn:Hfind.
    + apply find_some in Hfind as [Hin Hpref].
      apply filter_In in Hin as [Hin Hact].
      apply isPreferredCandidate_spec in Hpref as [Hne Hpref].
      split; [discriminate|]. intros [[Hn Hf]|Hno].
      * rewrite Hn, Hf in Hnf. discriminate.
      * exfalso. apply (Hno P); [by apply list_elem_of_In| |done..].
        by apply activeClientb_spec.
    + split; [|done]. intros _. right. intros P HP Hact Hne Hpref.
      assert (isPreferredCandidate st P = false) as Hf.
      { apply (find_none _ _ Hfind). apply filter_In. split.
        - by apply list_elem_of_In.
        - by apply activeClientb_spec. }
      assert (isPreferredCandidate st P = true) by (by apply isPreferredCandidate_spec).
      congruence.
Qed.

Lemma currentLeaseIsValid_not_valid st currentPrimary :
  sideChannelSupported st = true →
  (∀ p, currentPrimary = Some p → ¬ leaseValid st p) →
  currentLeaseIsValid st currentPrimary = Ok false.
Proof.
  intros Hs Hno. destruct currentPrimary as [p|]; [|reflexivity].
  rewrite currentLeaseIsValid_supported by done. f_equal.
  apply not_true_is_false. intros Hv. apply (Hno p eq_refl).
  apply andb_true_iff in Hv as [Hage Hz]. split.
  - by apply isWithinAge_spec.
  - by apply negb_true_iff.
Qed.

(** C4. When no valid lease applies and the local client is not both
    network-enabled and in the foreground, [canActAsPrimary] returns true
    exactly when no other active client is preferred over the local one:
    none that has its network enabled while the local one has not, and none
    that is in the foreground while the local one is not and has the same
    network state. *)
Theorem canActAsPrimary_peer_scan st :
  sideChannelSupported st = true →
  (∀ p, primaryClient (db st) = Some p → ¬ leaseValid st p) →
  ¬ (networkEnabled (this st) = true ∧ inForeground (this st) = true) →
  ∃ b, canActAsPrimary st = Ok b
       ∧ (b = true ↔
          ∀ P, P ∈ loadAll st →
               activeClient st 5000 P →
               DbClientMetadata.clientId P ≠ clientId (this st) →
               ¬ ((DbClientMetadata.networkEnabled P = true
                   ∧ networkEnabled (this st) = false)
                  ∨ (DbClientMetadata.inForeground P = true
                     ∧ inForeground (this st) = false
                     ∧ DbClientMetadata.networkEnabled P = networkEnabled (this st)))).
Proof.
  intros Hs Hno Hnf. unfold canActAsPrimary.
  rewrite (currentLeaseIsValid_not_valid st _ Hs Hno). simpl.
  destruct (canActAsPrimary_scan_spec st Hs) as (b & -> & Hb).
  exists b. split; [reflexivity|]. rewrite Hb.
  unfold noPreferredPeer, preferredOverSelf. tauto.
Qed.

Lemma canActAsPrimary_peer_scan_witness :
  ∃ b, canActAsPrimary stateBackground = Ok b
       ∧ (b = true ↔
          ∀ P, P ∈ loadAll stateBackground →
               activeClient stateBackground 5000 P →
               DbClientMetadata.clientId P ≠ clientId (this stateBackground) →
               ¬ ((DbClientMetadata.networkEnabled P = true
                   ∧ networkEnabled (this stateBackground) = false)
                  ∨ (DbClientMetadata.inForeground P = true
                     ∧ inForeground (this stateBackground) = false
                     ∧ DbClientMetadata.networkEnabled P
                       = networkEnabled (this stateBackground)))).
Proof.
  apply (canActAsPrimary_peer_scan stateBackground).
  - reflexivity.
  - intros p Hp. vm_compute in Hp. discriminate Hp.
  - intros [_ Hf]. vm_compute in Hf. discriminate Hf.
Defined.

(** ** A valid lease of the local client *)

(** C1, as the code has it. When the stored lease is valid and owned by the
    local client, [canActAsPrimary] returns true if the local client has
    its network enabled; with the network disabled it goes on to the peer
    scan and returns true exactly when no other active client is preferred
    over the local one. *)
Theorem canActAsPrimary_local_lease st p :
  sideChannelSupported st = true →
  primaryClient (db st) = Some p →
  leaseValid st p →
  DbPrimaryClient.ownerId p = clientId (this st) →
  ∃ b, canActAsPrimary st = Ok b
       ∧ (b = true ↔ networkEnabled (this st) = true ∨ noPreferredPeer st).
Proof.
  intros Hs Hp Hv Hown. unfold canActAsPrimary. rewrite Hp.
  rewrite (currentLeaseIsValid_leaseValid st p Hs Hv). simpl.
  rewrite (bool_decide_eq_true_2 _ Hown). simpl.
  destruct (networkEnabled (this st)) eqn:Hn.
  - exists true. split; [reflexivity|]. tauto.
  - destruct (canActAsPrimary_scan_spec st Hs) as (b & -> & Hb).
    exists b. split; [reflexivity|]. rewrite Hb, Hn.
    split; [intros [[? _]|?]|intros [?|?]]; try discriminate; tauto.
Qed.

Lemma canActAsPrimary_local_lease_witness :
  ∃ b, canActAsPrimary stateHolderOffline = Ok b
       ∧ (b = true ↔ networkEnabled (this stateHolderOffline) = true
                      ∨ noPreferredPeer stateHolderOffline).
Proof.
  apply (canActAsPrimary_local_lease stateHolderOffline (leaseOf "A" true 1000)).
  - reflexivity.
  - reflexivity.
  - split; [unfold withinAge; simpl; lia | reflexivity].
  - reflexivity.
Defined.

(** C1 as stated fails: the holder of a valid lease with its network
    disabled is still eligible when it is alone. *)
Lemma canActAsPrimary_local_lease_not_iff_network :
  ¬ (∀ st p,
       sideChannelSupported st = true →
       primaryClient (db st) = Some p →
       leaseValid st p →
       DbPrimaryClient.ownerId p = clientId (this st) →
       canActAsPrimary st = Ok (networkEnabled (this st))).
Proof.
  intros H.
  specialize (H stateHolderOffline (leaseOf "A" true 1000)).
  assert (canActAsPrimary stateHolderOffline = Ok true) as Hrun by reflexivity.
  rewrite H in Hrun.
  - discriminate Hrun.
  - reflexivity.
  - reflexivity.
  - split; [unfold withinAge; simpl; lia | reflexivity].
  - reflexivity.
Qed.

(** ** The transaction gate *)

(** C2. A transaction that requires the primary lease, on an instance with
    no latched error and an open database: if [canActAsPrimary] evaluates to
    false, the call sets [isPrimary] to false, enqueues the notification
    [primaryStateListener(false)] and fails with PRIMARY_LEASE_LOST, and the
    body has not run (nothing else of the state changes); if it evaluates to
    true, the body runs, and when it has completed the lease is written as
    the local client's, with the time at that moment. *)
Theorem runTransaction_requirePrimaryLease {T} action (transactionOperation : M T)
    st simpleDb_ :
  persistenceError (this st) = None →
  simpleDb (this st) = Some simpleDb_ →
  (canActAsPrimary st = Ok false →
   runTransaction action true transactionOperation st
   = (Err PRIMARY_LEASE_LOST,
      with_queue (λ q, mkAsyncQueue (operations q ++ [NotifyPrimaryState false])
                         (delayedOperations q) (nextHandle q))
        (with_this (set_isPrimary false) st)))
  ∧ (canActAsPrimary st = Ok true →
     ∀ result st1,
       transactionOperation st = (Ok result, st1) →
       runTransaction action true transactionOperation st
       = (Ok result,
          with_db (set_primaryClient
                     (Some (DbPrimaryClient.mk (clientId (this st1))
                              (allowTabSynchronization (this st1)) (now st1)))) st1)).
Proof.
  intros Herr Hdb. split.
  - intros Hcan. unfold runTransaction, SimpleDb_runTransaction. rewrite Herr, Hdb.
    unfold bind, eval. rewrite Hcan. simpl.
    destruct st as [t d w doc q n e r]. reflexivity.
  - intros Hcan result st1 Hbody.
    unfold runTransaction, SimpleDb_runTransaction. rewrite Herr, Hdb.
    unfold bind, eval. rewrite Hcan. simpl. rewrite Hbody. reflexivity.
Qed.

Lemma runTransaction_requirePrimaryLease_witness :
  runTransaction "Acknowledge batch" true (ret 7) stateBackground
  = (Err PRIMARY_LEASE_LOST,
     with_queue (λ q, mkAsyncQueue (operations q ++ [NotifyPrimaryState false])
                        (delayedOperations q) (nextHandle q))
       (with_this (set_isPrimary false) stateBackground))
  ∧ runTransaction "Acknowledge batch" true
      (modify (λ st, mkState (this st) (db st) (window st) (document st) (queue st)
                       (now st + 300) (env st) (removedThrough st)) ;;; ret 7)
      stateSolo
    = (Ok 7,
       exampleState (clientA false true true) (mkDb (Some (leaseOf "A" true 2300)) ∅ ∅)
         ∅ 2300).
Proof.
  split.
  - refine (proj1 (runTransaction_requirePrimaryLease "Acknowledge batch" (ret 7)
                     stateBackground (mkSimpleDb false) eq_refl eq_refl) _).
    reflexivity.
  - refine (proj2 (runTransaction_requirePrimaryLease "Acknowledge batch" _
                     stateSolo (mkSimpleDb false) eq_refl eq_refl) _ 7
                  (exampleState (clientA false true true) emptyDb ∅ 2300) _);
      reflexivity.
Defined.

(** ** A lease held exclusively by another client *)

Lemma canActAsPrimary_exclusive st p :
  sideChannelSupported st = true →
  primaryClient (db st) = Some p →
  leaseValid st p →
  DbPrimaryClient.ownerId p ≠ clientId (this st) →
  DbPrimaryClient.allowTabSynchronization p = false →
  canActAsPrimary st = Err PRIMARY_LEASE_EXCLUSIVE.
Proof.
  intros Hs Hp Hv Hown Hallow. unfold canActAsPrimary. rewrite Hp.
  rewrite (currentLeaseIsValid_leaseValid st p Hs Hv). simpl.
  rewrite (bool_decide_eq_false_2 _ Hown), Hallow. reflexivity.
Qed.

Lemma verifyAllowTabSynchronization_exclusive st p :
  sideChannelSupported st = true →
  primaryClient (db st) = Some p →
  leaseValid st p →
  DbPrimaryClient.ownerId p ≠ clientId (this st) →
  DbPrimaryClient.allowTabSynchronization p = false →
  verifyAllowTabSynchronization st = Err PRIMARY_LEASE_EXCLUSIVE.
Proof.
  intros Hs Hp Hv Hown Hallow. unfold verifyAllowTabSynchronization. rewrite Hp.
  rewrite (currentLeaseIsValid_leaseValid st p Hs Hv). simpl.
  rewrite (bool_decide_eq_false_2 _ Hown), Hallow. reflexivity.
Qed.

(** C5. While another client holds a valid lease without having opted into
    tab synchronization, [canActAsPrimary] and
    [verifyAllowTabSynchronization] fail with PRIMARY_LEASE_EXCLUSIVE; so
    does every [runTransaction], with or without the lease required, and
    the heartbeat; the transaction aborts, and the stores, the holder's
    PrimaryClient record among them, are as before. *)
Theorem exclusive_lease_rejects st p :
  sideChannelSupported st = true →
  primaryClient (db st) = Some p →
  leaseValid st p →
  DbPrimaryClient.ownerId p ≠ clientId (this st) →
  DbPrimaryClient.allowTabSynchronization p = false →
  canActAsPrimary st = Err PRIMARY_LEASE_EXCLUSIVE
  ∧ verifyAllowTabSynchronization st = Err PRIMARY_LEASE_EXCLUSIVE
  ∧ (∀ simpleDb_ T action requirePrimaryLease (transactionOperation : M T),
       simpleDb (this st) = Some simpleDb_ →
       persistenceError (this st) = None →
       runTransaction action requirePrimaryLease transactionOperation st
       = (Err PRIMARY_LEASE_EXCLUSIVE, st))
  ∧ (∀ simpleDb_,
       simpleDb (this st) = Some simpleDb_ →
       ∃ st', updateClientMetadataAndTryBecomePrimary st
              = (Err PRIMARY_LEASE_EXCLUSIVE, st')
              ∧ db st' = db st
              ∧ primaryClient (db st') = Some p).
Proof.
  intros Hs Hp Hv Hown Hallow.
  pose proof (canActAsPrimary_exclusive st p Hs Hp Hv Hown Hallow) as Hcan.
  pose proof (verifyAllowTabSynchronization_exclusive st p Hs Hp Hv Hown Hallow) as Hver.
  split; [done|]. split; [done|]. split.
  - intros simpleDb_ T action requirePrimaryLease transactionOperation Hdb Herr.
    unfold runTransaction, SimpleDb_runTransaction. rewrite Herr, Hdb.
    destruct requirePrimaryLease; unfold bind, eval; rewrite ?Hcan, ?Hver; simpl;
      destruct st; reflexivity.
  - intros simpleDb_ Hdb.
    unfold updateClientMetadataAndTryBecomePrimary, SimpleDb_runTransaction.
    rewrite Hdb. unfold bind at 1. unfold bind at 1. unfold eval at 1.
    rewrite (canActAsPrimary_exclusive _ p).
    + eexists. split; [reflexivity|]. destruct st; simpl in *. done.
    + destruct st; exact Hs.
    + destruct st; exact Hp.
    + destruct st; exact Hv.
    + destruct st; exact Hown.
    + exact Hallow.
Qed.

Lemma exclusive_lease_rejects_witness :
  canActAsPrimary stateExclusive = Err PRIMARY_LEASE_EXCLUSIVE
  ∧ verifyAllowTabSynchronization stateExclusive = Err PRIMARY_LEASE_EXCLUSIVE
  ∧ (∀ simpleDb_ T action requirePrimaryLease (transactionOperation : M T),
       simpleDb (this stateExclusive) = Some simpleDb_ →
       persistenceError (this stateExclusive) = None →
       runTransaction action requirePrimaryLease transactionOperation stateExclusive
       = (Err PRIMARY_LEASE_EXCLUSIVE, stateExclusive))
  ∧ (∀ simpleDb_,
       simpleDb (this stateExclusive) = Some simpleDb_ →
       ∃ st', updateClientMetadataAndTryBecomePrimary stateExclusive
              = (Err PRIMARY_LEASE_EXCLUSIVE, st')
              ∧ db st' = db stateExclusive
              ∧ primaryClient (db st') = Some (leaseOf "B" false 1000)).
Proof.
  apply (exclusive_lease_rejects stateExclusive (leaseOf "B" false 1000)).
  - reflexivity.
  - reflexivity.
  - split; [unfold withinAge; simpl; lia | reflexivity].
  - discriminate.
  - reflexivity.
Defined.

(** ** Releasing the lease *)

(** C8. [releasePrimaryLeaseIfHeld] always succeeds and sets [isPrimary] to
    false; it deletes the PrimaryClient record when the local client owns
    it, and leaves the record as it is when it is absent or owned by
    another client; the other stores, the other fields of the instance, the
    side channel and the queue are unchanged. *)
Theorem releasePrimaryLeaseIfHeld_effect st :
  ∃ st',
    releasePrimaryLeaseIfHeld st = (Ok tt, st')
    ∧ isPrimary (this st') = false
    ∧ primaryClient (db st')
      = match primaryClient (db st) with
        | Some p =>
            if bool_decide (DbPrimaryClient.ownerId p = clientId (this st))
            then None
            else Some p
        | None => None
        end
    ∧ clientMetadata (db st') = clientMetadata (db st)
    ∧ remoteDocumentChanges (db st') = remoteDocumentChanges (db st)
    ∧ this st' = set_isPrimary false (this st)
    ∧ window st' = window st
    ∧ queue st' = queue st
    ∧ removedThrough st' = removedThrough st.
Proof.
  destruct st as [t [pc cm rc] w doc q n e r].
  unfold releasePrimaryLeaseIfHeld, bind, modify. simpl.
  destruct pc as [p|]; simpl.
  - replace (clientId (set_isPrimary false t)) with (clientId t) by (by destruct t).
    case_bool_decide; eexists; (split; [reflexivity|]); simpl;
      destruct t; simpl; repeat split; done.
  - eexists. split; [reflexivity|]. destruct t; simpl; repeat split; done.
Qed.

(** ** What a method leaves alone *)

Section Frame.
Context {X : Type} (f : State → X).

Hypothesis f_this : ∀ g st, f (with_this g st) = f st.
Hypothesis f_db : ∀ g st, f (with_db g st) = f st.
Hypothesis f_window : ∀ g st, f (with_window g st) = f st.
Hypothesis f_removedThrough : ∀ g st, f (with_removedThrough g st) = f st.
Hypothesis f_enqueue : ∀ task st,
  f (with_queue (λ q, mkAsyncQueue (operations q ++ [task]) (delayedOperations q)
                        (nextHandle q)) st) = f st.

Lemma preserves_ret {A} (a : A) : preserves f (ret a).
Proof. intros st. reflexivity. Qed.

Lemma preserves_throw {A} e : preserves f (@throw A e).
Proof. intros st. reflexivity. Qed.

Lemma preserves_eval {A} (g : State → Result A) : preserves f (eval g).
Proof. intros st. reflexivity. Qed.

Lemma preserves_modify g : (∀ st, f (g st) = f st) → preserves f (modify g).
Proof. intros Hg st. apply Hg. Qed.

Lemma preserves_bind {A B} (c : M A) (k : A → M B) :
  preserves f c → (∀ a, preserves f (k a)) → preserves f (bind c k).
Proof.
  intros Hc Hk st. unfold bind. specialize (Hc st).
  destruct (c st) as [[a|e] st']; simpl in *.
  - rewrite Hk. exact Hc.
  - exact Hc.
Qed.

Lemma preserves_forEach {A} (l : list A) (g : A → M unit) :
  (∀ a, preserves f (g a)) → preserves f (forEach l g).
Proof.
  intros Hg. induction l as [|x xs IH]; simpl.
  - apply preserves_ret.
  - apply preserves_bind; [apply Hg | intros _; exact IH].
Qed.

Lemma preserves_try_catch c : preserves f c → preserves f (try_catch c).
Proof.
  intros Hc st. unfold try_catch. specialize (Hc st).
  destruct (c st) as [[a|e] st']; exact Hc.
Qed.

Lemma preserves_SimpleDb_runTransaction {A} (c : M A) :
  preserves f c → preserves f (SimpleDb_runTransaction c).
Proof.
  intros Hc st. unfold SimpleDb_runTransaction.
  destruct (simpleDb (this st)); [|reflexivity].
  specialize (Hc st). destruct (c st) as [[a|e] st']; simpl in *.
  - exact Hc.
  - rewrite f_db. exact Hc.
Qed.

Lemma preserves_enqueueAndForget task : preserves f (enqueueAndForget task).
Proof. apply preserves_modify. intros st. apply f_enqueue. Qed.

Lemma preserves_acquireOrExtendPrimaryLease : preserves f acquireOrExtendPrimaryLease.
Proof. intros st. unfold acquireOrExtendPrimaryLease. simpl. apply f_db. Qed.

Lemma preserves_releasePrimaryLeaseIfHeld : preserves f releasePrimaryLeaseIfHeld.
Proof.
  apply preserves_bind.
  - apply preserves_modify. intros st. apply f_this.
  - intros _ st. cbv beta zeta.
    destruct (isLocalClient st _); simpl; [apply f_db | reflexivity].
Qed.

Lemma preserves_runTransaction {T} action requirePrimaryLease (c : M T) :
  preserves f c → preserves f (runTransaction action requirePrimaryLease c).
Proof.
  intros Hc st. unfold runTransaction.
  destruct (persistenceError (this st)); [reflexivity|].
  apply preserves_SimpleDb_runTransaction. destruct requirePrimaryLease.
  - apply preserves_bind.
    + apply preserves_bind; [apply preserves_eval|]. intros [|]; simpl; [exact Hc|].
      apply preserves_bind; [apply preserves_modify; intros; apply f_this|].
      intros _. apply preserves_bind; [apply preserves_enqueueAndForget|].
      intros _. apply preserves_throw.
    + intros result. apply preserves_bind; [apply preserves_acquireOrExtendPrimaryLease|].
      intros _. apply preserves_ret.
  - apply preserves_bind; [apply preserves_eval | intros _; exact Hc].
Qed.

Lemma preserves_updateClientMetadataAndTryBecomePrimary :
  preserves f updateClientMetadataAndTryBecomePrimary.
Proof.
  apply preserves_SimpleDb_runTransaction.
  apply preserves_bind; [intros st; simpl; apply f_db|]. intros _.
  apply preserves_bind; [apply preserves_eval|]. intros canActAsPrimary_.
  apply preserves_bind; [apply preserves_eval|]. intros wasPrimary.
  apply preserves_bind; [apply preserves_modify; intros; apply f_this|]. intros _.
  apply preserves_bind.
  - destruct (negb _); [apply preserves_enqueueAndForget | apply preserves_ret].
  - intros _. destruct (wasPrimary && negb canActAsPrimary_).
    + apply preserves_releasePrimaryLeaseIfHeld.
    + destruct canActAsPrimary_;
        [apply preserves_acquireOrExtendPrimaryLease | apply preserves_ret].
Qed.

Lemma preserves_garbageCollectTransaction : preserves f garbageCollectTransaction.
Proof.
  apply preserves_bind; [apply preserves_eval|]. intros existingClients.
  apply preserves_bind; [apply preserves_eval|]. intros activeClients.
  apply preserves_bind.
  { apply preserves_forEach. intros c. apply preserves_modify. intros; apply f_db. }
  intros _. apply preserves_bind; [apply preserves_eval|]. intros activeClients'.
  apply preserves_bind; [|intros _; apply preserves_ret].
  destruct (map _ _); [apply preserves_ret|].
  apply preserves_modify. intros st. rewrite f_removedThrough. apply f_db.
Qed.

Lemma preserves_localStorage_removeItem key : preserves f (localStorage_removeItem key).
Proof.
  intros st. unfold localStorage_removeItem.
  destruct (window st) as [w|]; [|reflexivity].
  destruct (localStorage w); simpl; try reflexivity. apply f_window.
Qed.

Lemma preserves_maybeGarbageCollectMultiClientState :
  preserves f maybeGarbageCollectMultiClientState.
Proof.
  intros st. unfold maybeGarbageCollectMultiClientState.
  destruct (_ && _); [|reflexivity].
  apply preserves_bind; [apply preserves_modify; intros; apply f_this|]. intros _.
  apply preserves_bind.
  - apply preserves_runTransaction, preserves_garbageCollectTransaction.
  - intros inactiveClients. apply preserves_forEach. intros c st'.
    apply preserves_localStorage_removeItem.
Qed.

End Frame.

(** ** The metadata refresher *)

Lemma timers_updateClientMetadataAndTryBecomePrimary st :
  timers (snd (updateClientMetadataAndTryBecomePrimary st)) = timers st.
Proof.
  apply (preserves_updateClientMetadataAndTryBecomePrimary timers);
    intros ? []; reflexivity.
Qed.

Lemma timers_maybeGarbageCollectMultiClientState st :
  timers (snd (maybeGarbageCollectMultiClientState st)) = timers st.
Proof.
  apply (preserves_maybeGarbageCollectMultiClientState timers);
    intros ? []; reflexivity.
Qed.

(** C6, as the code has it. A run of the refresher task adds the next
    refresh, [CLIENT_METADATA_REFRESH_INTERVAL_MS] from now, to the delayed
    operations exactly when it returns without an error, and it returns
    without an error exactly when both the heartbeat and the garbage
    collection do; an error of either step is the result of the task, and
    the delayed operations are then as before. *)
Theorem clientMetadataRefresherOp_reschedules st :
  delayedOperations (queue (snd (clientMetadataRefresherOp st)))
  = delayedOperations (queue st)
    ++ match fst (clientMetadataRefresherOp st) with
       | Ok _ => [nextRefresh st]
       | Err _ => []
       end
  ∧ (fst (clientMetadataRefresherOp st) = Ok tt ↔
     ∃ st1 st2,
       updateClientMetadataAndTryBecomePrimary st = (Ok tt, st1)
       ∧ maybeGarbageCollectMultiClientState st1 = (Ok tt, st2))
  ∧ (∀ e st1,
       updateClientMetadataAndTryBecomePrimary st = (Err e, st1) →
       clientMetadataRefresherOp st = (Err e, st1))
  ∧ (∀ e st1 st2,
       updateClientMetadataAndTryBecomePrimary st = (Ok tt, st1) →
       maybeGarbageCollectMultiClientState st1 = (Err e, st2) →
       clientMetadataRefresherOp st = (Err e, st2)).
Proof.
  pose proof (timers_updateClientMetadataAndTryBecomePrimary st) as Hupd.
  unfold clientMetadataRefresherOp, bind.
  destruct (updateClientMetadataAndTryBecomePrimary st) as [[[]|e] st1] eqn:Eupd;
    simpl in Hupd.
  - pose proof (timers_maybeGarbageCollectMultiClientState st1) as Hgc.
    destruct (maybeGarbageCollectMultiClientState st1) as [[[]|e] st2] eqn:Egc;
      simpl in Hgc.
    + assert (timers st2 = timers st) as Ht by congruence.
      unfold timers in Ht. injection Ht as Hd Hn.
      split; [|split; [split|split]].
      * unfold scheduleClientMetadataAndPrimaryLeaseRefreshes, bind, enqueueAfterDelay,
          modify, nextRefresh. simpl.
        destruct st2 as [t d w doc q n e r]. simpl in *. by rewrite Hd, Hn.
      * intros _. by exists st1, st2.
      * intros _. reflexivity.
      * intros e st1' [=].
      * intros e st1' st2' [= <-]. rewrite Egc. intros [=].
    + assert (timers st2 = timers st) as Ht by congruence.
      unfold timers in Ht. injection Ht as Hd Hn. simpl.
      split; [|split; [split|split]].
      * by rewrite Hd, app_nil_r.
      * intros [=].
      * intros (st1' & st2' & [= <-] & Hgc'). rewrite Egc in Hgc'. discriminate.
      * intros e' st1' [=].
      * intros e' st1' st2' [= <-]. rewrite Egc. by intros [= <- <-].
  - unfold timers in Hupd. injection Hupd as Hd Hn. simpl.
    split; [|split; [split|split]].
    + by rewrite Hd, app_nil_r.
    + intros [=].
    + intros (st1' & st2' & [=] & _).
    + by intros e' st1' [= <- <-].
    + intros e' st1' st2' [=].
Qed.

(** C6 as stated fails: when another client holds the lease exclusively the
    heartbeat fails, the task ends with that error, not caught, and no
    refresh is scheduled. *)
Lemma clientMetadataRefresherOp_error_not_rescheduled :
  fst (clientMetadataRefresherOp stateExclusive) = Err PRIMARY_LEASE_EXCLUSIVE
  ∧ delayedOperations (queue stateExclusive) = []
  ∧ delayedOperations (queue (snd (clientMetadataRefresherOp stateExclusive))) = [].
Proof. repeat split; reflexivity. Qed.

(** ** Garbage collection *)

Lemma Math_min_le first rest x : x ∈ first :: rest → Math_min first rest ≤ x.
Proof.
  unfold Math_min. revert first x.
  induction rest as [|y ys IH]; intros first x Hx; simpl.
  - apply list_elem_of_singleton in Hx. lia.
  - assert (foldl Z.min (first `min` y) ys ≤ first `min` y) as Hle
      by (apply IH; left).
    apply elem_of_cons in Hx as [->|Hx]; [lia|].
    apply elem_of_cons in Hx as [->|Hx]; [lia|].
    apply IH. by right.
Qed.

Lemma Math_min_elem first rest : Math_min first rest ∈ first :: rest.
Proof.
  unfold Math_min. revert first. induction rest as [|y ys IH]; intros first; simpl.
  - left.
  - destruct (Z.min_spec first y) as [[_ ->]|[_ ->]].
    + specialize (IH first). apply elem_of_cons in IH as [->|IH]; [left|].
      right. by right.
    + right. apply IH.
Qed.

Lemma forEach_modify {A} (l : list A) (g : A → State → State) st :
  forEach l (λ x, modify (g x)) st = (Ok tt, foldl (λ s x, g x s) st l).
Proof.
  revert st. induction l as [|x xs IH]; intros st; [reflexivity|].
  simpl. unfold bind, modify at 1. apply IH.
Qed.

Lemma this_deleteClientMetadata clients st : this (deleteClientMetadata clients st) = this st.
Proof.
  unfold deleteClientMetadata. revert st.
  induction clients as [|c cs IH]; intros st; [reflexivity|].
  simpl. rewrite IH. by destruct st.
Qed.

Lemma now_deleteClientMetadata clients st : now (deleteClientMetadata clients st) = now st.
Proof.
  unfold deleteClientMetadata. revert st.
  induction clients as [|c cs IH]; intros st; [reflexivity|].
  simpl. rewrite IH. by destruct st.
Qed.

Lemma removedThrough_deleteClientMetadata clients st :
  removedThrough (deleteClientMetadata clients st) = removedThrough st.
Proof.
  unfold deleteClientMetadata. revert st.
  induction clients as [|c cs IH]; intros st; [reflexivity|].
  simpl. rewrite IH. by destruct st.
Qed.

Lemma clientMetadata_deleteClientMetadata clients st k :
  clientMetadata (db (deleteClientMetadata clients st)) !! k
  = if bool_decide (k ∈ map DbClientMetadata.clientId clients) then None
    else clientMetadata (db st) !! k.
Proof.
  unfold deleteClientMetadata. revert st.
  induction clients as [|c cs IH]; intros st; simpl.
  - reflexivity.
  - rewrite IH. destruct st as [t [pc cm rc] w doc q n e r]. simpl.
    destruct (decide (k = DbClientMetadata.clientId c)) as [->|Hne].
    + rewrite lookup_delete_eq.
      rewrite (bool_decide_eq_true_2 (_ ∈ _ :: _)) by left.
      by case_bool_decide.
    + rewrite lookup_delete_ne by done.
      case_bool_decide as H1; case_bool_decide as H2; try done.
      * exfalso. apply H2. by right.
      * exfalso. apply elem_of_cons in H2 as [?|?]; done.
Qed.

(** The transaction body, run to its end. *)
Lemma garbageCollectTransaction_run st :
  sideChannelSupported st = true →
  garbageCollectTransaction st
  = (Ok (gcInactive st),
     match map cursor (gcPeers st) with
     | first :: rest =>
         truncated (Math_min first rest) (deleteClientMetadata (gcInactive st) st)
     | [] => deleteClientMetadata (gcInactive st) st
     end).
Proof.
  intros Hs. unfold garbageCollectTransaction.
  unfold bind at 1. unfold eval at 1.
  unfold bind at 1. unfold eval at 1.
  rewrite filterActiveClients_supported by done.
  fold (gcActive st). fold (gcInactive st).
  unfold bind at 1. rewrite forEach_modify. fold (deleteClientMetadata (gcInactive st) st).
  unfold bind at 1. unfold eval at 1.
  rewrite this_deleteClientMetadata. fold (gcPeers st).
  change (map _ (gcPeers st)) with (map cursor (gcPeers st)).
  unfold bind. destruct (map cursor (gcPeers st)); reflexivity.
Qed.

Lemma elem_of_List_filter {A} (p : A → bool) (l : list A) x :
  x ∈ List.filter p l ↔ x ∈ l ∧ p x = true.
Proof. rewrite !list_elem_of_In. apply filter_In. Qed.

Lemma elem_of_gcPeers st c : c ∈ gcPeers st ↔ activePeer st c.
Proof.
  unfold gcPeers, gcActive, activePeer.
  rewrite !elem_of_List_filter, bool_decide_eq_true, activeClientb_spec. tauto.
Qed.

Lemma elem_of_gcInactive st c :
  c ∈ gcInactive st ↔
  c ∈ loadAll st ∧ ¬ activeClient st CLIENT_STATE_GARBAGE_COLLECTION_THRESHOLD_MS c.
Proof.
  unfold gcInactive, gcActive.
  rewrite elem_of_List_filter, bool_decide_eq_true, elem_of_List_filter.
  rewrite activeClientb_spec. tauto.
Qed.

(** Recording the time of the collection changes nothing the collection
    looks at. *)
Lemma set_lastGarbageCollectionTime_frame st v :
  let st1 := with_this (set_lastGarbageCollectionTime v) st in
  canActAsPrimary st1 = canActAsPrimary st
  ∧ sideChannelSupported st1 = sideChannelSupported st
  ∧ gcInactive st1 = gcInactive st
  ∧ gcPeers st1 = gcPeers st
  ∧ persistenceError (this st1) = persistenceError (this st)
  ∧ simpleDb (this st1) = simpleDb (this st)
  ∧ removedThrough st1 = removedThrough st
  ∧ db st1 = db st.
Proof. destruct st as [[] ? ? ? ? ? ? ?]. repeat split; reflexivity. Qed.

Lemma removedThrough_forEach_removeItem clients st :
  removedThrough
    (snd (forEach clients (λ inactiveClient st,
            localStorage_removeItem
              (zombiedClientLocalStorageKey st (DbClientMetadata.clientId inactiveClient)) st)
            st))
  = removedThrough st.
Proof.
  apply (preserves_forEach removedThrough). intros c st'.
  apply (preserves_localStorage_removeItem removedThrough). intros ? []; reflexivity.
Qed.

Lemma db_forEach_removeItem clients st :
  db (snd (forEach clients (λ inactiveClient st,
             localStorage_removeItem
               (zombiedClientLocalStorageKey st (DbClientMetadata.clientId inactiveClient)) st)
             st))
  = db st.
Proof.
  apply (preserves_forEach db). intros c st'.
  apply (preserves_localStorage_removeItem db). intros ? []; reflexivity.
Qed.

(** A collection that is due, on a client that can act as primary, runs
    its transaction to the end. *)
Lemma maybeGarbageCollectMultiClientState_run st simpleDb_ :
  sideChannelSupported st = true →
  isPrimary (this st) = true →
  isWithinAge st (lastGarbageCollectionTime (this st))
    CLIENT_STATE_GARBAGE_COLLECTION_THRESHOLD_MS = false →
  persistenceError (this st) = None →
  simpleDb (this st) = Some simpleDb_ →
  canActAsPrimary st = Ok true →
  ∃ r st2 st',
    maybeGarbageCollectMultiClientState st = (r, st')
    ∧ db st' = set_primaryClient
                 (Some (DbPrimaryClient.mk (clientId (this st))
                          (allowTabSynchronization (this st)) (now st)))
                 (db st2)
    ∧ removedThrough st' = removedThrough st2
    ∧ st2 = match map cursor (gcPeers st) with
            | first :: rest =>
                truncated (Math_min first rest)
                  (deleteClientMetadata (gcInactive st)
                     (with_this (set_lastGarbageCollectionTime (Finite (now st))) st))
            | [] =>
                deleteClientMetadata (gcInactive st)
                  (with_this (set_lastGarbageCollectionTime (Finite (now st))) st)
            end.
Proof.
  intros Hs Hprim Hdue Herr Hdb Hcan.
  destruct (set_lastGarbageCollectionTime_frame st (Finite (now st)))
    as (Fcan & Fs & Fin & Fpeers & Ferr & Fdb & Frem & Fstore).
  set (st1 := with_this (set_lastGarbageCollectionTime (Finite (now st))) st) in *.
  unfold maybeGarbageCollectMultiClientState. rewrite Hprim, Hdue. simpl.
  unfold bind at 1. unfold modify at 1. fold st1.
  unfold bind at 1. unfold runTransaction.
  rewrite Ferr, Herr. unfold SimpleDb_runTransaction. rewrite Fdb, Hdb.
  unfold bind at 1. unfold bind at 1. unfold eval at 1. rewrite Fcan, Hcan. simpl.
  rewrite garbageCollectTransaction_run by congruence.
  rewrite Fin, Fpeers.
  set (st2 := match map cursor (gcPeers st) with
              | first :: rest => truncated (Math_min first rest)
                                   (deleteClientMetadata (gcInactive st) st1)
              | [] => deleteClientMetadata (gcInactive st) st1
              end).
  unfold bind at 1. unfold acquireOrExtendPrimaryLease at 1. unfold ret at 1.
  set (st3 := with_db _ st2).
  destruct (forEach (gcInactive st) _ st3) as [r st'] eqn:Hfor.
  exists r, st2, st'. split; [reflexivity|].
  assert (this st2 = this st1 ∧ now st2 = now st1) as [Hthis Hnow].
  { pose proof (this_deleteClientMetadata (gcInactive st) st1) as Ht.
    pose proof (now_deleteClientMetadata (gcInactive st) st1) as Hn.
    subst st2. destruct (map cursor (gcPeers st)); [done|].
    unfold truncated. destruct (deleteClientMetadata (gcInactive st) st1). done. }
  pose proof (db_forEach_removeItem (gcInactive st) st3) as Hd.
  pose proof (removedThrough_forEach_removeItem (gcInactive st) st3) as Hr.
  rewrite Hfor in Hd, Hr. simpl in Hd, Hr.
  split; [|split; [|reflexivity]].
  - rewrite Hd. subst st3. rewrite Hthis, Hnow.
    subst st1. destruct st2, st as [[] ? ? ? ? ? ? ?]. reflexivity.
  - rewrite Hr. subst st3. by destruct st2.
Qed.

Lemma remoteDocumentChanges_deleteClientMetadata clients st :
  remoteDocumentChanges (db (deleteClientMetadata clients st))
  = remoteDocumentChanges (db st).
Proof.
  unfold deleteClientMetadata. revert st.
  induction clients as [|c cs IH]; intros st; [reflexivity|].
  simpl. rewrite IH. by destruct st.
Qed.

(** C7, as the code has it. A garbage collection that is due, on a client
    that can act as primary, deletes the metadata of the inactive clients;
    it then passes to the change log, as the point to truncate through, the
    least cursor among the active clients other than the local one (active:
    metadata at most 30 minutes old and no zombie marker; a missing cursor
    counts as 0), and skips the truncation when there is no such client. So
    the truncation point never exceeds the cursor of an active client other
    than the local one. *)
Theorem maybeGarbageCollectMultiClientState_truncation st simpleDb_ :
  sideChannelSupported st = true →
  isPrimary (this st) = true →
  isWithinAge st (lastGarbageCollectionTime (this st))
    CLIENT_STATE_GARBAGE_COLLECTION_THRESHOLD_MS = false →
  persistenceError (this st) = None →
  simpleDb (this st) = Some simpleDb_ →
  canActAsPrimary st = Ok true →
  ∃ r st',
    maybeGarbageCollectMultiClientState st = (r, st')
    ∧ (∀ c, c ∈ loadAll st →
            ¬ activeClient st CLIENT_STATE_GARBAGE_COLLECTION_THRESHOLD_MS c →
            clientMetadata (db st') !! DbClientMetadata.clientId c = None)
    ∧ ((∀ c, ¬ activePeer st c) →
       removedThrough st' = removedThrough st
       ∧ remoteDocumentChanges (db st') = remoteDocumentChanges (db st))
    ∧ (∀ c0, activePeer st c0 →
         ∃ oldest,
           removedThrough st' = removedThrough st ++ [oldest]
           ∧ remoteDocumentChanges (db st')
             = filter (λ i, oldest < i) (remoteDocumentChanges (db st))
           ∧ (∃ c, activePeer st c ∧ cursor c = oldest)
           ∧ (∀ c, activePeer st c → oldest ≤ cursor c)).
Proof.
  intros Hs Hprim Hdue Herr Hdb Hcan.
  destruct (maybeGarbageCollectMultiClientState_run st simpleDb_ Hs Hprim Hdue Herr Hdb Hcan)
    as (r & st2 & st' & Hrun & Hdb' & Hrem & Hst2).
  destruct (set_lastGarbageCollectionTime_frame st (Finite (now st)))
    as (_ & _ & _ & _ & _ & _ & Frem & Fstore).
  set (st1 := with_this (set_lastGarbageCollectionTime (Finite (now st))) st) in *.
  exists r, st'. split; [exact Hrun|]. split; [|split].
  - intros c Hc Hinactive.
    assert (c ∈ gcInactive st) as Hin by (by apply elem_of_gcInactive).
    assert (clientMetadata (db st')
            = clientMetadata (db (deleteClientMetadata (gcInactive st) st1))) as ->.
    { rewrite Hdb', Hst2. destruct (map cursor (gcPeers st)); [reflexivity|].
      unfold truncated. by destruct (deleteClientMetadata (gcInactive st) st1). }
    rewrite clientMetadata_deleteClientMetadata.
    rewrite bool_decide_eq_true_2; [done|].
    apply list_elem_of_fmap. by exists c.
  - intros Hnone.
    assert (gcPeers st = []) as Hnil.
    { destruct (gcPeers st) as [|c cs] eqn:E; [done|].
      exfalso. apply (Hnone c), elem_of_gcPeers. rewrite E. left. }
    rewrite Hnil in Hst2. simpl in Hst2. rewrite Hdb', Hrem, Hst2. split.
    + by rewrite removedThrough_deleteClientMetadata.
    + simpl. rewrite remoteDocumentChanges_deleteClientMetadata. by rewrite Fstore.
  - intros c0 Hc0. apply elem_of_gcPeers in Hc0.
    destruct (map cursor (gcPeers st)) as [|first rest] eqn:Eids.
    { destruct (gcPeers st); [by apply not_elem_of_nil in Hc0 | discriminate]. }
    exists (Math_min first rest). split; [|split; [|split]].
    + rewrite Hrem, Hst2. unfold truncated.
      pose proof (removedThrough_deleteClientMetadata (gcInactive st) st1) as Hr.
      destruct (deleteClientMetadata (gcInactive st) st1). simpl in *. congruence.
    + rewrite Hdb', Hst2. unfold truncated.
      pose proof (remoteDocumentChanges_deleteClientMetadata (gcInactive st) st1) as Hr.
      destruct (deleteClientMetadata (gcInactive st) st1). simpl in *. congruence.
    + pose proof (Math_min_elem first rest) as Hmin. rewrite <- Eids in Hmin.
      apply list_elem_of_fmap in Hmin as (c & Hc & Hin).
      exists c. split; [by apply elem_of_gcPeers | done].
    + intros c Hc. apply Math_min_le. rewrite <- Eids.
      apply list_elem_of_fmap. exists c. split; [done | by apply elem_of_gcPeers].
Qed.

Lemma maybeGarbageCollectMultiClientState_truncation_witness :
  ∃ r st',
    maybeGarbageCollectMultiClientState stateCollect = (r, st')
    ∧ (∀ c, c ∈ loadAll stateCollect →
            ¬ activeClient stateCollect CLIENT_STATE_GARBAGE_COLLECTION_THRESHOLD_MS c →
            clientMetadata (db st') !! DbClientMetadata.clientId c = None)
    ∧ ((∀ c, ¬ activePeer stateCollect c) →
       removedThrough st' = removedThrough stateCollect
       ∧ remoteDocumentChanges (db st') = remoteDocumentChanges (db stateCollect))
    ∧ (∀ c0, activePeer stateCollect c0 →
         ∃ oldest,
           removedThrough st' = removedThrough stateCollect ++ [oldest]
           ∧ remoteDocumentChanges (db st')
             = filter (λ i, oldest < i) (remoteDocumentChanges (db stateCollect))
           ∧ (∃ c, activePeer stateCollect c ∧ cursor c = oldest)
           ∧ (∀ c, activePeer stateCollect c → oldest ≤ cursor c)).
Proof.
  apply (maybeGarbageCollectMultiClientState_truncation stateCollect (mkSimpleDb false));
    reflexivity.
Defined.

(** C7 as stated fails: the local client is active at the start of the
    collection, with cursor 3, and the log is truncated through 10, the
    cursor of its only peer. *)
Lemma maybeGarbageCollectMultiClientState_truncates_past_local_cursor :
  let self := DbClientMetadata.mk "A" 1500 true true (Some 3) in
  self ∈ loadAll stateCollect
  ∧ activeClient stateCollect CLIENT_STATE_GARBAGE_COLLECTION_THRESHOLD_MS self
  ∧ fst (maybeGarbageCollectMultiClientState stateCollect) = Ok tt
  ∧ removedThrough (snd (maybeGarbageCollectMultiClientState stateCollect)) = [10]
  ∧ cursor self < 10.
Proof.
  simpl. split; [|split; [|split; [|split]]].
  - apply list_elem_of_In. vm_compute. auto.
  - split; [|reflexivity].
    unfold withinAge, CLIENT_STATE_GARBAGE_COLLECTION_THRESHOLD_MS. simpl. lia.
  - reflexivity.
  - reflexivity.
  - reflexivity.
Qed.

(** ** Start *)

(** C10. On an instance that is already started (on a platform where
    IndexedDB is available, as it was when the instance started), [start]
    fails the assertion 'IndexedDbPersistence double-started!' and changes
    nothing: it is not a no-op that succeeds. *)
Theorem start_double_started st :
  started st = true →
  isAvailable (env st) = true →
  start st = (Err (AssertionError "IndexedDbPersistence double-started!"), st).
Proof.
  intros Hstarted Havailable. unfold start. rewrite Havailable. simpl.
  unfold bind at 1. rewrite Hstarted. reflexivity.
Qed.

Lemma start_double_started_witness :
  fst (start stateFresh) = Ok tt
  ∧ start (snd (start stateFresh))
    = (Err (AssertionError "IndexedDbPersistence double-started!"),
       snd (start stateFresh)).
Proof.
  split; [reflexivity|].
  apply (start_double_started (snd (start stateFresh))); reflexivity.
Defined.

Lemma preserves_assert {X} (f : State → X) cond message :
  preserves f (assert cond message).
Proof. intros st. unfold assert. by destruct cond. Qed.

Lemma env_start st : env (snd (start st)) = env st.
Proof.
  assert (∀ g s, env (with_this g s) = env s) as Ft by (intros ? []; reflexivity).
  assert (∀ g s, env (with_db g s) = env s) as Fd by (intros ? []; reflexivity).
  assert (∀ g s, env (with_queue g s) = env s) as Fq by (intros ? []; reflexivity).
  unfold start. destruct (negb (isAvailable (env st))); [apply Ft|].
  match goal with
  | |- env (snd (bind ?c ?k st)) = _ => apply (preserves_bind env c k)
  end; [apply preserves_assert|]. intros _.
  apply (preserves_bind env); [apply preserves_assert|]. intros _.
  apply (preserves_bind env).
  { intros s. unfold SimpleDb_openOrCreate. by destruct (openOrCreate_error _). }
  intros simpleDb_.
  apply (preserves_bind env); [apply preserves_modify; intros; apply Ft|]. intros _.
  apply (preserves_bind env).
  { apply preserves_SimpleDb_runTransaction; [exact Fd|].
    intros s. unfold remoteDocumentCache_start.
    by destruct (remoteDocumentCache_start_error _). }
  intros _. apply (preserves_bind env).
  { intros s. unfold attachVisibilityHandler.
    destruct (document s) as [d|]; [|done].
    destruct (document_addEventListener d); [apply Ft | done]. }
  intros _. apply (preserves_bind env).
  { intros s. unfold attachWindowUnloadHook.
    destruct (window s) as [w|]; [|done].
    destruct (window_addEventListener w); [apply Ft | done]. }
  intros _. apply (preserves_bind env).
  { apply preserves_updateClientMetadataAndTryBecomePrimary; auto. }
  intros _. apply (preserves_bind env).
  { apply preserves_bind.
    - intros s. apply Fq.
    - intros h. apply preserves_modify. intros; apply Ft. }
  intros _. apply preserves_modify. intros; apply Ft.
Qed.

(** A successful [start] leaves the instance started, on the platform it
    found. *)
Lemma start_Ok_started st st' :
  start st = (Ok tt, st') →
  started st' = true ∧ isAvailable (env st') = true.
Proof.
  intros Hstart. split.
  - revert Hstart. unfold start. destruct (negb _); [discriminate|].
    repeat (unfold bind at 1;
            match goal with
            | |- context [match ?c st with _ => _ end] => destruct (c st) as [[?|?] ?]
            | |- match ?c with _ => _ end = _ → _ => destruct c as [[?|?] ?]
            end; try discriminate).
    unfold modify. intros [= <-]. unfold started.
    match goal with |- _started (this (with_this _ ?s)) = _ => by destruct s as [[] ? ? ? ? ? ? ?] end.
  - pose proof (env_start st) as He. rewrite Hstart in He. simpl in He. rewrite He.
    revert Hstart. unfold start. destruct (isAvailable (env st)); [done|].
    discriminate.
Qed.

(** ** Shutdown *)

(** A [start] that aborts before the database is opened leaves [simpleDb]
    undefined. *)
Lemma start_unavailable st :
  isAvailable (env st) = false →
  ∃ e st', start st = (Err e, st') ∧ simpleDb (this st') = simpleDb (this st).
Proof.
  intros Hav. unfold start. rewrite Hav. simpl.
  eexists _, _. split; [reflexivity|]. by destruct st as [[] ? ? ? ? ? ? ?].
Qed.

Lemma bind_fails_later {A B} (P : State → Prop) (c : M A) (k : A → M B) st :
  P st →
  (∀ s, P s → P (snd (c s))) →
  (∀ a s, P s → ∃ e, fst (k a s) = Err e) →
  ∃ e, fst (bind c k st) = Err e.
Proof.
  intros HP Hc Hk. unfold bind. specialize (Hc st HP).
  destruct (c st) as [[a|e] st']; simpl in *; [by apply Hk | by exists e].
Qed.

(** So does a [start] whose [SimpleDb.openOrCreate] fails. *)
Lemma start_open_failure st e :
  isAvailable (env st) = true →
  started st = false →
  window st ≠ None →
  openOrCreate_error (env st) = Some e →
  start st = (Err e, st).
Proof.
  intros Hav Hst Hw He. unfold start. rewrite Hav. simpl.
  unfold bind at 1. rewrite Hst. simpl.
  unfold bind at 1. rewrite (bool_decide_eq_true_2 _ Hw). simpl.
  unfold bind at 1, SimpleDb_openOrCreate. rewrite He. reflexivity.
Qed.

(** On an instance whose [simpleDb] is undefined, [shutdown] does not
    succeed. *)
Lemma shutdown_without_database deleteData st :
  simpleDb (this st) = None →
  ∃ e, fst (shutdown deleteData st) = Err e.
Proof.
  intros Hnone. unfold shutdown.
  apply (bind_fails_later (λ s, simpleDb (this s) = None)); [done|..].
  { intros [[] ? ? ? ? ? ? ?]. done. }
  intros _ s1 H1. apply (bind_fails_later (λ s, simpleDb (this s) = None)); [done|..].
  { intros s Hs. unfold markClientZombied, try_catch, localStorage_setItem.
    destruct (window s) as [w|]; [|done].
    destruct (localStorage w); simpl; try done. by destruct s as [[] ? ? ? ? ? ? ?]. }
  intros _ s2 H2. apply (bind_fails_later (λ s, simpleDb (this s) = None)); [done|..].
  { intros s Hs. destruct (clientMetadataRefresher (this s)); [|done].
    by destruct s as [[] ? ? ? ? ? ? ?]. }
  intros _ s3 H3. apply (bind_fails_later (λ s, simpleDb (this s) = None)); [done|..].
  { intros s Hs. unfold detachVisibilityHandler.
    destruct (documentVisibilityHandler (this s)); [|done].
    unfold bind, assert. destruct (match document s with Some _ => _ | None => _ end);
      [|done]. by destruct s as [[] ? ? ? ? ? ? ?]. }
  intros _ s4 H4. apply (bind_fails_later (λ s, simpleDb (this s) = None)); [done|..].
  { intros s Hs. unfold detachWindowUnloadHook.
    destruct (windowUnloadHandler (this s)); [|done].
    destruct (window s) as [w|]; [|done].
    unfold bind, assert. destruct (window_removeEventListener w); [|done].
    by destruct s as [[] ? ? ? ? ? ? ?]. }
  intros _ s5 H5. unfold bind at 1, SimpleDb_runTransaction. rewrite H5.
  by exists TypeError.
Qed.

(** C9 fails on the code at this input. On a platform without IndexedDB,
    [start] aborts before the database is opened; [shutdown] then throws a
    TypeError where the claim says it succeeds, the second call as the
    first, and the zombie marker it wrote stays in the side channel. *)
Theorem shutdown_after_aborted_start :
  fst (start stateUnavailable)
  = Err (FirestoreError UNIMPLEMENTED UNSUPPORTED_PLATFORM_ERROR_MSG)
  ∧ fst (shutdown false (snd (start stateUnavailable))) = Err TypeError
  ∧ fst (shutdown false (snd (shutdown false (snd (start stateUnavailable)))))
    = Err TypeError
  ∧ zombieMarked (snd (start stateUnavailable)) "A" = false
  ∧ zombieMarked (snd (shutdown false (snd (start stateUnavailable)))) "A" = true.
Proof. repeat split; reflexivity. Qed.

(** * Further properties of the coordinator *)

(** ** The outcomes of [canActAsPrimary] *)

Lemma leaseValid_bool st p :
  isWithinAge st (Finite (DbPrimaryClient.leaseTimestampMs p)) CLIENT_METADATA_MAX_AGE_MS
  && negb (zombieMarked st (DbPrimaryClient.ownerId p)) = true
  ↔ leaseValid st p.
Proof.
  unfold leaseValid. rewrite andb_true_iff, negb_true_iff.
  unfold CLIENT_METADATA_MAX_AGE_MS. by rewrite isWithinAge_spec.
Qed.

Lemma canActAsPrimary_remote_sync st p :
  sideChannelSupported st = true →
  primaryClient (db st) = Some p →
  leaseValid st p →
  DbPrimaryClient.ownerId p ≠ clientId (this st) →
  DbPrimaryClient.allowTabSynchronization p = true →
  canActAsPrimary st = Ok false.
Proof.
  intros Hs Hp Hv Hown Hallow. unfold canActAsPrimary. rewrite Hp.
  rewrite (currentLeaseIsValid_leaseValid st p Hs Hv). simpl.
  rewrite (bool_decide_eq_false_2 _ Hown), Hallow. reflexivity.
Qed.

Lemma canActAsPrimary_foreground st :
  sideChannelSupported st = true →
  (∀ p, primaryClient (db st) = Some p → ¬ leaseValid st p) →
  networkEnabled (this st) = true →
  inForeground (this st) = true →
  canActAsPrimary st = Ok true.
Proof.
  intros Hs Hno Hn Hf. unfold canActAsPrimary.
  rewrite (currentLeaseIsValid_not_valid st _ Hs Hno). simpl.
  unfold canActAsPrimary_scan. by rewrite Hn, Hf.
Qed.

(** X1. While another client holds a valid lease and has opted into tab
    synchronization, the local client cannot act as primary, whatever its
    network and foreground state and whatever the other clients are;
    transactions that do not need the lease are let through. *)
Theorem canActAsPrimary_remote_lease st p :
  sideChannelSupported st = true →
  primaryClient (db st) = Some p →
  leaseValid st p →
  DbPrimaryClient.ownerId p ≠ clientId (this st) →
  DbPrimaryClient.allowTabSynchronization p = true →
  canActAsPrimary st = Ok false
  ∧ verifyAllowTabSynchronization st = Ok tt.
Proof.
  intros Hs Hp Hv Hown Hallow. split.
  - by apply (canActAsPrimary_remote_sync st p).
  - unfold verifyAllowTabSynchronization. rewrite Hp.
    rewrite (currentLeaseIsValid_leaseValid st p Hs Hv). simpl.
    rewrite (bool_decide_eq_false_2 _ Hown), Hallow. reflexivity.
Qed.

Lemma canActAsPrimary_remote_lease_witness :
  canActAsPrimary stateShared = Ok false
  ∧ verifyAllowTabSynchronization stateShared = Ok tt.
Proof.
  apply (canActAsPrimary_remote_lease stateShared (leaseOf "B" true 1000)).
  - reflexivity.
  - reflexivity.
  - split; [unfold withinAge; simpl; lia | reflexivity].
  - discriminate.
  - reflexivity.
Defined.

(** X2. A client that is online and in the foreground can act as primary as
    soon as no valid lease stands in its way: the lease record is absent,
    older than 5000 ms, dated in the future, or its owner has left a zombie
    marker, however recent the lease. *)
Theorem canActAsPrimary_takeover st :
  sideChannelSupported st = true →
  networkEnabled (this st) = true →
  inForeground (this st) = true →
  (primaryClient (db st) = None
   ∨ ∃ p, primaryClient (db st) = Some p
          ∧ (DbPrimaryClient.leaseTimestampMs p < now st - 5000
             ∨ now st < DbPrimaryClient.leaseTimestampMs p
             ∨ zombieMarked st (DbPrimaryClient.ownerId p) = true)) →
  canActAsPrimary st = Ok true.
Proof.
  intros Hs Hn Hf Hlease. apply canActAsPrimary_foreground; try done.
  intros p Hp [Hage Hz]. unfold withinAge in Hage.
  destruct Hlease as [Hnone|(p' & Hp' & Hbad)]; [congruence|].
  assert (p' = p) as -> by congruence.
  destruct Hbad as [?|[?|?]]; [lia | lia | congruence].
Qed.

Lemma canActAsPrimary_takeover_witness : canActAsPrimary stateZombiedHolder = Ok true.
Proof.
  apply (canActAsPrimary_takeover stateZombiedHolder); try reflexivity.
  right. exists (leaseOf "B" true 1900). split; [reflexivity|].
  right. right. reflexivity.
Defined.

(** X3. On a supported platform [canActAsPrimary] fails in one way only:
    with PRIMARY_LEASE_EXCLUSIVE, and exactly when another client holds a
    valid lease and has not opted into tab synchronization. Every other
    call returns a boolean. *)
Theorem canActAsPrimary_outcomes st :
  sideChannelSupported st = true →
  (canActAsPrimary st = Err PRIMARY_LEASE_EXCLUSIVE ↔
   ∃ p, primaryClient (db st) = Some p
        ∧ leaseValid st p
        ∧ DbPrimaryClient.ownerId p ≠ clientId (this st)
        ∧ DbPrimaryClient.allowTabSynchronization p = false)
  ∧ (∀ e, canActAsPrimary st = Err e → e = PRIMARY_LEASE_EXCLUSIVE)
  ∧ (canActAsPrimary st ≠ Err PRIMARY_LEASE_EXCLUSIVE → ∃ b, canActAsPrimary st = Ok b).
Proof.
  intros Hs.
  destruct (canActAsPrimary_scan_spec st Hs) as (bs & Hscan & _).
  assert (canActAsPrimary st = Err PRIMARY_LEASE_EXCLUSIVE
          ∧ (∃ p, primaryClient (db st) = Some p ∧ leaseValid st p
                  ∧ DbPrimaryClient.ownerId p ≠ clientId (this st)
                  ∧ DbPrimaryClient.allowTabSynchronization p = false)
          ∨ (∃ b, canActAsPrimary st = Ok b)
            ∧ ¬ (∃ p, primaryClient (db st) = Some p ∧ leaseValid st p
                      ∧ DbPrimaryClient.ownerId p ≠ clientId (this st)
                      ∧ DbPrimaryClient.allowTabSynchronization p = false)) as Hcases.
  { unfold canActAsPrimary. destruct (primaryClient (db st)) as [p|] eqn:Hp.
    - rewrite currentLeaseIsValid_supported by done.
      destruct (_ && _) eqn:Hvalid; simpl.
      + apply leaseValid_bool in Hvalid. case_bool_decide as Hown; simpl.
        * right. split.
          -- destruct (networkEnabled (this st)); simpl; rewrite ?Hscan; eauto.
          -- intros (p' & [= <-] & _ & Hne & _). done.
        * destruct (DbPrimaryClient.allowTabSynchronization p) eqn:Hallow; simpl.
          -- right. split; [eauto|]. intros (p' & [= <-] & _ & _ & ?). congruence.
          -- left. split; [done|]. by exists p.
      + right. rewrite Hscan. split; [eauto|].
        intros (p' & [= <-] & Hv & _). apply leaseValid_bool in Hv. congruence.
    - simpl. rewrite Hscan. right. split; [eauto|]. intros (p' & [=] & _). }
  destruct Hcases as [[Herr Hex]|[[b Hok] Hnex]].
  - split; [done|]. split.
    + intros e He. congruence.
    + intros Hne. done.
  - split; [|split].
    + split; [intros He; congruence | done].
    + intros e He. congruence.
    + intros _. by exists b.
Qed.

Lemma canActAsPrimary_outcomes_witness :
  (canActAsPrimary stateExclusive = Err PRIMARY_LEASE_EXCLUSIVE ↔
   ∃ p, primaryClient (db stateExclusive) = Some p
        ∧ leaseValid stateExclusive p
        ∧ DbPrimaryClient.ownerId p ≠ clientId (this stateExclusive)
        ∧ DbPrimaryClient.allowTabSynchronization p = false)
  ∧ (∀ e, canActAsPrimary stateExclusive = Err e → e = PRIMARY_LEASE_EXCLUSIVE)
  ∧ (canActAsPrimary stateExclusive ≠ Err PRIMARY_LEASE_EXCLUSIVE →
     ∃ b, canActAsPrimary stateExclusive = Ok b).
Proof. apply (canActAsPrimary_outcomes stateExclusive). reflexivity. Defined.

(** ** The heartbeat *)

Lemma elem_of_loadAll st c :
  c ∈ loadAll st ↔ ∃ k, clientMetadata (db st) !! k = Some c.
Proof.
  unfold loadAll. rewrite list_elem_of_fmap. split.
  - intros ([k c'] & -> & Hin). exists k. by apply elem_of_map_to_list in Hin.
  - intros (k & Hk). exists (k, c). split; [done|]. by apply elem_of_map_to_list.
Qed.

Lemma withHeartbeat_frame st :
  this (withHeartbeat st) = this st
  ∧ now (withHeartbeat st) = now st
  ∧ window (withHeartbeat st) = window st
  ∧ env (withHeartbeat st) = env st
  ∧ queue (withHeartbeat st) = queue st
  ∧ primaryClient (db (withHeartbeat st)) = primaryClient (db st)
  ∧ clientMetadata (db (withHeartbeat st))
    = <[clientId (this st) := heartbeatRecord st]> (clientMetadata (db st)).
Proof. by destruct st as [? [] ? ? ? ? ? ?]. Qed.

(** The record of the local client does not count in the peer scan. *)
Lemma noPreferredPeer_withHeartbeat st :
  keysMatch (db st) →
  noPreferredPeer (withHeartbeat st) ↔ noPreferredPeer st.
Proof.
  intros Hkeys.
  destruct (withHeartbeat_frame st) as (Ht & Hn & Hw & He & _ & _ & Hcm).
  assert (∀ P, activeClient (withHeartbeat st) 5000 P ↔ activeClient st 5000 P) as Hact.
  { intros P. unfold activeClient, withinAge, zombieMarked, zombiedClientLocalStorageKey.
    by rewrite Ht, Hn, Hw. }
  assert (∀ P, preferredOverSelf (withHeartbeat st) P ↔ preferredOverSelf st P) as Hpref.
  { intros P. unfold preferredOverSelf. by rewrite Ht. }
  unfold noPreferredPeer. rewrite Ht. split.
  - intros H P HP Hactive Hne Hp.
    apply (H P); [|by apply Hact|done|by apply Hpref].
    apply elem_of_loadAll in HP as (k & Hk). apply elem_of_loadAll. exists k.
    rewrite Hcm, lookup_insert_ne; [done|]. intros <-. apply Hne. by apply Hkeys.
  - intros H P HP Hactive Hne Hp.
    apply (H P); [|by apply Hact|done|by apply Hpref].
    apply elem_of_loadAll in HP as (k & Hk). rewrite Hcm in Hk.
    destruct (decide (clientId (this st) = k)) as [<-|Hk'].
    + rewrite lookup_insert_eq in Hk. injection Hk as <-. by destruct Hne.
    + rewrite lookup_insert_ne in Hk by done. apply elem_of_loadAll. by exists k.
Qed.

(** Writing the heartbeat does not change what [canActAsPrimary]
    answers. *)
Lemma canActAsPrimary_withHeartbeat st :
  sideChannelSupported st = true →
  keysMatch (db st) →
  canActAsPrimary (withHeartbeat st) = canActAsPrimary st.
Proof.
  intros Hs Hkeys.
  destruct (withHeartbeat_frame st) as (Ht & Hn & Hw & He & _ & Hpc & _).
  assert (sideChannelSupported (withHeartbeat st) = true) as Hs'.
  { unfold sideChannelSupported in *. by rewrite Hw, He. }
  assert (canActAsPrimary_scan (withHeartbeat st) = canActAsPrimary_scan st) as Hscan.
  { destruct (canActAsPrimary_scan_spec _ Hs') as (b' & -> & Hb').
    destruct (canActAsPrimary_scan_spec _ Hs) as (b & -> & Hb).
    f_equal. rewrite Ht, noPreferredPeer_withHeartbeat in Hb' by done.
    apply Bool.eq_iff_eq_true. tauto. }
  assert (∀ cp, currentLeaseIsValid (withHeartbeat st) cp = currentLeaseIsValid st cp) as Hv.
  { intros [p|]; [|done].
    unfold currentLeaseIsValid, isClientZombied, isWithinAge, zombiedClientLocalStorageKey.
    by rewrite Hn, Hw, He, Ht. }
  unfold canActAsPrimary. rewrite Hpc, Hv, Hscan.
  unfold isLocalClient. by rewrite Ht.
Qed.

(** X4. A heartbeat on an instance with an open database: it writes the
    local client's metadata record with the current time, sets [isPrimary]
    to what [canActAsPrimary] answers, and enqueues a notification of the
    listener exactly when [isPrimary] changed. A client that is primary
    afterwards holds a lease written now; one that just stopped being
    primary has deleted the lease if it was its own; otherwise the lease
    record is untouched. *)
Theorem updateClientMetadataAndTryBecomePrimary_effect st simpleDb_ b :
  simpleDb (this st) = Some simpleDb_ →
  sideChannelSupported st = true →
  keysMatch (db st) →
  canActAsPrimary st = Ok b →
  ∃ st',
    updateClientMetadataAndTryBecomePrimary st = (Ok tt, st')
    ∧ isPrimary (this st') = b
    ∧ clientMetadata (db st')
      = <[clientId (this st) := heartbeatRecord st]> (clientMetadata (db st))
    ∧ primaryClient (db st')
      = (if b then Some (ownLease st)
         else if isPrimary (this st) && isLocalClient st (primaryClient (db st)) then None
         else primaryClient (db st))
    ∧ operations (queue st')
      = (if bool_decide (isPrimary (this st) = b) then operations (queue st)
         else operations (queue st) ++ [NotifyPrimaryStateIfStarted])
    ∧ delayedOperations (queue st') = delayedOperations (queue st)
    ∧ window st' = window st.
Proof.
  intros Hdb Hs Hkeys Hcan.
  pose proof (canActAsPrimary_withHeartbeat st Hs Hkeys) as Hcan'.
  rewrite Hcan in Hcan'.
  unfold updateClientMetadataAndTryBecomePrimary, SimpleDb_runTransaction. rewrite Hdb.
  unfold bind at 1. cbv beta iota zeta. fold (heartbeatRecord st).
  change (DbClientMetadata.clientId (heartbeatRecord st)) with (clientId (this st)).
  fold (withHeartbeat st).
  unfold bind at 1. unfold eval at 1. rewrite Hcan'.
  destruct st as [t [pc cm rc] w doc q n e r]. destruct t. simpl in *.
  destruct b, isPrimary0; simpl;
    unfold enqueueAndForget, acquireOrExtendPrimaryLease, releasePrimaryLeaseIfHeld,
      ownLease;
    unfold bind, modify, eval, ret; simpl;
    try (eexists; (split; [reflexivity|]); simpl;
         repeat (split; [reflexivity|]); reflexivity).
  destruct pc as [p|]; simpl.
  - case_bool_decide; eexists; (split; [reflexivity|]); simpl;
      repeat (split; [reflexivity|]); reflexivity.
  - eexists; (split; [reflexivity|]); simpl;
      repeat (split; [reflexivity|]); reflexivity.
Qed.

Lemma keysMatch_insert d k r :
  keysMatch d →
  DbClientMetadata.clientId r = k →
  keysMatch (set_clientMetadata (<[k := r]> (clientMetadata d)) d).
Proof.
  intros Hd Hr k' c. simpl. destruct (decide (k = k')) as [<-|Hne].
  - rewrite lookup_insert_eq. by intros [= <-].
  - rewrite lookup_insert_ne by done. apply Hd.
Qed.

Lemma keysMatch_delete d k :
  keysMatch d → keysMatch (set_clientMetadata (delete k (clientMetadata d)) d).
Proof.
  intros Hd k' c. simpl. destruct (decide (k = k')) as [<-|Hne].
  - by rewrite lookup_delete_eq.
  - rewrite lookup_delete_ne by done. apply Hd.
Qed.

Lemma keysMatch_empty pc rc : keysMatch (mkDb pc ∅ rc).
Proof. intros k c. simpl. by rewrite lookup_empty. Qed.

Lemma keysMatch_stateBackground : keysMatch (db stateBackground).
Proof.
  refine (keysMatch_insert
            (mkDb None (<["C" := DbClientMetadata.mk "C" 100 true true (Some 2)]> ∅) ∅)
            "B" (DbClientMetadata.mk "B" 1500 true true (Some 10)) _ eq_refl).
  refine (keysMatch_insert (mkDb None ∅ ∅)
            "C" (DbClientMetadata.mk "C" 100 true true (Some 2)) _ eq_refl).
  apply keysMatch_empty.
Qed.

Lemma updateClientMetadataAndTryBecomePrimary_effect_witness :
  ∃ st',
    updateClientMetadataAndTryBecomePrimary stateBackground = (Ok tt, st')
    ∧ isPrimary (this st') = false
    ∧ clientMetadata (db st')
      = <[clientId (this stateBackground) := heartbeatRecord stateBackground]>
          (clientMetadata (db stateBackground))
    ∧ primaryClient (db st')
      = (if false then Some (ownLease stateBackground)
         else if isPrimary (this stateBackground)
                 && isLocalClient stateBackground (primaryClient (db stateBackground))
              then None
              else primaryClient (db stateBackground))
    ∧ operations (queue st')
      = (if bool_decide (isPrimary (this stateBackground) = false)
         then operations (queue stateBackground)
         else operations (queue stateBackground) ++ [NotifyPrimaryStateIfStarted])
    ∧ delayedOperations (queue st') = delayedOperations (queue stateBackground)
    ∧ window st' = window stateBackground.
Proof.
  apply (updateClientMetadataAndTryBecomePrimary_effect stateBackground (mkSimpleDb false)).
  - reflexivity.
  - reflexivity.
  - apply keysMatch_stateBackground.
  - reflexivity.
Defined.

(** What a heartbeat can do to the stores: nothing, when its transaction
    aborts or cannot be opened, or the write of the local record followed
    by a write or a deletion of the lease, or by neither. *)
Lemma updateClientMetadataAndTryBecomePrimary_db st :
  db (snd (updateClientMetadataAndTryBecomePrimary st)) = db st
  ∨ ∃ b, canActAsPrimary (withHeartbeat st) = Ok b
         ∧ isPrimary (this (snd (updateClientMetadataAndTryBecomePrimary st))) = b
         ∧ clientMetadata (db (snd (updateClientMetadataAndTryBecomePrimary st)))
           = <[clientId (this st) := heartbeatRecord st]> (clientMetadata (db st))
         ∧ primaryClient (db (snd (updateClientMetadataAndTryBecomePrimary st)))
           = (if b then Some (ownLease st)
              else if isPrimary (this st) && isLocalClient st (primaryClient (db st))
                   then None
                   else primaryClient (db st))
         ∧ remoteDocumentChanges (db (snd (updateClientMetadataAndTryBecomePrimary st)))
           = remoteDocumentChanges (db st).
Proof.
  destruct (updateClientMetadataAndTryBecomePrimary st) as [res st'] eqn:Hrun.
  simpl. revert Hrun.
  unfold updateClientMetadataAndTryBecomePrimary, SimpleDb_runTransaction.
  destruct (simpleDb (this st)); [|intros [= _ <-]; by left].
  unfold bind at 1. cbv beta iota zeta. fold (heartbeatRecord st).
  change (DbClientMetadata.clientId (heartbeatRecord st)) with (clientId (this st)).
  fold (withHeartbeat st).
  unfold bind at 1. unfold eval at 1.
  destruct (canActAsPrimary (withHeartbeat st)) as [b|e] eqn:Hcan.
  - intros Hrun. right. exists b. split; [reflexivity|]. revert Hrun.
    destruct st as [t [pc cm rc] w doc q n e r]. destruct t. simpl in *.
    destruct b, isPrimary0; simpl;
      unfold enqueueAndForget, acquireOrExtendPrimaryLease, releasePrimaryLeaseIfHeld,
        ownLease;
      unfold bind, modify, eval, ret; simpl;
      try (intros [= _ <-]; repeat (split; [reflexivity|]); reflexivity).
    destruct pc as [p|]; simpl.
    + case_bool_decide; simpl; intros [= _ <-];
        repeat (split; [reflexivity|]); reflexivity.
    + intros [= _ <-]. repeat (split; [reflexivity|]); reflexivity.
  - intros [= _ <-]. left. by destruct st.
Qed.

(** X5. A heartbeat never overwrites or deletes a valid lease of another
    client: whether that client shares the persistence layer or holds it
    exclusively, and whatever the heartbeat returns, the lease record is
    afterwards as it was. *)
Theorem updateClientMetadataAndTryBecomePrimary_keeps_remote_lease st p :
  sideChannelSupported st = true →
  primaryClient (db st) = Some p →
  leaseValid st p →
  DbPrimaryClient.ownerId p ≠ clientId (this st) →
  primaryClient (db (snd (updateClientMetadataAndTryBecomePrimary st))) = Some p
  ∧ (isPrimary (this st) = false →
     isPrimary (this (snd (updateClientMetadataAndTryBecomePrimary st))) = false).
Proof.
  intros Hs Hp Hv Hown.
  destruct (withHeartbeat_frame st) as (Ht & Hn & Hw & He & _ & Hpc & _).
  assert (canActAsPrimary (withHeartbeat st) = Ok false
          ∨ canActAsPrimary (withHeartbeat st) = Err PRIMARY_LEASE_EXCLUSIVE) as Hcan.
  { assert (sideChannelSupported (withHeartbeat st) = true) as Hs'.
    { unfold sideChannelSupported in *. by rewrite Hw, He. }
    assert (leaseValid (withHeartbeat st) p) as Hv'.
    { unfold leaseValid, withinAge, zombieMarked, zombiedClientLocalStorageKey in *.
      by rewrite Hn, Hw, Ht. }
    destruct (DbPrimaryClient.allowTabSynchronization p) eqn:Hallow.
    - left. apply (canActAsPrimary_remote_sync _ p); rewrite ?Hpc, ?Ht; done.
    - right. apply (canActAsPrimary_exclusive _ p); rewrite ?Hpc, ?Ht; done. }
  split.
  - destruct (updateClientMetadataAndTryBecomePrimary_db st)
      as [->|(b & Hb & _ & _ & -> & _)]; [done|].
    destruct Hcan as [Hcan|Hcan]; rewrite Hcan in Hb; [|discriminate].
    injection Hb as <-. unfold isLocalClient. rewrite Hp.
    rewrite (bool_decide_eq_false_2 _ Hown). by rewrite andb_false_r.
  - intros Hwas.
    unfold updateClientMetadataAndTryBecomePrimary, SimpleDb_runTransaction.
    destruct (simpleDb (this st)); [|done].
    unfold bind at 1. cbv beta iota zeta. fold (heartbeatRecord st).
    change (DbClientMetadata.clientId (heartbeatRecord st)) with (clientId (this st)).
    fold (withHeartbeat st).
    unfold bind at 1. unfold eval at 1.
    destruct Hcan as [-> | ->].
    + destruct st as [t [pc cm rc] w doc q n e r]. destruct t. simpl in *. subst.
      reflexivity.
    + destruct st as [t [pc cm rc] w doc q n e r]. destruct t. simpl in *. subst.
      reflexivity.
Qed.

Lemma updateClientMetadataAndTryBecomePrimary_keeps_remote_lease_witness :
  primaryClient (db (snd (updateClientMetadataAndTryBecomePrimary stateExclusive)))
  = Some (leaseOf "B" false 1000)
  ∧ (isPrimary (this stateExclusive) = false →
     isPrimary (this (snd (updateClientMetadataAndTryBecomePrimary stateExclusive)))
     = false).
Proof.
  apply (updateClientMetadataAndTryBecomePrimary_keeps_remote_lease stateExclusive).
  - reflexivity.
  - reflexivity.
  - split; [unfold withinAge; simpl; lia | reflexivity].
  - discriminate.
Defined.

(** X6. A heartbeat never touches the metadata of another client: under
    every key but the local client id the store holds afterwards what it
    held before, whether the heartbeat succeeds or fails. *)
Theorem updateClientMetadataAndTryBecomePrimary_keeps_other_metadata st k :
  k ≠ clientId (this st) →
  clientMetadata (db (snd (updateClientMetadataAndTryBecomePrimary st))) !! k
  = clientMetadata (db st) !! k.
Proof.
  intros Hk.
  destruct (updateClientMetadataAndTryBecomePrimary_db st)
    as [->|(b & _ & _ & -> & _)]; [done|].
  by rewrite lookup_insert_ne.
Qed.

Lemma updateClientMetadataAndTryBecomePrimary_keeps_other_metadata_witness :
  clientMetadata (db (snd (updateClientMetadataAndTryBecomePrimary stateBackground))) !! "B"
  = clientMetadata (db stateBackground) !! "B".
Proof.
  apply (updateClientMetadataAndTryBecomePrimary_keeps_other_metadata stateBackground "B").
  discriminate.
Defined.

(** ** Invariants of the stores *)

Lemma db_with_db g st : db (with_db g st) = g (db st).
Proof. by destruct st. Qed.
Lemma db_with_this g st : db (with_this g st) = db st.
Proof. by destruct st. Qed.
Lemma db_with_window g st : db (with_window g st) = db st.
Proof. by destruct st. Qed.
Lemma db_with_queue g st : db (with_queue g st) = db st.
Proof. by destruct st. Qed.
Lemma db_with_removedThrough g st : db (with_removedThrough g st) = db st.
Proof. by destruct st. Qed.

Lemma db_markClientZombied st : db (snd (markClientZombied st)) = db st.
Proof.
  unfold markClientZombied, try_catch, localStorage_setItem.
  destruct (window st) as [w|]; [|done].
  destruct (localStorage w); simpl; try done. apply db_with_window.
Qed.

Lemma db_removeClientZombiedEntry st : db (snd (removeClientZombiedEntry st)) = db st.
Proof.
  unfold removeClientZombiedEntry, try_catch, localStorage_removeItem.
  destruct (window st) as [w|]; [|done].
  destruct (localStorage w); simpl; try done. apply db_with_window.
Qed.

Lemma db_detachVisibilityHandler st : db (snd (detachVisibilityHandler st)) = db st.
Proof.
  unfold detachVisibilityHandler. destruct (documentVisibilityHandler (this st)); [|done].
  unfold bind, assert.
  destruct (match document st with Some _ => _ | None => _ end); [|done].
  apply db_with_this.
Qed.

Lemma db_detachWindowUnloadHook st : db (snd (detachWindowUnloadHook st)) = db st.
Proof.
  unfold detachWindowUnloadHook. destruct (windowUnloadHandler (this st)); [|done].
  destruct (window st) as [w|]; [|done].
  unfold bind, assert. destruct (window_removeEventListener w); [|done].
  apply db_with_this.
Qed.

Lemma db_attachVisibilityHandler st : db (snd (attachVisibilityHandler st)) = db st.
Proof.
  unfold attachVisibilityHandler. destruct (document st) as [d|]; [|done].
  destruct (document_addEventListener d); [apply db_with_this | done].
Qed.

Lemma db_attachWindowUnloadHook st : db (snd (attachWindowUnloadHook st)) = db st.
Proof.
  unfold attachWindowUnloadHook. destruct (window st) as [w|]; [|done].
  destruct (window_addEventListener w); [apply db_with_this | done].
Qed.

Lemma db_scheduleClientMetadataAndPrimaryLeaseRefreshes st :
  db (snd (scheduleClientMetadataAndPrimaryLeaseRefreshes st)) = db st.
Proof.
  unfold scheduleClientMetadataAndPrimaryLeaseRefreshes, bind, enqueueAfterDelay, modify.
  simpl. by rewrite db_with_this, db_with_queue.
Qed.

Section DbInvariant.
Context (P : Db → Prop).

Hypothesis P_primaryClient : ∀ v d, P d → P (set_primaryClient v d).
Hypothesis P_delete :
  ∀ k d, P d → P (set_clientMetadata (delete k (clientMetadata d)) d).
Hypothesis P_heartbeat : ∀ st, P (db st) → P (db (withHeartbeat st)).
Hypothesis P_changes : ∀ v d, P d → P (set_remoteDocumentChanges v d).
Hypothesis P_empty : P emptyDb.

Lemma keepsDb_same {A} (c : M A) : (∀ st, db (snd (c st)) = db st) → keepsDb P c.
Proof. intros Hc st HP. by rewrite Hc. Qed.

Lemma keepsDb_bind {A B} (c : M A) (k : A → M B) :
  keepsDb P c → (∀ a, keepsDb P (k a)) → keepsDb P (bind c k).
Proof.
  intros Hc Hk st HP. unfold bind. specialize (Hc st HP).
  destruct (c st) as [[a|e] st']; simpl in *; [by apply Hk | done].
Qed.

Lemma keepsDb_forEach {A} (l : list A) (g : A → M unit) :
  (∀ a, keepsDb P (g a)) → keepsDb P (forEach l g).
Proof.
  intros Hg. induction l as [|x xs IH]; simpl.
  - by apply keepsDb_same.
  - apply keepsDb_bind; [apply Hg | intros _; exact IH].
Qed.

Lemma keepsDb_SimpleDb_runTransaction {A} (c : M A) :
  keepsDb P c → keepsDb P (SimpleDb_runTransaction c).
Proof.
  intros Hc st HP. unfold SimpleDb_runTransaction.
  destruct (simpleDb (this st)); [|done].
  specialize (Hc st HP). destruct (c st) as [[a|e] st']; simpl in *; [done|].
  by rewrite db_with_db.
Qed.

Lemma keepsDb_acquireOrExtendPrimaryLease : keepsDb P acquireOrExtendPrimaryLease.
Proof.
  intros st HP. unfold acquireOrExtendPrimaryLease. simpl.
  rewrite db_with_db. by apply P_primaryClient.
Qed.

Lemma keepsDb_releasePrimaryLeaseIfHeld : keepsDb P releasePrimaryLeaseIfHeld.
Proof.
  apply keepsDb_bind.
  - apply keepsDb_same. intros st. apply db_with_this.
  - intros _ st HP. cbv beta zeta.
    destruct (isLocalClient st _); simpl; [|done].
    rewrite db_with_db. by apply P_primaryClient.
Qed.

Lemma keepsDb_removeClientMetadata : keepsDb P removeClientMetadata.
Proof.
  intros st HP. unfold removeClientMetadata, modify. simpl.
  rewrite db_with_db. by apply P_delete.
Qed.

Lemma keepsDb_runTransaction {T} action requirePrimaryLease (c : M T) :
  keepsDb P c → keepsDb P (runTransaction action requirePrimaryLease c).
Proof.
  intros Hc st HP. unfold runTransaction.
  destruct (persistenceError (this st)); [done|].
  apply keepsDb_SimpleDb_runTransaction; [|done]. destruct requirePrimaryLease.
  - apply keepsDb_bind.
    + apply keepsDb_bind; [by apply keepsDb_same|]. intros [|]; simpl; [exact Hc|].
      apply keepsDb_bind; [apply keepsDb_same; intros; apply db_with_this|].
      intros _. apply keepsDb_bind; [apply keepsDb_same; intros; apply db_with_queue|].
      intros _. by apply keepsDb_same.
    + intros result. apply keepsDb_bind; [apply keepsDb_acquireOrExtendPrimaryLease|].
      intros _. by apply keepsDb_same.
  - apply keepsDb_bind; [by apply keepsDb_same | intros _; exact Hc].
Qed.

Lemma keepsDb_updateClientMetadataAndTryBecomePrimary :
  keepsDb P updateClientMetadataAndTryBecomePrimary.
Proof.
  apply keepsDb_SimpleDb_runTransaction.
  apply keepsDb_bind; [intros st HP; by apply (P_heartbeat st)|]. intros _.
  apply keepsDb_bind; [by apply keepsDb_same|]. intros canActAsPrimary_.
  apply keepsDb_bind; [by apply keepsDb_same|]. intros wasPrimary.
  apply keepsDb_bind; [apply keepsDb_same; intros; apply db_with_this|]. intros _.
  apply keepsDb_bind.
  - destruct (negb _); apply keepsDb_same; intros; [apply db_with_queue | done].
  - intros _. destruct (wasPrimary && negb canActAsPrimary_).
    + apply keepsDb_releasePrimaryLeaseIfHeld.
    + destruct canActAsPrimary_;
        [apply keepsDb_acquireOrExtendPrimaryLease | by apply keepsDb_same].
Qed.

Lemma keepsDb_garbageCollectTransaction : keepsDb P garbageCollectTransaction.
Proof.
  apply keepsDb_bind; [by apply keepsDb_same|]. intros existingClients.
  apply keepsDb_bind; [by apply keepsDb_same|]. intros activeClients.
  apply keepsDb_bind.
  { apply keepsDb_forEach. intros c st HP. unfold modify. simpl.
    rewrite db_with_db. by apply P_delete. }
  intros _. apply keepsDb_bind; [by apply keepsDb_same|]. intros activeClients'.
  apply keepsDb_bind; [|intros _; by apply keepsDb_same].
  destruct (map _ _); [by apply keepsDb_same|].
  intros st HP. unfold removeDocumentChangesThroughChangeId, modify. simpl.
  rewrite db_with_removedThrough, db_with_db. by apply P_changes.
Qed.

Lemma keepsDb_maybeGarbageCollectMultiClientState :
  keepsDb P maybeGarbageCollectMultiClientState.
Proof.
  intros st HP. unfold maybeGarbageCollectMultiClientState.
  destruct (_ && _); [|done]. revert HP.
  match goal with
  | |- P (db st) → P (db (snd (bind ?c ?k st))) => apply (keepsDb_bind c k)
  end.
  - apply keepsDb_same. intros; apply db_with_this.
  - intros _. apply keepsDb_bind.
    + apply keepsDb_runTransaction, keepsDb_garbageCollectTransaction.
    + intros inactiveClients. apply keepsDb_forEach. intros c. apply keepsDb_same.
      intros s. apply (preserves_localStorage_removeItem db). apply db_with_window.
Qed.

Lemma keepsDb_clientMetadataRefresherOp : keepsDb P clientMetadataRefresherOp.
Proof.
  apply keepsDb_bind; [apply keepsDb_updateClientMetadataAndTryBecomePrimary|].
  intros _. apply keepsDb_bind; [apply keepsDb_maybeGarbageCollectMultiClientState|].
  intros _. apply keepsDb_same, db_scheduleClientMetadataAndPrimaryLeaseRefreshes.
Qed.

Lemma keepsDb_shutdown deleteData : keepsDb P (shutdown deleteData).
Proof.
  apply keepsDb_bind; [apply keepsDb_same; intros; apply db_with_this|]. intros _.
  apply keepsDb_bind; [apply keepsDb_same, db_markClientZombied|]. intros _.
  apply keepsDb_bind.
  { apply keepsDb_same. intros st. destruct (clientMetadataRefresher (this st)); [|done].
    apply db_with_queue. }
  intros _. apply keepsDb_bind; [apply keepsDb_same, db_detachVisibilityHandler|].
  intros _. apply keepsDb_bind; [apply keepsDb_same, db_detachWindowUnloadHook|].
  intros _. apply keepsDb_bind.
  { apply keepsDb_SimpleDb_runTransaction. apply keepsDb_bind.
    - apply keepsDb_releasePrimaryLeaseIfHeld.
    - intros _. apply keepsDb_removeClientMetadata. }
  intros _. apply keepsDb_bind.
  { apply keepsDb_same. intros st. unfold SimpleDb_close.
    destruct (simpleDb (this st)); [apply db_with_this | done]. }
  intros _. apply keepsDb_bind; [apply keepsDb_same, db_removeClientZombiedEntry|].
  intros _. destruct deleteData; [|by apply keepsDb_same].
  intros st _. unfold SimpleDb_delete, modify. simpl. by rewrite db_with_db.
Qed.

Lemma keepsDb_start : keepsDb P start.
Proof.
  intros st HP. unfold start.
  destruct (negb (isAvailable (env st))); [simpl; by rewrite db_with_this|]. revert HP.
  match goal with
  | |- P (db st) → P (db (snd (bind ?c ?k st))) => apply (keepsDb_bind c k)
  end; [apply keepsDb_same; intros s; by apply (preserves_assert db)|]. intros _.
  apply keepsDb_bind; [apply keepsDb_same; intros s; by apply (preserves_assert db)|].
  intros _. apply keepsDb_bind.
  { apply keepsDb_same. intros s. unfold SimpleDb_openOrCreate.
    by destruct (openOrCreate_error _). }
  intros simpleDb_. apply keepsDb_bind; [apply keepsDb_same; intros; apply db_with_this|].
  intros _. apply keepsDb_bind.
  { apply keepsDb_SimpleDb_runTransaction. apply keepsDb_same. intros s.
    unfold remoteDocumentCache_start. by destruct (remoteDocumentCache_start_error _). }
  intros _. apply keepsDb_bind; [apply keepsDb_same, db_attachVisibilityHandler|].
  intros _. apply keepsDb_bind; [apply keepsDb_same, db_attachWindowUnloadHook|].
  intros _. apply keepsDb_bind; [apply keepsDb_updateClientMetadataAndTryBecomePrimary|].
  intros _. apply keepsDb_bind.
  { apply keepsDb_same, db_scheduleClientMetadataAndPrimaryLeaseRefreshes. }
  intros _. apply keepsDb_same. intros; apply db_with_this.
Qed.

Lemma keepsDb_runTask task : keepsDb P (runTask task).
Proof.
  destruct task; simpl.
  - by apply keepsDb_same.
  - by apply keepsDb_same.
  - intros st HP. destruct (started st); [|done].
    by apply keepsDb_updateClientMetadataAndTryBecomePrimary.
  - apply keepsDb_bind; [|intros _; apply keepsDb_updateClientMetadataAndTryBecomePrimary].
    apply keepsDb_same. intros st. destruct (document st); [apply db_with_this | done].
  - apply keepsDb_shutdown.
  - apply keepsDb_clientMetadataRefresherOp.
Qed.

End DbInvariant.

Lemma keysMatch_set_primaryClient v d : keysMatch d → keysMatch (set_primaryClient v d).
Proof. intros Hd k c. apply Hd. Qed.

Lemma keysMatch_set_remoteDocumentChanges v d :
  keysMatch d → keysMatch (set_remoteDocumentChanges v d).
Proof. intros Hd k c. apply Hd. Qed.

Lemma keysMatch_withHeartbeat st : keysMatch (db st) → keysMatch (db (withHeartbeat st)).
Proof.
  intros Hd. unfold withHeartbeat. rewrite db_with_db. by apply keysMatch_insert.
Qed.

(** X7. The client metadata store stays keyed by client id: if every
    record sits under its own client id, it still does after [start],
    after [shutdown], after every task the coordinator hands to the queue
    (heartbeat, refresher with garbage collection, visibility change,
    unload), and after every [runTransaction] whose body keeps it so. *)
Theorem keysMatch_kept st :
  keysMatch (db st) →
  keysMatch (db (snd (start st)))
  ∧ (∀ deleteData, keysMatch (db (snd (shutdown deleteData st))))
  ∧ keysMatch (db (snd (updateClientMetadataAndTryBecomePrimary st)))
  ∧ keysMatch (db (snd (maybeGarbageCollectMultiClientState st)))
  ∧ (∀ task, keysMatch (db (snd (runTask task st))))
  ∧ (∀ T action requirePrimaryLease (transactionOperation : M T),
       keepsDb keysMatch transactionOperation →
       keysMatch
         (db (snd (runTransaction action requirePrimaryLease transactionOperation st)))).
Proof.
  intros Hst.
  pose proof keysMatch_set_primaryClient as H1.
  pose proof (λ k d, keysMatch_delete d k) as H2.
  pose proof keysMatch_withHeartbeat as H3.
  pose proof keysMatch_set_remoteDocumentChanges as H4.
  pose proof (keysMatch_empty None ∅ : keysMatch emptyDb) as H5.
  split; [by apply keepsDb_start|].
  split; [intros d; by apply keepsDb_shutdown|].
  split; [by apply keepsDb_updateClientMetadataAndTryBecomePrimary|].
  split; [by apply keepsDb_maybeGarbageCollectMultiClientState|].
  split; [intros task; by apply keepsDb_runTask|].
  intros T action requirePrimaryLease transactionOperation Hbody.
  by apply keepsDb_runTransaction.
Qed.

Lemma keysMatch_kept_witness :
  keysMatch (db (snd (start stateBackground)))
  ∧ (∀ deleteData, keysMatch (db (snd (shutdown deleteData stateBackground))))
  ∧ keysMatch (db (snd (updateClientMetadataAndTryBecomePrimary stateBackground)))
  ∧ keysMatch (db (snd (maybeGarbageCollectMultiClientState stateBackground)))
  ∧ (∀ task, keysMatch (db (snd (runTask task stateBackground))))
  ∧ (∀ T action requirePrimaryLease (transactionOperation : M T),
       keepsDb keysMatch transactionOperation →
       keysMatch
         (db (snd (runTransaction action requirePrimaryLease transactionOperation
                     stateBackground)))).
Proof. apply (keysMatch_kept stateBackground), keysMatch_stateBackground. Defined.

(** ** More on the garbage collection *)

Lemma activeClient_mono st maxAgeMs maxAgeMs' c :
  maxAgeMs ≤ maxAgeMs' → activeClient st maxAgeMs c → activeClient st maxAgeMs' c.
Proof. unfold activeClient, withinAge. intros Hle [Hage Hz]. split; [lia | done]. Qed.

(** The stores after a call of [maybeGarbageCollectMultiClientState]: as
    before, unless the collection ran to the end of its transaction. *)
Lemma maybeGarbageCollectMultiClientState_db st :
  sideChannelSupported st = true →
  db (snd (maybeGarbageCollectMultiClientState st)) = db st
  ∨ (isPrimary (this st) = true
     ∧ isWithinAge st (lastGarbageCollectionTime (this st))
         CLIENT_STATE_GARBAGE_COLLECTION_THRESHOLD_MS = false
     ∧ persistenceError (this st) = None
     ∧ (∃ simpleDb_, simpleDb (this st) = Some simpleDb_)
     ∧ canActAsPrimary st = Ok true).
Proof.
  intros Hs.
  destruct (isPrimary (this st)) eqn:Hprim;
    [|left; unfold maybeGarbageCollectMultiClientState; by rewrite Hprim].
  destruct (isWithinAge st (lastGarbageCollectionTime (this st))
              CLIENT_STATE_GARBAGE_COLLECTION_THRESHOLD_MS) eqn:Hdue;
    [left; unfold maybeGarbageCollectMultiClientState; by rewrite Hprim, Hdue|].
  destruct (set_lastGarbageCollectionTime_frame st (Finite (now st)))
    as (Fcan & Fs & Fin & Fpeers & Ferr & Fdb & Frem & Fstore).
  set (st1 := with_this (set_lastGarbageCollectionTime (Finite (now st))) st) in *.
  destruct (persistenceError (this st)) as [e|] eqn:Herr.
  { left. unfold maybeGarbageCollectMultiClientState. rewrite Hprim, Hdue. simpl.
    unfold bind at 1. unfold modify at 1. fold st1.
    unfold bind at 1. unfold runTransaction. by rewrite Ferr. }
  destruct (simpleDb (this st)) as [simpleDb_|] eqn:Hdb.
  2:{ left. unfold maybeGarbageCollectMultiClientState. rewrite Hprim, Hdue. simpl.
      unfold bind at 1. unfold modify at 1. fold st1.
      unfold bind at 1. unfold runTransaction. rewrite Ferr.
      unfold SimpleDb_runTransaction. by rewrite Fdb. }
  destruct (canActAsPrimary st) as [[|]|e] eqn:Hcan.
  - right. eauto 10.
  - left. unfold maybeGarbageCollectMultiClientState. rewrite Hprim, Hdue. simpl.
    unfold bind at 1. unfold modify at 1. fold st1.
    unfold bind at 1. unfold runTransaction. rewrite Ferr.
    unfold SimpleDb_runTransaction. rewrite Fdb.
    unfold bind at 1. unfold bind at 1. unfold eval at 1. rewrite Fcan. simpl.
    unfold bind, modify, enqueueAndForget, throw. simpl.
    by rewrite db_with_db.
  - left. unfold maybeGarbageCollectMultiClientState. rewrite Hprim, Hdue. simpl.
    unfold bind at 1. unfold modify at 1. fold st1.
    unfold bind at 1. unfold runTransaction. rewrite Ferr.
    unfold SimpleDb_runTransaction. rewrite Fdb.
    unfold bind at 1. unfold bind at 1. unfold eval at 1. rewrite Fcan. simpl.
    by rewrite db_with_db.
Qed.

(** X8. The garbage collection never removes the metadata of an active
    client. Whatever [maybeGarbageCollectMultiClientState] does and
    returns, a record that was in the store and active (at most 30 minutes
    old and not zombied; in particular one that counts for the lease, at
    most 5 seconds old) is afterwards still there, under its client id. *)
Theorem maybeGarbageCollectMultiClientState_keeps_active st c :
  sideChannelSupported st = true →
  keysMatch (db st) →
  c ∈ loadAll st →
  activeClient st CLIENT_STATE_GARBAGE_COLLECTION_THRESHOLD_MS c
  ∨ activeClient st CLIENT_METADATA_MAX_AGE_MS c →
  clientMetadata (db (snd (maybeGarbageCollectMultiClientState st)))
    !! DbClientMetadata.clientId c = Some c.
Proof.
  intros Hs Hkeys Hc Hactive.
  assert (activeClient st CLIENT_STATE_GARBAGE_COLLECTION_THRESHOLD_MS c) as Hact.
  { destruct Hactive as [?|H5]; [done|]. revert H5. by apply activeClient_mono. }
  clear Hactive.
  assert (clientMetadata (db st) !! DbClientMetadata.clientId c = Some c) as Hlook.
  { apply elem_of_loadAll in Hc as (k & Hk). by rewrite (Hkeys k c Hk). }
  destruct (maybeGarbageCollectMultiClientState_db st Hs)
    as [->|(Hprim & Hdue & Herr & (simpleDb_ & Hdb) & Hcan)]; [done|].
  destruct (maybeGarbageCollectMultiClientState_run st simpleDb_ Hs Hprim Hdue Herr Hdb Hcan)
    as (r & st2 & st' & Hrun & Hdb' & _ & Hst2).
  rewrite Hrun. simpl. rewrite Hdb'.
  destruct (set_lastGarbageCollectionTime_frame st (Finite (now st)))
    as (_ & _ & _ & _ & _ & _ & _ & Fstore).
  set (st1 := with_this (set_lastGarbageCollectionTime (Finite (now st))) st) in *.
  assert (clientMetadata (db st2)
          = clientMetadata (db (deleteClientMetadata (gcInactive st) st1))) as Hcm.
  { rewrite Hst2. destruct (map cursor (gcPeers st)); [reflexivity|].
    unfold truncated. by destruct (deleteClientMetadata (gcInactive st) st1). }
  simpl. rewrite Hcm, clientMetadata_deleteClientMetadata, Fstore.
  rewrite bool_decide_eq_false_2; [done|].
  intros Hin. apply list_elem_of_fmap in Hin as (c' & Hid & Hc').
  apply elem_of_gcInactive in Hc' as [Hc' Hinactive].
  apply elem_of_loadAll in Hc' as (k' & Hk').
  assert (k' = DbClientMetadata.clientId c) as -> by (rewrite Hid; symmetry; by apply Hkeys).
  assert (c' = c) as -> by congruence. done.
Qed.

Lemma keysMatch_stateCollect : keysMatch (db stateCollect).
Proof.
  refine (keysMatch_insert
            (mkDb (Some (leaseOf "A" true 1500))
               (<["B" := DbClientMetadata.mk "B" 1800 true false (Some 10)]> ∅)
               {[ 2; 7; 10; 12 ]})
            "A" (DbClientMetadata.mk "A" 1500 true true (Some 3)) _ eq_refl).
  refine (keysMatch_insert (mkDb (Some (leaseOf "A" true 1500)) ∅ {[ 2; 7; 10; 12 ]})
            "B" (DbClientMetadata.mk "B" 1800 true false (Some 10)) _ eq_refl).
  apply keysMatch_empty.
Qed.

Lemma maybeGarbageCollectMultiClientState_keeps_active_witness :
  clientMetadata (db (snd (maybeGarbageCollectMultiClientState stateCollect))) !! "B"
  = Some (DbClientMetadata.mk "B" 1800 true false (Some 10)).
Proof.
  apply (maybeGarbageCollectMultiClientState_keeps_active stateCollect
           (DbClientMetadata.mk "B" 1800 true false (Some 10))).
  - reflexivity.
  - apply keysMatch_stateCollect.
  - apply list_elem_of_In. vm_compute. auto.
  - right. split; [|reflexivity].
    unfold withinAge, CLIENT_METADATA_MAX_AGE_MS. simpl. lia.
Defined.

(** What a method leaves alone, for a component [f] that depends on fields
    of the instance other than [isPrimary]. *)
Section FieldFrame.
Context {X : Type} (f : State → X).

Hypothesis f_isPrimary : ∀ b st, f (with_this (set_isPrimary b) st) = f st.
Hypothesis f_db : ∀ g st, f (with_db g st) = f st.
Hypothesis f_window : ∀ g st, f (with_window g st) = f st.
Hypothesis f_removedThrough : ∀ g st, f (with_removedThrough g st) = f st.
Hypothesis f_enqueue : ∀ task st,
  f (with_queue (λ q, mkAsyncQueue (operations q ++ [task]) (delayedOperations q)
                        (nextHandle q)) st) = f st.

Lemma field_releasePrimaryLeaseIfHeld : preserves f releasePrimaryLeaseIfHeld.
Proof.
  apply preserves_bind.
  - apply preserves_modify. intros st. apply f_isPrimary.
  - intros _ st. cbv beta zeta.
    destruct (isLocalClient st _); simpl; [apply f_db | reflexivity].
Qed.

Lemma field_runTransaction {T} action requirePrimaryLease (c : M T) :
  preserves f c → preserves f (runTransaction action requirePrimaryLease c).
Proof.
  intros Hc st. unfold runTransaction.
  destruct (persistenceError (this st)); [reflexivity|].
  apply preserves_SimpleDb_runTransaction; [exact f_db|]. destruct requirePrimaryLease.
  - apply preserves_bind.
    + apply preserves_bind; [apply preserves_eval|]. intros [|]; simpl; [exact Hc|].
      apply preserves_bind; [apply preserves_modify; intros; apply f_isPrimary|].
      intros _. apply preserves_bind; [by apply preserves_enqueueAndForget|].
      intros _. apply preserves_throw.
    + intros result.
      apply preserves_bind; [by apply preserves_acquireOrExtendPrimaryLease|].
      intros _. apply preserves_ret.
  - apply preserves_bind; [apply preserves_eval | intros _; exact Hc].
Qed.

Lemma field_updateClientMetadataAndTryBecomePrimary :
  preserves f updateClientMetadataAndTryBecomePrimary.
Proof.
  apply preserves_SimpleDb_runTransaction; [exact f_db|].
  apply preserves_bind; [intros st; simpl; apply f_db|]. intros _.
  apply preserves_bind; [apply preserves_eval|]. intros canActAsPrimary_.
  apply preserves_bind; [apply preserves_eval|]. intros wasPrimary.
  apply preserves_bind; [apply preserves_modify; intros; apply f_isPrimary|]. intros _.
  apply preserves_bind.
  - destruct (negb _); [by apply preserves_enqueueAndForget | apply preserves_ret].
  - intros _. destruct (wasPrimary && negb canActAsPrimary_).
    + apply field_releasePrimaryLeaseIfHeld.
    + destruct canActAsPrimary_;
        [by apply preserves_acquireOrExtendPrimaryLease | apply preserves_ret].
Qed.

(** The part of the garbage collection after the time of the collection is
    recorded. *)
Lemma field_collect :
  preserves f
    (inactiveClients <- runTransaction "readwrite" true garbageCollectTransaction ;;
     forEach inactiveClients (λ inactiveClient st,
       localStorage_removeItem
         (zombiedClientLocalStorageKey st (DbClientMetadata.clientId inactiveClient)) st)).
Proof.
  apply preserves_bind.
  - apply field_runTransaction. by apply preserves_garbageCollectTransaction.
  - intros inactiveClients. apply preserves_forEach. intros c st.
    by apply preserves_localStorage_removeItem.
Qed.

End FieldFrame.

Lemma isWithinAge_at_time t st x maxAgeMs :
  isWithinAge (at_time t st) (Finite x) maxAgeMs = true ↔ t - maxAgeMs ≤ x ≤ t.
Proof.
  rewrite isWithinAge_spec. unfold withinAge. by destruct st.
Qed.

(** X9. The garbage collection runs at most once in 30 minutes. A
    collection that is attempted records the current time as the time of
    the last collection, whether or not its transaction succeeds, and for
    the next 30 minutes [maybeGarbageCollectMultiClientState] returns at
    once and changes nothing. *)
Theorem maybeGarbageCollectMultiClientState_once_per_threshold st :
  isPrimary (this st) = true →
  isWithinAge st (lastGarbageCollectionTime (this st))
    CLIENT_STATE_GARBAGE_COLLECTION_THRESHOLD_MS = false →
  lastGarbageCollectionTime (this (snd (maybeGarbageCollectMultiClientState st)))
  = Finite (now st)
  ∧ ∀ t, now st ≤ t ≤ now st + 30 * 60 * 1000 →
         maybeGarbageCollectMultiClientState
           (at_time t (snd (maybeGarbageCollectMultiClientState st)))
         = (Ok tt, at_time t (snd (maybeGarbageCollectMultiClientState st))).
Proof.
  intros Hprim Hdue.
  assert (lastGarbageCollectionTime (this (snd (maybeGarbageCollectMultiClientState st)))
          = Finite (now st)) as Hlast.
  { unfold maybeGarbageCollectMultiClientState. rewrite Hprim, Hdue. simpl.
    unfold bind at 1. unfold modify at 1.
    set (st1 := with_this (set_lastGarbageCollectionTime (Finite (now st))) st).
    transitivity (lastGarbageCollectionTime (this st1)).
    - apply (field_collect (λ s, lastGarbageCollectionTime (this s))).
      + intros b [[] ? ? ? ? ? ? ?]. reflexivity.
      + intros g []. reflexivity.
      + intros g []. reflexivity.
      + intros g []. reflexivity.
      + intros task []. reflexivity.
    - subst st1. by destruct st as [[] ? ? ? ? ? ? ?]. }
  split; [exact Hlast|]. intros t Ht.
  set (st' := snd (maybeGarbageCollectMultiClientState st)) in *.
  unfold maybeGarbageCollectMultiClientState at 1.
  assert (this (at_time t st') = this st') as -> by (by destruct st').
  rewrite Hlast.
  assert (isWithinAge (at_time t st') (Finite (now st))
            CLIENT_STATE_GARBAGE_COLLECTION_THRESHOLD_MS = true) as ->.
  { apply isWithinAge_at_time. unfold CLIENT_STATE_GARBAGE_COLLECTION_THRESHOLD_MS. lia. }
  by rewrite andb_false_r.
Qed.

Lemma maybeGarbageCollectMultiClientState_once_per_threshold_witness :
  lastGarbageCollectionTime
    (this (snd (maybeGarbageCollectMultiClientState stateCollect)))
  = Finite (now stateCollect)
  ∧ ∀ t, now stateCollect ≤ t ≤ now stateCollect + 30 * 60 * 1000 →
         maybeGarbageCollectMultiClientState
           (at_time t (snd (maybeGarbageCollectMultiClientState stateCollect)))
         = (Ok tt, at_time t (snd (maybeGarbageCollectMultiClientState stateCollect))).
Proof.
  apply (maybeGarbageCollectMultiClientState_once_per_threshold stateCollect);
    reflexivity.
Defined.

(** ** The zombie markers *)

Lemma zombiedClientLocalStorageKey_inj st clientId1 clientId2 :
  zombiedClientLocalStorageKey st clientId1 = zombiedClientLocalStorageKey st clientId2 →
  clientId1 = clientId2.
Proof.
  unfold zombiedClientLocalStorageKey. intros H.
  do 4 apply String.app_inj in H. exact H.
Qed.

(** ** Shutdown on an opened database *)

(** [shutdown] on an opened database, run to its end. *)
Lemma shutdown_run deleteData st simpleDb_ :
  simpleDb (this st) = Some simpleDb_ →
  observersDetachable st = true →
  ∃ st',
    shutdown deleteData st = (Ok tt, st')
    ∧ started st' = false
    ∧ isPrimary (this st') = false
    ∧ documentVisibilityHandler (this st') = false
    ∧ windowUnloadHandler (this st') = false
    ∧ simpleDb (this st') = Some (mkSimpleDb true)
    ∧ db st' = (if deleteData then emptyDb else withoutClient (clientId (this st)) (db st))
    ∧ zombieMarked st' (clientId (this st)) = false
    ∧ (∀ other, other ≠ clientId (this st) → zombieMarked st' other = zombieMarked st other)
    ∧ (∀ h d, clientMetadataRefresher (this st) = Some h →
              d ∈ delayedOperations (queue st') → handle d ≠ h)
    ∧ operations (queue st') = operations (queue st).
Proof.
  intros Hdb Hobs.
  destruct st as [t d w doc q n e r]. destruct t. simpl in *. subst.
  unfold observersDetachable in Hobs. simpl in Hobs.
  apply andb_true_iff in Hobs as [Hdoc Hwin].
  unfold shutdown. unfold bind at 1. unfold modify at 1. simpl.
  unfold bind at 1.
  assert (∃ w',
    markClientZombied
      {| this := {| persistenceKey := persistenceKey0; clientId := clientId0;
                    allowTabSynchronization := allowTabSynchronization0;
                    simpleDb := Some simpleDb_; _started := false;
                    isPrimary := isPrimary0; networkEnabled := networkEnabled0;
                    persistenceError := persistenceError0;
                    windowUnloadHandler := windowUnloadHandler0;
                    inForeground := inForeground0;
                    documentVisibilityHandler := documentVisibilityHandler0;
                    clientMetadataRefresher := clientMetadataRefresher0;
                    lastGarbageCollectionTime := lastGarbageCollectionTime0;
                    lastProcessedDocumentChangeId := lastProcessedDocumentChangeId0 |};
         db := d; window := w; document := doc; queue := q; now := n; env := e;
         removedThrough := r |}
    = (Ok tt,
       {| this := {| persistenceKey := persistenceKey0; clientId := clientId0;
                    allowTabSynchronization := allowTabSynchronization0;
                    simpleDb := Some simpleDb_; _started := false;
                    isPrimary := isPrimary0; networkEnabled := networkEnabled0;
                    persistenceError := persistenceError0;
                    windowUnloadHandler := windowUnloadHandler0;
                    inForeground := inForeground0;
                    documentVisibilityHandler := documentVisibilityHandler0;
                    clientMetadataRefresher := clientMetadataRefresher0;
                    lastGarbageCollectionTime := lastGarbageCollectionTime0;
                    lastProcessedDocumentChangeId := lastProcessedDocumentChangeId0 |};
         db := d; window := w'; document := doc; queue := q; now := n; env := e;
         removedThrough := r |})
    ∧ match w, w' with
      | Some (mkWindow (LsItems items) a b), Some (mkWindow (LsItems items') a' b') =>
          a' = a ∧ b' = b
          ∧ items' = <["firestore_zombie" +:+ "_" +:+ persistenceKey0 +:+ "_" +:+ clientId0
                       := pretty n]> items
      | _, _ => w' = w
      end
    ∧ (match w' with Some x => window_removeEventListener x | None => false end
       = match w with Some x => window_removeEventListener x | None => false end))
    as (w' & -> & Hw' & Hrem).
  { unfold markClientZombied, try_catch, localStorage_setItem. simpl.
    destruct w as [[[| |items] a b]|]; simpl; eexists; (split; [reflexivity|]); done. }
  rewrite <- Hrem in Hwin. clear Hrem.
  unfold bind at 1.
  set (q' := match clientMetadataRefresher0 with
             | Some h => mkAsyncQueue (operations q)
                           (List.filter (λ d, negb (bool_decide (handle d = h)))
                              (delayedOperations q)) (nextHandle q)
             | None => q
             end).
  assert (operations q' = operations q
          ∧ ∀ h d0, clientMetadataRefresher0 = Some h →
                    d0 ∈ delayedOperations q' → handle d0 ≠ h) as [Hops Hcancel].
  { subst q'. destruct clientMetadataRefresher0 as [h|]; [|done]. split; [done|].
    intros h' d0 [= <-] Hin. simpl in Hin. apply elem_of_List_filter in Hin as [_ Hne].
    apply negb_true_iff, bool_decide_eq_false in Hne. done. }
  destruct clientMetadataRefresher0 as [h|]; unfold cancel, modify; simpl;
    fold q'; clearbody q'.
  all: unfold bind at 1; unfold detachVisibilityHandler at 1; simpl.
  all: destruct documentVisibilityHandler0; simpl in Hdoc;
       [destruct doc as [[[|] vs]|]; try discriminate Hdoc|]; simpl.
  all: unfold bind at 1; unfold detachWindowUnloadHook at 1; simpl.
  all: destruct windowUnloadHandler0; simpl in Hwin;
       [destruct w' as [[ls' [|] [|]]|]; try discriminate Hwin|]; simpl.
  all: unfold bind at 1; unfold SimpleDb_runTransaction, releasePrimaryLeaseIfHeld;
       unfold bind, modify; simpl.
  all: destruct d as [[p|] cm rc]; simpl; try case_bool_decide; simpl.
  all: unfold removeClientMetadata, SimpleDb_close, removeClientZombiedEntry, try_catch,
         localStorage_removeItem, modify; simpl.
  all: try (destruct w' as [[ls' a' b']|]; simpl).
  all: try (destruct ls' as [| |items']; simpl).
  all: destruct deleteData; unfold SimpleDb_delete, ret, modify; simpl.
  all: eexists; (split; [reflexivity|]); simpl.
  all: repeat (split; [first [reflexivity | done]|]).
  all: unfold withoutClient; simpl; try rewrite bool_decide_eq_true_2 by done;
       try rewrite bool_decide_eq_false_2 by done.
  all: repeat (split; [first [reflexivity | done]|]).
  all: unfold zombieMarked, zombiedClientLocalStorageKey; simpl.
  all: try (split; [first [reflexivity | apply bool_decide_eq_false; rewrite lookup_delete_eq;
                           by intros [? ?]]|]).
  all: try (split; [|split; [exact Hcancel | first [exact Hops | reflexivity]]]).
  all: try (destruct w as [[[| |items] a b]|]; try done; simpl in *).
  all: try (intros other Hother; reflexivity).
  all: try (destruct Hw' as (_ & _ & ->)).
  all: try discriminate.
  all: intros other Hother; apply bool_decide_ext;
       unfold ZOMBIED_CLIENTS_KEY_PREFIX;
       (rewrite lookup_delete_ne; [rewrite lookup_insert_ne; [done|]|]);
       intros Heq; do 4 apply String.app_inj in Heq; congruence.
Qed.

(** X10. On an instance whose database was opened and whose registered
    observers can be detached, [shutdown] succeeds. Afterwards the
    instance is neither started nor primary, its observers are detached,
    its pending refresh is cancelled and its database handle closed; the
    stores have lost the local client's metadata and its lease, if it held
    the lease, and nothing else (or everything, if the data was to be
    deleted); the side channel holds no zombie marker for the local client
    and the markers of the other clients are as before. *)
Theorem shutdown_effect deleteData st simpleDb_ :
  simpleDb (this st) = Some simpleDb_ →
  observersDetachable st = true →
  ∃ st',
    shutdown deleteData st = (Ok tt, st')
    ∧ started st' = false
    ∧ isPrimary (this st') = false
    ∧ documentVisibilityHandler (this st') = false
    ∧ windowUnloadHandler (this st') = false
    ∧ simpleDb (this st') = Some (mkSimpleDb true)
    ∧ db st' = (if deleteData then emptyDb else withoutClient (clientId (this st)) (db st))
    ∧ zombieMarked st' (clientId (this st)) = false
    ∧ (∀ other, other ≠ clientId (this st) → zombieMarked st' other = zombieMarked st other)
    ∧ (∀ h d, clientMetadataRefresher (this st) = Some h →
              d ∈ delayedOperations (queue st') → handle d ≠ h)
    ∧ operations (queue st') = operations (queue st).
Proof. apply shutdown_run. Qed.

Lemma shutdown_effect_witness :
  ∃ st',
    shutdown false (snd (start stateFresh)) = (Ok tt, st')
    ∧ started st' = false
    ∧ isPrimary (this st') = false
    ∧ documentVisibilityHandler (this st') = false
    ∧ windowUnloadHandler (this st') = false
    ∧ simpleDb (this st') = Some (mkSimpleDb true)
    ∧ db st' = (if false then emptyDb
                else withoutClient (clientId (this (snd (start stateFresh))))
                       (db (snd (start stateFresh))))
    ∧ zombieMarked st' (clientId (this (snd (start stateFresh)))) = false
    ∧ (∀ other, other ≠ clientId (this (snd (start stateFresh))) →
                zombieMarked st' other = zombieMarked (snd (start stateFresh)) other)
    ∧ (∀ h d, clientMetadataRefresher (this (snd (start stateFresh))) = Some h →
              d ∈ delayedOperations (queue st') → handle d ≠ h)
    ∧ operations (queue st') = operations (queue (snd (start stateFresh))).
Proof.
  apply (shutdown_effect false (snd (start stateFresh)) (mkSimpleDb false)); reflexivity.
Defined.

(** ** Start *)

(** X11. [start] on a new instance, on a platform with IndexedDB and a
    visible document, when no valid lease stands (none, an expired one, or
    one of a zombied owner): it succeeds; the client is started and
    primary; the lease is the local client's, written now; the store holds
    its metadata record; one notification of the listener is enqueued, and
    one refresh is scheduled [CLIENT_METADATA_REFRESH_INTERVAL_MS] from
    now. *)
Theorem start_becomes_primary st persistenceKey_ clientId_ synchronizeTabs w d :
  this st = newPersistence persistenceKey_ clientId_ synchronizeTabs →
  isAvailable (env st) = true →
  openOrCreate_error (env st) = None →
  remoteDocumentCache_start_error (env st) = None →
  window st = Some w →
  document st = Some d →
  document_addEventListener d = true →
  visibilityState d = "visible" →
  sideChannelSupported st = true →
  (∀ p, primaryClient (db st) = Some p → ¬ leaseValid st p) →
  ∃ st',
    start st = (Ok tt, st')
    ∧ started st' = true
    ∧ isPrimary (this st') = true
    ∧ simpleDb (this st') = Some (mkSimpleDb false)
    ∧ primaryClient (db st')
      = Some (DbPrimaryClient.mk clientId_ synchronizeTabs (now st))
    ∧ clientMetadata (db st')
      = <[clientId_ := DbClientMetadata.mk clientId_ (now st) true true (Some 0)]>
          (clientMetadata (db st))
    ∧ operations (queue st') = operations (queue st) ++ [NotifyPrimaryStateIfStarted]
    ∧ delayedOperations (queue st') = delayedOperations (queue st) ++ [nextRefresh st]
    ∧ clientMetadataRefresher (this st') = Some (nextHandle (queue st))
    ∧ documentVisibilityHandler (this st') = true
    ∧ windowUnloadHandler (this st') = window_addEventListener w.
Proof.
  intros Hthis Hav Hopen Hcache Hw Hd Hlisten Hvisible Hs Hlease.
  destruct st as [t db0 w0 doc0 q n e r]. simpl in *. subst t w0 doc0.
  unfold start. simpl. rewrite Hav. simpl.
  unfold bind at 1. unfold ret at 1.
  unfold bind at 1. unfold ret at 1.
  unfold bind at 1. unfold SimpleDb_openOrCreate at 1. simpl. rewrite Hopen.
  unfold bind at 1. unfold modify at 1. simpl.
  unfold bind at 1. unfold startRemoteDocumentCache, SimpleDb_runTransaction,
    remoteDocumentCache_start. simpl. rewrite Hcache.
  unfold bind at 1. unfold attachVisibilityHandler. simpl. rewrite Hlisten, Hvisible.
  simpl.
  unfold bind at 1. unfold attachWindowUnloadHook. simpl.
  set (s3 := if window_addEventListener w then _ else _).
  assert (∃ handler, handler = window_addEventListener w
    ∧ s3 = (Ok tt,
            mkState (mkPersistence persistenceKey_ clientId_ synchronizeTabs
                       (Some (mkSimpleDb false)) false false true None handler true true
                       None NEGATIVE_INFINITY 0)
              db0 (Some w) (Some d) q n e r)) as (handler & Hhandler & ->).
  { subst s3. destruct (window_addEventListener w); eexists; split; reflexivity. }
  rewrite <- Hhandler. clear Hhandler.
  set (s := mkState _ db0 (Some w) (Some d) q n e r).
  assert (canActAsPrimary (withHeartbeat s) = Ok true) as Hcan.
  { apply canActAsPrimary_foreground; try reflexivity.
    - exact Hs.
    - intros p Hp. apply (Hlease p). destruct db0. exact Hp. }
  unfold bind at 1. unfold updateClientMetadataAndTryBecomePrimary, SimpleDb_runTransaction.
  subst s. simpl.
  unfold bind at 1. cbv beta iota zeta.
  unfold bind at 1. unfold eval at 1.
  unfold withHeartbeat, heartbeatRecord in Hcan. simpl in Hcan. simpl. rewrite Hcan.
  unfold bind, eval, modify, enqueueAndForget, acquireOrExtendPrimaryLease,
    scheduleClientMetadataAndPrimaryLeaseRefreshes, enqueueAfterDelay, ret. simpl.
  eexists. split; [reflexivity|]. simpl.
  repeat (split; [reflexivity|]). reflexivity.
Qed.

Lemma start_becomes_primary_witness :
  ∃ st',
    start stateFreshAfterCrash = (Ok tt, st')
    ∧ started st' = true
    ∧ isPrimary (this st') = true
    ∧ simpleDb (this st') = Some (mkSimpleDb false)
    ∧ primaryClient (db st')
      = Some (DbPrimaryClient.mk "A" true (now stateFreshAfterCrash))
    ∧ clientMetadata (db st')
      = <["A" := DbClientMetadata.mk "A" (now stateFreshAfterCrash) true true (Some 0)]>
          (clientMetadata (db stateFreshAfterCrash))
    ∧ operations (queue st')
      = operations (queue stateFreshAfterCrash) ++ [NotifyPrimaryStateIfStarted]
    ∧ delayedOperations (queue st')
      = delayedOperations (queue stateFreshAfterCrash) ++ [nextRefresh stateFreshAfterCrash]
    ∧ clientMetadataRefresher (this st') = Some (nextHandle (queue stateFreshAfterCrash))
    ∧ documentVisibilityHandler (this st') = true
    ∧ windowUnloadHandler (this st') = window_addEventListener (exampleWindow ∅).
Proof.
  apply (start_becomes_primary stateFreshAfterCrash "app" "A" true
           (exampleWindow ∅) exampleDocument); try reflexivity.
  intros p [= <-] [Hage _]. unfold withinAge in Hage. simpl in Hage. lia.
Defined.

(** The fields [shutdown] needs, which a heartbeat leaves alone. *)
Lemma updateClientMetadataAndTryBecomePrimary_observers st :
  let f := λ s, (simpleDb (this s), documentVisibilityHandler (this s),
                 windowUnloadHandler (this s), clientId (this s), document s, window s) in
  f (snd (updateClientMetadataAndTryBecomePrimary st)) = f st.
Proof.
  apply (field_updateClientMetadataAndTryBecomePrimary
           (λ s, (simpleDb (this s), documentVisibilityHandler (this s),
                  windowUnloadHandler (this s), clientId (this s), document s, window s))).
  - intros b [[] ? ? ? ? ? ? ?]. reflexivity.
  - intros g []. reflexivity.
  - intros task []. reflexivity.
Qed.

(** X12. What [start] acquires, [shutdown] releases. After a successful
    [start] of an instance that had no observers registered, on a window
    that can remove the listeners it can add, [shutdown] succeeds: the
    instance is stopped, its observers are detached, and the stores and the
    side channel hold neither its metadata, nor a lease of its own, nor a
    zombie marker for it. *)
Theorem start_then_shutdown st st1 deleteData :
  documentVisibilityHandler (this st) = false →
  windowUnloadHandler (this st) = false →
  (∀ w, window st = Some w →
        window_addEventListener w = true → window_removeEventListener w = true) →
  start st = (Ok tt, st1) →
  ∃ st2,
    shutdown deleteData st1 = (Ok tt, st2)
    ∧ started st2 = false
    ∧ documentVisibilityHandler (this st2) = false
    ∧ windowUnloadHandler (this st2) = false
    ∧ clientMetadata (db st2) !! clientId (this st) = None
    ∧ (∀ p, primaryClient (db st2) = Some p →
            DbPrimaryClient.ownerId p ≠ clientId (this st))
    ∧ zombieMarked st2 (clientId (this st)) = false.
Proof.
  intros Hdv Hwu Hrem Hstart.
  assert (∃ simpleDb_, simpleDb (this st1) = Some simpleDb_
          ∧ observersDetachable st1 = true
          ∧ clientId (this st1) = clientId (this st)) as (simpleDb_ & Hdb & Hobs & Hid).
  { revert Hstart. destruct st as [t d w doc q n e r]. destruct t. simpl in *. subst.
    unfold start. simpl. destruct (isAvailable e); simpl; [|discriminate].
    unfold bind at 1. unfold assert at 1. unfold started. simpl.
    destruct _started0; simpl; [discriminate|].
    unfold bind at 1. unfold assert at 1.
    destruct w as [w|]; simpl; [|discriminate].
    unfold bind at 1. unfold SimpleDb_openOrCreate at 1. simpl.
    destruct (openOrCreate_error e); [discriminate|].
    unfold bind at 1. unfold modify at 1. simpl.
    unfold bind at 1. unfold startRemoteDocumentCache, SimpleDb_runTransaction,
      remoteDocumentCache_start. simpl.
    destruct (remoteDocumentCache_start_error e); [discriminate|].
    unfold bind at 1. unfold attachVisibilityHandler. simpl.
    unfold bind at 1. unfold attachWindowUnloadHook.
    set (s2 := match doc with Some _ => _ | None => _ end).
    assert (∃ handler fg,
      s2 = (Ok tt,
            mkState (mkPersistence persistenceKey0 clientId0 allowTabSynchronization0
                       (Some (mkSimpleDb false)) false isPrimary0 networkEnabled0
                       persistenceError0 false fg handler clientMetadataRefresher0
                       lastGarbageCollectionTime0 lastProcessedDocumentChangeId0)
              d (Some w) doc q n e r)
      ∧ implb handler (match doc with
                       | Some x => document_addEventListener x
                       | None => false
                       end) = true) as (handler & fg & -> & Hhandler).
    { subst s2. destruct doc as [[[|] vs]|]; simpl; eexists _, _; split; reflexivity. }
    simpl.
    set (s3 := if window_addEventListener w then _ else _).
    assert (∃ handler',
      s3 = (Ok tt,
            mkState (mkPersistence persistenceKey0 clientId0 allowTabSynchronization0
                       (Some (mkSimpleDb false)) false isPrimary0 networkEnabled0
                       persistenceError0 handler' fg handler clientMetadataRefresher0
                       lastGarbageCollectionTime0 lastProcessedDocumentChangeId0)
              d (Some w) doc q n e r)
      ∧ implb handler' (window_removeEventListener w) = true) as (handler' & -> & Hhandler').
    { subst s3. destruct (window_addEventListener w) eqn:Hadd; eexists; split;
        try reflexivity. simpl. by apply (Hrem w). }
    set (s := mkState _ d (Some w) doc q n e r).
    pose proof (updateClientMetadataAndTryBecomePrimary_observers s) as Hframe.
    unfold bind at 1.
    destruct (updateClientMetadataAndTryBecomePrimary s) as [[[]|err] s4]; [|discriminate].
    simpl in Hframe.
    unfold bind, scheduleClientMetadataAndPrimaryLeaseRefreshes, enqueueAfterDelay, modify.
    simpl. intros [= <-].
    destruct s4 as [[] ? ? ? ? ? ? ?]. simpl in *. injection Hframe as -> -> -> -> -> ->.
    exists (mkSimpleDb false). split; [reflexivity|]. split; [|reflexivity].
    unfold observersDetachable. simpl. by rewrite Hhandler, Hhandler'. }
  destruct (shutdown_run deleteData st1 simpleDb_ Hdb Hobs)
    as (st2 & Hrun & Hst & _ & Hd & Hw & _ & Hstore & Hz & _).
  exists st2. rewrite <- Hid. repeat (split; [done|]). split; [|split; [|done]].
  - rewrite Hstore. destruct deleteData; simpl; [apply lookup_empty | apply lookup_delete_eq].
  - intros p. rewrite Hstore. destruct deleteData; simpl; [discriminate|].
    destruct (primaryClient (db st1)) as [p'|]; [|discriminate].
    case_bool_decide; [discriminate|]. by intros [= <-].
Qed.

Lemma start_then_shutdown_witness :
  ∃ st2,
    shutdown false (snd (start stateFreshAfterCrash)) = (Ok tt, st2)
    ∧ started st2 = false
    ∧ documentVisibilityHandler (this st2) = false
    ∧ windowUnloadHandler (this st2) = false
    ∧ clientMetadata (db st2) !! clientId (this stateFreshAfterCrash) = None
    ∧ (∀ p, primaryClient (db st2) = Some p →
            DbPrimaryClient.ownerId p ≠ clientId (this stateFreshAfterCrash))
    ∧ zombieMarked st2 (clientId (this stateFreshAfterCrash)) = false.
Proof.
  apply (start_then_shutdown stateFreshAfterCrash (snd (start stateFreshAfterCrash)) false).
  - reflexivity.
  - reflexivity.
  - intros w [= <-] _. reflexivity.
  - reflexivity.
Defined.

(** ** Zombie markers, written and read back *)

(** X13. With a working LocalStorage, [markClientZombied] makes
    [isClientZombied] answer true for the local client,
    [removeClientZombiedEntry] makes it answer false again, and neither
    changes the answer for any other client; the stores and the instance
    are not touched. On any platform both return without an error. *)
Theorem zombie_marker_round_trip st w items :
  window st = Some w →
  localStorage w = LsItems items →
  let marked := snd (markClientZombied st) in
  let removed := snd (removeClientZombiedEntry marked) in
  fst (markClientZombied st) = Ok tt
  ∧ fst (removeClientZombiedEntry marked) = Ok tt
  ∧ isClientZombied marked (clientId (this st)) = Ok (Some true)
  ∧ isClientZombied removed (clientId (this st)) = Ok (Some false)
  ∧ (∀ other, other ≠ clientId (this st) →
              isClientZombied marked other = isClientZombied st other
              ∧ isClientZombied removed other = isClientZombied st other)
  ∧ db removed = db st ∧ this removed = this st ∧ queue removed = queue st.
Proof.
  intros Hw Hls.
  destruct st as [t d w0 doc q n e r]. simpl in *. subst w0.
  destruct w as [ls a b]. simpl in *. subst ls.
  unfold markClientZombied, removeClientZombiedEntry, try_catch, localStorage_setItem,
    localStorage_removeItem, isClientZombied, zombiedClientLocalStorageKey. simpl.
  split; [reflexivity|]. split; [reflexivity|].
  split; [by rewrite lookup_insert_eq|].
  split; [by rewrite lookup_delete_eq|].
  split; [|done].
  intros other Hother.
  assert (ZOMBIED_CLIENTS_KEY_PREFIX +:+ "_" +:+ persistenceKey t +:+ "_" +:+ clientId t
          ≠ ZOMBIED_CLIENTS_KEY_PREFIX +:+ "_" +:+ persistenceKey t +:+ "_" +:+ other) as Hne.
  { intros Heq. do 4 apply String.app_inj in Heq. congruence. }
  rewrite lookup_delete_ne, lookup_insert_ne by done. done.
Qed.

Lemma zombie_marker_round_trip_witness :
  let marked := snd (markClientZombied stateIdle) in
  let removed := snd (removeClientZombiedEntry marked) in
  fst (markClientZombied stateIdle) = Ok tt
  ∧ fst (removeClientZombiedEntry marked) = Ok tt
  ∧ isClientZombied marked (clientId (this stateIdle)) = Ok (Some true)
  ∧ isClientZombied removed (clientId (this stateIdle)) = Ok (Some false)
  ∧ (∀ other, other ≠ clientId (this stateIdle) →
              isClientZombied marked other = isClientZombied stateIdle other
              ∧ isClientZombied removed other = isClientZombied stateIdle other)
  ∧ db removed = db stateIdle ∧ this removed = this stateIdle
  ∧ queue removed = queue stateIdle.
Proof.
  apply (zombie_marker_round_trip stateIdle (exampleWindow ∅) ∅); reflexivity.
Defined.

(** X14. [markClientZombied] and [removeClientZombiedEntry] never throw:
    whatever the platform (no window, no LocalStorage, a LocalStorage that
    throws), they return normally, and when the side channel does not work
    they leave the state as it is. *)
Theorem zombie_marker_best_effort st :
  fst (markClientZombied st) = Ok tt
  ∧ fst (removeClientZombiedEntry st) = Ok tt
  ∧ ((∀ w items, window st = Some w → localStorage w ≠ LsItems items) →
     snd (markClientZombied st) = st ∧ snd (removeClientZombiedEntry st) = st).
Proof.
  unfold markClientZombied, removeClientZombiedEntry, try_catch, localStorage_setItem,
    localStorage_removeItem.
  destruct (window st) as [[[| |items] a b]|] eqn:Hw; simpl;
    (split; [done|]); (split; [done|]); intros H; try done.
  by destruct (H _ items eq_refl).
Qed.

Lemma zombie_marker_best_effort_witness :
  snd (markClientZombied stateBlockedStorage) = stateBlockedStorage
  ∧ snd (removeClientZombiedEntry stateBlockedStorage) = stateBlockedStorage.
Proof.
  apply (proj2 (proj2 (zombie_marker_best_effort stateBlockedStorage))).
  intros w items [= <-]. discriminate.
Defined.

(** ** The active clients *)

Lemma getActiveClients_run st simpleDb_ :
  simpleDb (this st) = Some simpleDb_ →
  sideChannelSupported st = true →
  getActiveClients st
  = (Ok (map DbClientMetadata.clientId
           (List.filter (activeClientb st CLIENT_METADATA_MAX_AGE_MS) (loadAll st))),
     st).
Proof.
  intros Hdb Hs. unfold getActiveClients, SimpleDb_runTransaction, eval. rewrite Hdb.
  by rewrite filterActiveClients_supported.
Qed.

(** X15. [getActiveClients] returns the client ids of exactly those
    records of the metadata store that are at most 5000 ms old (and not
    dated in the future) and whose client has no zombie marker, and it
    changes nothing. Without an opened database it throws a TypeError. *)
Theorem getActiveClients_spec st :
  sideChannelSupported st = true →
  (∀ simpleDb_, simpleDb (this st) = Some simpleDb_ →
     ∃ ids, getActiveClients st = (Ok ids, st)
            ∧ ∀ id, id ∈ ids ↔
                    ∃ c, c ∈ loadAll st
                         ∧ now st - 5000 ≤ DbClientMetadata.updateTimeMs c ≤ now st
                         ∧ zombieMarked st (DbClientMetadata.clientId c) = false
                         ∧ DbClientMetadata.clientId c = id)
  ∧ (simpleDb (this st) = None → getActiveClients st = (Err TypeError, st)).
Proof.
  intros Hs. split.
  - intros simpleDb_ Hdb. rewrite (getActiveClients_run st simpleDb_ Hdb Hs).
    eexists. split; [reflexivity|]. intros id. rewrite list_elem_of_fmap. split.
    + intros (c & -> & Hc). apply elem_of_List_filter in Hc as [Hc Hact].
      apply activeClientb_spec in Hact as [Hage Hz]. by exists c.
    + intros (c & Hc & Hage & Hz & <-). exists c. split; [done|].
      apply elem_of_List_filter. split; [done|]. by apply activeClientb_spec.
  - intros Hdb. unfold getActiveClients, SimpleDb_runTransaction. by rewrite Hdb.
Qed.

Lemma getActiveClients_spec_witness :
  (∀ simpleDb_, simpleDb (this stateBackground) = Some simpleDb_ →
     ∃ ids, getActiveClients stateBackground = (Ok ids, stateBackground)
            ∧ ∀ id, id ∈ ids ↔
                    ∃ c, c ∈ loadAll stateBackground
                         ∧ now stateBackground - 5000 ≤ DbClientMetadata.updateTimeMs c
                           ≤ now stateBackground
                         ∧ zombieMarked stateBackground (DbClientMetadata.clientId c) = false
                         ∧ DbClientMetadata.clientId c = id)
  ∧ (simpleDb (this stateBackground) = None →
     getActiveClients stateBackground = (Err TypeError, stateBackground)).
Proof. apply (getActiveClients_spec stateBackground). reflexivity. Defined.

(** The fields the side channel and the clock are read through, which a
    heartbeat leaves alone. *)
Lemma updateClientMetadataAndTryBecomePrimary_surroundings st :
  let f := λ s, (simpleDb (this s), persistenceKey (this s), clientId (this s),
                 now s, window s, env s) in
  f (snd (updateClientMetadataAndTryBecomePrimary st)) = f st.
Proof.
  apply (field_updateClientMetadataAndTryBecomePrimary
           (λ s, (simpleDb (this s), persistenceKey (this s), clientId (this s),
                  now s, window s, env s))).
  - intros b [[] ? ? ? ? ? ? ?]. reflexivity.
  - intros g []. reflexivity.
  - intros task []. reflexivity.
Qed.

(** The stores after a heartbeat that succeeded. *)
Lemma updateClientMetadataAndTryBecomePrimary_Ok st st' :
  updateClientMetadataAndTryBecomePrimary st = (Ok tt, st') →
  ∃ b, canActAsPrimary (withHeartbeat st) = Ok b
       ∧ isPrimary (this st') = b
       ∧ clientMetadata (db st')
         = <[clientId (this st) := heartbeatRecord st]> (clientMetadata (db st))
       ∧ primaryClient (db st')
         = (if b then Some (ownLease st)
            else if isPrimary (this st) && isLocalClient st (primaryClient (db st))
                 then None
                 else primaryClient (db st))
       ∧ operations (queue st')
         = (if bool_decide (isPrimary (this st) = b) then operations (queue st)
            else operations (queue st) ++ [NotifyPrimaryStateIfStarted]).
Proof.
  unfold updateClientMetadataAndTryBecomePrimary, SimpleDb_runTransaction.
  destruct (simpleDb (this st)); [|discriminate].
  unfold bind at 1. cbv beta iota zeta. fold (heartbeatRecord st).
  change (DbClientMetadata.clientId (heartbeatRecord st)) with (clientId (this st)).
  fold (withHeartbeat st).
  unfold bind at 1. unfold eval at 1.
  destruct (canActAsPrimary (withHeartbeat st)) as [b|e] eqn:Hcan; [|discriminate].
  intros Hrun. exists b. split; [reflexivity|]. revert Hrun.
  destruct st as [t [pc cm rc] w doc q n e r]. destruct t. simpl in *.
  destruct b, isPrimary0; simpl;
    unfold enqueueAndForget, acquireOrExtendPrimaryLease, releasePrimaryLeaseIfHeld,
      ownLease;
    unfold bind, modify, eval, ret; simpl;
    try (intros [= <-]; repeat (split; [reflexivity|]); reflexivity).
  destruct pc as [p|]; simpl.
  - case_bool_decide; simpl; intros [= <-];
      repeat (split; [reflexivity|]); reflexivity.
  - intros [= <-]. repeat (split; [reflexivity|]); reflexivity.
Qed.

(** X16. After a heartbeat that succeeded, the local client is among the
    clients [getActiveClients] reports, unless it has a zombie marker. *)
Theorem heartbeat_makes_client_active st st' :
  sideChannelSupported st = true →
  zombieMarked st (clientId (this st)) = false →
  updateClientMetadataAndTryBecomePrimary st = (Ok tt, st') →
  ∃ ids, getActiveClients st' = (Ok ids, st') ∧ clientId (this st) ∈ ids.
Proof.
  intros Hs Hz Hrun.
  pose proof (updateClientMetadataAndTryBecomePrimary_surroundings st) as Hframe.
  destruct (updateClientMetadataAndTryBecomePrimary_Ok st st' Hrun)
    as (b & _ & _ & Hcm & _).
  rewrite Hrun in Hframe. simpl in Hframe.
  injection Hframe as Hsdb Hpk Hid Hnow Hw He.
  assert (∃ simpleDb_, simpleDb (this st) = Some simpleDb_) as (simpleDb_ & Hopen).
  { revert Hrun. unfold updateClientMetadataAndTryBecomePrimary, SimpleDb_runTransaction.
    destruct (simpleDb (this st)); [eauto | discriminate]. }
  assert (sideChannelSupported st' = true) as Hs'.
  { unfold sideChannelSupported in *. by rewrite Hw, He. }
  rewrite (getActiveClients_run st' simpleDb_) by (done || congruence).
  eexists. split; [reflexivity|].
  apply list_elem_of_fmap. exists (heartbeatRecord st). split; [reflexivity|].
  apply elem_of_List_filter. split.
  - apply elem_of_loadAll. exists (clientId (this st)). rewrite Hcm.
    apply lookup_insert_eq.
  - apply activeClientb_spec. split.
    + unfold withinAge, CLIENT_METADATA_MAX_AGE_MS. rewrite Hnow. simpl. lia.
    + unfold zombieMarked, zombiedClientLocalStorageKey in *.
      by rewrite Hw, Hpk.
Qed.

Lemma heartbeat_makes_client_active_witness :
  ∃ ids,
    getActiveClients (snd (updateClientMetadataAndTryBecomePrimary stateBackground))
    = (Ok ids, snd (updateClientMetadataAndTryBecomePrimary stateBackground))
    ∧ clientId (this stateBackground) ∈ ids.
Proof.
  apply (heartbeat_makes_client_active stateBackground); reflexivity.
Defined.

(** ** A failed start, and the errors of the gate *)

(** X17. On a platform without a usable IndexedDB, [start] fails with
    UNIMPLEMENTED and latches that error: from then on every
    [runTransaction], whether it requires the lease or not, fails with the
    same error at once, without running its body and without changing the
    state. *)
Theorem start_unavailable_latches_error st :
  isAvailable (env st) = false →
  ∃ st',
    start st = (Err (FirestoreError UNIMPLEMENTED UNSUPPORTED_PLATFORM_ERROR_MSG), st')
    ∧ st' = with_this (set_persistenceError
                         (Some (FirestoreError UNIMPLEMENTED UNSUPPORTED_PLATFORM_ERROR_MSG)))
              st
    ∧ started st' = started st
    ∧ ∀ T action requirePrimaryLease (transactionOperation : M T),
        runTransaction action requirePrimaryLease transactionOperation st'
        = (Err (FirestoreError UNIMPLEMENTED UNSUPPORTED_PLATFORM_ERROR_MSG), st').
Proof.
  intros Hav. unfold start. rewrite Hav. simpl.
  eexists. split; [reflexivity|]. split; [reflexivity|].
  split; [by destruct st as [[] ? ? ? ? ? ? ?]|].
  intros T action requirePrimaryLease transactionOperation. unfold runTransaction.
  by destruct st as [[] ? ? ? ? ? ? ?].
Qed.

Lemma start_unavailable_latches_error_witness :
  ∃ st',
    start stateUnavailable
    = (Err (FirestoreError UNIMPLEMENTED UNSUPPORTED_PLATFORM_ERROR_MSG), st')
    ∧ st' = with_this (set_persistenceError
                         (Some (FirestoreError UNIMPLEMENTED UNSUPPORTED_PLATFORM_ERROR_MSG)))
              stateUnavailable
    ∧ started st' = started stateUnavailable
    ∧ ∀ T action requirePrimaryLease (transactionOperation : M T),
        runTransaction action requirePrimaryLease transactionOperation st'
        = (Err (FirestoreError UNIMPLEMENTED UNSUPPORTED_PLATFORM_ERROR_MSG), st').
Proof. apply (start_unavailable_latches_error stateUnavailable). reflexivity. Defined.

(** X18. [isPrimaryLeaseLostError] recognises exactly one error, the one
    [runTransaction] throws when the lease cannot be obtained. It does not
    take the error of an exclusive lease for it, although both carry the
    code FAILED_PRECONDITION; and a transaction that requires the lease on
    a client that cannot act as primary fails with an error it
    recognises. *)
Theorem isPrimaryLeaseLostError_spec :
  (∀ err, isPrimaryLeaseLostError err = true ↔ err = PRIMARY_LEASE_LOST)
  ∧ isPrimaryLeaseLostError PRIMARY_LEASE_EXCLUSIVE = false
  ∧ (∀ T action (transactionOperation : M T) st simpleDb_,
       persistenceError (this st) = None →
       simpleDb (this st) = Some simpleDb_ →
       canActAsPrimary st = Ok false →
       ∃ err st', runTransaction action true transactionOperation st = (Err err, st')
                  ∧ isPrimaryLeaseLostError err = true).
Proof.
  split; [|split].
  - intros [code message| | |]; simpl; try (split; intros; discriminate).
    rewrite andb_true_iff, !bool_decide_eq_true. unfold PRIMARY_LEASE_LOST. split.
    + by intros [-> ->].
    + by intros [= -> ->].
  - reflexivity.
  - intros T action transactionOperation st simpleDb_ Herr Hdb Hcan.
    unfold runTransaction, SimpleDb_runTransaction. rewrite Herr, Hdb.
    unfold bind, eval. rewrite Hcan. simpl. eexists _, _. split; reflexivity.
Qed.

Lemma isPrimaryLeaseLostError_spec_witness :
  ∃ err st',
    runTransaction "write" true (ret tt) stateShared = (Err err, st')
    ∧ isPrimaryLeaseLostError err = true.
Proof.
  apply (proj2 (proj2 isPrimaryLeaseLostError_spec) unit "write" (ret tt) stateShared
           (mkSimpleDb false)); reflexivity.
Defined.

(** What [verifyAllowTabSynchronization] answers on a supported platform:
    it fails in the case of an exclusive lease of another client and only
    then. *)
Lemma verifyAllowTabSynchronization_Ok st :
  sideChannelSupported st = true →
  ¬ (∃ p, primaryClient (db st) = Some p
          ∧ leaseValid st p
          ∧ DbPrimaryClient.ownerId p ≠ clientId (this st)
          ∧ DbPrimaryClient.allowTabSynchronization p = false) →
  verifyAllowTabSynchronization st = Ok tt.
Proof.
  intros Hs Hno. unfold verifyAllowTabSynchronization.
  destruct (primaryClient (db st)) as [p|] eqn:Hp; [|reflexivity].
  rewrite currentLeaseIsValid_supported by done.
  destruct (_ && _) eqn:Hvalid; simpl; [|reflexivity].
  apply leaseValid_bool in Hvalid.
  case_bool_decide as Hown; simpl; [reflexivity|].
  destruct (DbPrimaryClient.allowTabSynchronization p) eqn:Hallow; simpl; [reflexivity|].
  destruct Hno. by exists p.
Qed.

(** X19. A transaction that does not require the lease, on an instance
    with no latched error and an opened database, when no other client
    holds a valid exclusive lease: the gate adds nothing of its own. If the
    body succeeds, the result and the state are the body's, and the lease
    is not written; if the body fails, its error is passed on unchanged
    and the stores are as they were before the transaction. *)
Theorem runTransaction_without_lease {T} action (transactionOperation : M T) st simpleDb_ :
  persistenceError (this st) = None →
  simpleDb (this st) = Some simpleDb_ →
  sideChannelSupported st = true →
  ¬ (∃ p, primaryClient (db st) = Some p
          ∧ leaseValid st p
          ∧ DbPrimaryClient.ownerId p ≠ clientId (this st)
          ∧ DbPrimaryClient.allowTabSynchronization p = false) →
  (∀ result st1,
     transactionOperation st = (Ok result, st1) →
     runTransaction action false transactionOperation st = (Ok result, st1))
  ∧ (∀ e st1,
       transactionOperation st = (Err e, st1) →
       ∃ st', runTransaction action false transactionOperation st = (Err e, st')
              ∧ db st' = db st
              ∧ this st' = this st1 ∧ queue st' = queue st1 ∧ window st' = window st1).
Proof.
  intros Herr Hdb Hs Hno.
  pose proof (verifyAllowTabSynchronization_Ok st Hs Hno) as Hver.
  split.
  - intros result st1 Hbody. unfold runTransaction, SimpleDb_runTransaction.
    rewrite Herr, Hdb. unfold bind, eval. by rewrite Hver, Hbody.
  - intros e st1 Hbody. unfold runTransaction, SimpleDb_runTransaction.
    rewrite Herr, Hdb. unfold bind, eval. rewrite Hver, Hbody.
    eexists. split; [reflexivity|]. by destruct st1.
Qed.

Lemma runTransaction_without_lease_witness :
  (∀ result st1,
     ret 7 stateShared = (Ok result, st1) →
     runTransaction "Get document" false (ret 7) stateShared = (Ok result, st1))
  ∧ (∀ e st1,
       ret 7 stateShared = (Err e, st1) →
       ∃ st', runTransaction "Get document" false (ret 7) stateShared = (Err e, st')
              ∧ db st' = db stateShared
              ∧ this st' = this st1 ∧ queue st' = queue st1 ∧ window st' = window st1).
Proof.
  apply (runTransaction_without_lease "Get document" (ret 7) stateShared (mkSimpleDb false)).
  - reflexivity.
  - reflexivity.
  - reflexivity.
  - intros (p & Hp & _ & _ & Hallow). injection Hp as <-. discriminate Hallow.
Defined.

(** ** One lease, two clients *)

(** X20. The lease shuts the other clients out. Once a client has written
    its lease, any other client sharing the stores cannot act as primary
    for the next 5000 ms, as long as the holder has no zombie marker:
    [canActAsPrimary] does not return true, and a transaction that requires
    the lease fails, with PRIMARY_LEASE_LOST or PRIMARY_LEASE_EXCLUSIVE,
    without running its body; the stores, the holder's lease among them,
    are as the holder left them. *)
Theorem lease_shuts_out_other_clients {T} holder other action
    (transactionOperation : M T) simpleDb_ :
  db other = db (snd (acquireOrExtendPrimaryLease holder)) →
  clientId (this other) ≠ clientId (this holder) →
  now holder ≤ now other ≤ now holder + 5000 →
  zombieMarked other (clientId (this holder)) = false →
  sideChannelSupported other = true →
  persistenceError (this other) = None →
  simpleDb (this other) = Some simpleDb_ →
  canActAsPrimary other ≠ Ok true
  ∧ ∃ e st',
      runTransaction action true transactionOperation other = (Err e, st')
      ∧ (e = PRIMARY_LEASE_LOST ∨ e = PRIMARY_LEASE_EXCLUSIVE)
      ∧ db st' = db other
      ∧ primaryClient (db st') = Some (ownLease holder)
      ∧ removedThrough st' = removedThrough other.
Proof.
  intros Hshared Hid Htime Hz Hs Herr Hdb.
  assert (primaryClient (db other) = Some (ownLease holder)) as Hp.
  { rewrite Hshared. unfold acquireOrExtendPrimaryLease. simpl.
    by rewrite db_with_db. }
  assert (leaseValid other (ownLease holder)) as Hv.
  { split; [unfold withinAge; simpl; lia | exact Hz]. }
  assert (DbPrimaryClient.ownerId (ownLease holder) ≠ clientId (this other)) as Hown
    by (simpl; congruence).
  assert (canActAsPrimary other = Ok false
          ∨ canActAsPrimary other = Err PRIMARY_LEASE_EXCLUSIVE) as Hcan.
  { destruct (DbPrimaryClient.allowTabSynchronization (ownLease holder)) eqn:Hallow.
    - left. by apply (canActAsPrimary_remote_sync other (ownLease holder)).
    - right. by apply (canActAsPrimary_exclusive other (ownLease holder)). }
  split; [destruct Hcan as [-> | ->]; discriminate|].
  unfold runTransaction, SimpleDb_runTransaction. rewrite Herr, Hdb.
  unfold bind, eval. destruct Hcan as [-> | ->]; simpl.
  - eexists _, _. split; [reflexivity|]. split; [by left|].
    destruct other as [[] ? ? ? ? ? ? ?]. simpl in *. done.
  - eexists _, _. split; [reflexivity|]. split; [by right|].
    destruct other as [[] ? ? ? ? ? ? ?]. simpl in *. done.
Qed.

Lemma lease_shuts_out_other_clients_witness :
  canActAsPrimary stateOtherClient ≠ Ok true
  ∧ ∃ e st',
      runTransaction "Acknowledge batch" true (ret 7) stateOtherClient = (Err e, st')
      ∧ (e = PRIMARY_LEASE_LOST ∨ e = PRIMARY_LEASE_EXCLUSIVE)
      ∧ db st' = db stateOtherClient
      ∧ primaryClient (db st') = Some (ownLease stateSolo)
      ∧ removedThrough st' = removedThrough stateOtherClient.
Proof.
  apply (lease_shuts_out_other_clients stateSolo stateOtherClient "Acknowledge batch"
           (ret 7) (mkSimpleDb false)); try reflexivity.
  - discriminate.
  - simpl. lia.
Defined.

(** ** The storage prefix *)

Lemma string_app_cons c s t : String c s +:+ t = String c (s +:+ t).
Proof. reflexivity. Qed.

Lemma string_app_assoc s t u : (s +:+ t) +:+ u = s +:+ (t +:+ u).
Proof.
  induction s as [|c s IH]; [reflexivity|].
  by rewrite !string_app_cons, IH.
Qed.

Lemma string_length_app s t :
  String.length (s +:+ t) = (String.length s + String.length t)%nat.
Proof.
  induction s as [|c s IH]; [reflexivity|].
  rewrite string_app_cons. simpl. by rewrite IH.
Qed.

Lemma string_app_inj_r s1 s2 t : s1 +:+ t = s2 +:+ t → s1 = s2.
Proof.
  revert s2. induction s1 as [|c s1 IH]; intros [|c2 s2] H.
  - reflexivity.
  - apply (f_equal String.length) in H. rewrite !string_length_app in H.
    simpl in H. lia.
  - apply (f_equal String.length) in H. rewrite !string_length_app in H.
    simpl in H. lia.
  - rewrite !string_app_cons in H. injection H as -> H. f_equal. by apply IH.
Qed.

Lemma string_app_nil_l t : "" +:+ t = t.
Proof. reflexivity. Qed.

(** A dot-free string followed by a dot splits in one way only. *)
Lemma dotFree_split p1 p2 d1 d2 :
  dotFree p1 = true → dotFree p2 = true →
  p1 +:+ ("." +:+ d1) = p2 +:+ ("." +:+ d2) →
  p1 = p2 ∧ d1 = d2.
Proof.
  revert p2. induction p1 as [|c p1 IH]; intros [|c2 p2] H1 H2 H;
    rewrite ?string_app_cons, ?string_app_nil_l in H.
  - by injection H as ->.
  - injection H as <- _. simpl in H2. discriminate H2.
  - injection H as -> _. simpl in H1. discriminate H1.
  - injection H as -> H.
    simpl in H1, H2. apply andb_true_iff in H1 as [_ H1], H2 as [_ H2].
    assert (p1 +:+ ("." +:+ d1) = p2 +:+ ("." +:+ d2)) as H'
      by (by rewrite ?string_app_cons, ?string_app_nil_l).
    destruct (IH p2 H1 H2 H') as [-> ->]. done.
Qed.

Lemma dotFree_no_dot p q d : dotFree p = true → p ≠ q +:+ ("." +:+ d).
Proof.
  revert p. induction q as [|c q IH]; intros [|c' p] Hp H;
    rewrite ?string_app_cons, ?string_app_nil_l in H; try discriminate H.
  - injection H as -> _. simpl in Hp. discriminate Hp.
  - injection H as -> H.
    simpl in Hp. apply andb_true_iff in Hp as [_ Hp]. apply (IH p Hp).
    by rewrite ?string_app_cons, ?string_app_nil_l.
Qed.

(** X21. The two formats of [buildStoragePrefix] never collide: for one
    persistence key, and project ids without a dot, two databases get the
    same prefix only if they have the same project id, are both the
    default database or both not, and, if not, have the same database
    name. *)
Theorem buildStoragePrefix_inj info1 info2 :
  DatabaseInfo.persistenceKey info1 = DatabaseInfo.persistenceKey info2 →
  dotFree (DatabaseId.projectId (DatabaseInfo.databaseId info1)) = true →
  dotFree (DatabaseId.projectId (DatabaseInfo.databaseId info2)) = true →
  buildStoragePrefix info1 = buildStoragePrefix info2 →
  DatabaseId.projectId (DatabaseInfo.databaseId info1)
  = DatabaseId.projectId (DatabaseInfo.databaseId info2)
  ∧ DatabaseId.isDefaultDatabase (DatabaseInfo.databaseId info1)
    = DatabaseId.isDefaultDatabase (DatabaseInfo.databaseId info2)
  ∧ (DatabaseId.isDefaultDatabase (DatabaseInfo.databaseId info1) = false →
     DatabaseId.database (DatabaseInfo.databaseId info1)
     = DatabaseId.database (DatabaseInfo.databaseId info2)).
Proof.
  destruct info1 as [[p1 d1 def1] k1], info2 as [[p2 d2 def2] k2]. simpl.
  intros -> H1 H2. unfold buildStoragePrefix. simpl. intros H.
  apply string_app_inj_r in H. rewrite !string_app_assoc in H.
  do 3 apply String.app_inj in H.
  destruct def1, def2; simpl in H.
  - by subst.
  - by destruct (dotFree_no_dot p1 p2 d2 H1).
  - symmetry in H. by destruct (dotFree_no_dot p2 p1 d1 H2).
  - destruct (dotFree_split p1 p2 d1 d2 H1 H2 H) as [-> ->]. done.
Qed.

Lemma buildStoragePrefix_inj_witness :
  let info := DatabaseInfo.mk (DatabaseId.mk "my-project" "eu" false) "app" in
  DatabaseId.projectId (DatabaseInfo.databaseId info)
  = DatabaseId.projectId (DatabaseInfo.databaseId info)
  ∧ DatabaseId.isDefaultDatabase (DatabaseInfo.databaseId info)
    = DatabaseId.isDefaultDatabase (DatabaseInfo.databaseId info)
  ∧ (DatabaseId.isDefaultDatabase (DatabaseInfo.databaseId info) = false →
     DatabaseId.database (DatabaseInfo.databaseId info)
     = DatabaseId.database (DatabaseInfo.databaseId info)).
Proof.
  apply (buildStoragePrefix_inj
           (DatabaseInfo.mk (DatabaseId.mk "my-project" "eu" false) "app")
           (DatabaseInfo.mk (DatabaseId.mk "my-project" "eu" false) "app"));
    reflexivity.
Defined.

(** ** Repeating the heartbeat *)

Lemma updateClientMetadataAndTryBecomePrimary_run st simpleDb_ b :
  simpleDb (this st) = Some simpleDb_ →
  canActAsPrimary (withHeartbeat st) = Ok b →
  updateClientMetadataAndTryBecomePrimary st = (Ok tt, heartbeatState b st).
Proof.
  intros Hdb Hcan.
  unfold updateClientMetadataAndTryBecomePrimary, SimpleDb_runTransaction. rewrite Hdb.
  unfold bind at 1. cbv beta iota zeta. fold (heartbeatRecord st).
  change (DbClientMetadata.clientId (heartbeatRecord st)) with (clientId (this st)).
  fold (withHeartbeat st).
  unfold bind at 1. unfold eval at 1. rewrite Hcan.
  unfold heartbeatState.
  destruct st as [t [pc cm rc] w doc q n e r]. destruct t. simpl in *.
  destruct q as [ops delayed next].
  destruct b, isPrimary0; simpl;
    unfold enqueueAndForget, acquireOrExtendPrimaryLease, releasePrimaryLeaseIfHeld,
      ownLease;
    unfold bind, modify, eval, ret; simpl; try reflexivity.
  destruct pc as [p|]; simpl; [|reflexivity].
  case_bool_decide; reflexivity.
Qed.

Lemma isWithinAge_now st : isWithinAge st (Finite (now st)) CLIENT_METADATA_MAX_AGE_MS = true.
Proof. apply isWithinAge_spec. unfold withinAge, CLIENT_METADATA_MAX_AGE_MS. lia. Qed.

(** What [canActAsPrimary] reads of the state a heartbeat leaves. *)
Lemma heartbeatState_frame b st :
  sideChannelSupported st = true →
  keysMatch (db st) →
  sideChannelSupported (heartbeatState b st) = true
  ∧ keysMatch (db (heartbeatState b st))
  ∧ canActAsPrimary_scan (heartbeatState b st) = canActAsPrimary_scan st
  ∧ (∀ cp, currentLeaseIsValid (heartbeatState b st) cp = currentLeaseIsValid st cp)
  ∧ (∀ cp, isLocalClient (heartbeatState b st) cp = isLocalClient st cp)
  ∧ networkEnabled (this (heartbeatState b st)) = networkEnabled (this st).
Proof.
  intros Hs Hkeys.
  assert (canActAsPrimary_scan (heartbeatState b st)
          = canActAsPrimary_scan (withHeartbeat st)) as Hscan1.
  { by destruct st as [[] [] ? ? ? ? ? ?]. }
  assert (canActAsPrimary_scan (withHeartbeat st) = canActAsPrimary_scan st) as Hscan2.
  { destruct (withHeartbeat_frame st) as (Ht & Hn & Hw & He & _ & _ & _).
    assert (sideChannelSupported (withHeartbeat st) = true) as Hs'.
    { unfold sideChannelSupported in *. by rewrite Hw, He. }
    destruct (canActAsPrimary_scan_spec _ Hs') as (b' & -> & Hb').
    destruct (canActAsPrimary_scan_spec _ Hs) as (b0 & -> & Hb).
    f_equal. rewrite Ht, noPreferredPeer_withHeartbeat in Hb' by done.
    apply Bool.eq_iff_eq_true. tauto. }
  split; [by destruct st as [[] [] ? ? ? ? ? ?]|].
  split.
  { intros k c. unfold heartbeatState. simpl.
    destruct (decide (clientId (this st) = k)) as [<-|Hne].
    - rewrite lookup_insert_eq. by intros [= <-].
    - rewrite lookup_insert_ne by done. apply Hkeys. }
  split; [congruence|].
  split; [intros [p|]; by destruct st as [[] [] ? ? ? ? ? ?]|].
  split; [intros [p|]; by destruct st as [[] [] ? ? ? ? ? ?]|].
  by destruct st as [[] [] ? ? ? ? ? ?].
Qed.

(** The state a heartbeat leaves answers [canActAsPrimary] as it was
    answered. *)
Lemma canActAsPrimary_heartbeatState b st :
  sideChannelSupported st = true →
  keysMatch (db st) →
  canActAsPrimary st = Ok b →
  canActAsPrimary (heartbeatState b st) = Ok b.
Proof.
  intros Hs Hkeys Hcan.
  destruct (heartbeatState_frame b st Hs Hkeys) as (_ & _ & Hscan & Hvalid & Hlocal & Hnet).
  unfold canActAsPrimary in *. rewrite Hvalid, Hscan, Hlocal, Hnet.
  assert (primaryClient (db (heartbeatState b st))
          = (if b then Some (ownLease st)
             else if isPrimary (this st) && isLocalClient st (primaryClient (db st))
                  then None
                  else primaryClient (db st))) as -> by reflexivity.
  destruct b.
  - (* primary: the lease is the local client's, written now *)
    rewrite currentLeaseIsValid_supported by done.
    change (DbPrimaryClient.leaseTimestampMs (ownLease st)) with (now st).
    change (DbPrimaryClient.ownerId (ownLease st)) with (clientId (this st)).
    rewrite isWithinAge_now. simpl.
    rewrite !(bool_decide_eq_true_2 (clientId (this st) = clientId (this st))) by done.
    simpl.
    destruct (primaryClient (db st)) as [p|] eqn:Hp.
    + rewrite currentLeaseIsValid_supported in Hcan by done. simpl in Hcan.
      unfold isLocalClient in Hcan.
      destruct (zombieMarked st (clientId (this st))) eqn:Hz; simpl.
      * destruct (isWithinAge st _ _ && negb (zombieMarked st (DbPrimaryClient.ownerId p)))
          eqn:Hv; simpl in Hcan; [|done].
        case_bool_decide as Hown; simpl in Hcan.
        -- rewrite Hown, Hz in Hv. by rewrite andb_false_r in Hv.
        -- destruct (DbPrimaryClient.allowTabSynchronization p); simpl in Hcan;
             discriminate Hcan.
      * destruct (networkEnabled (this st)); simpl; [done|].
        destruct (isWithinAge st _ _ && negb (zombieMarked st (DbPrimaryClient.ownerId p)))
          eqn:Hv; simpl in Hcan; [|done].
        case_bool_decide as Hown; simpl in Hcan; [done|].
        destruct (DbPrimaryClient.allowTabSynchronization p); simpl in Hcan;
          discriminate Hcan.
    + simpl in Hcan.
      destruct (negb (zombieMarked st (clientId (this st)))); simpl; [|done].
      destruct (networkEnabled (this st)); simpl; done.
  - (* not primary: the lease is as before, or the local one was released *)
    destruct (isPrimary (this st) && isLocalClient st (primaryClient (db st))) eqn:Hrel;
      [|done].
    apply andb_true_iff in Hrel as [_ Hloc]. simpl.
    destruct (primaryClient (db st)) as [p|] eqn:Hp; [|done].
    rewrite currentLeaseIsValid_supported in Hcan by done.
    rewrite !Hloc in Hcan. simpl in Hcan.
    destruct (isWithinAge st _ _ && negb (zombieMarked st (DbPrimaryClient.ownerId p)));
      simpl in Hcan; [|done].
    destruct (networkEnabled (this st)); simpl in Hcan; [discriminate Hcan | done].
Qed.

(** X22. Repeating a heartbeat changes nothing. On a supported platform
    and a store keyed by client id, a heartbeat that succeeded, run again
    at the same time with nothing else having changed, succeeds again and
    leaves the state exactly as the first one left it: the same records,
    the same [isPrimary], and no second notification of the listener. *)
Theorem updateClientMetadataAndTryBecomePrimary_idempotent st st' :
  sideChannelSupported st = true →
  keysMatch (db st) →
  updateClientMetadataAndTryBecomePrimary st = (Ok tt, st') →
  updateClientMetadataAndTryBecomePrimary st' = (Ok tt, st').
Proof.
  intros Hs Hkeys Hrun.
  assert (∃ simpleDb_, simpleDb (this st) = Some simpleDb_) as (simpleDb_ & Hopen).
  { revert Hrun. unfold updateClientMetadataAndTryBecomePrimary, SimpleDb_runTransaction.
    destruct (simpleDb (this st)); [eauto | discriminate]. }
  destruct (updateClientMetadataAndTryBecomePrimary_Ok st st' Hrun) as (b & Hcan & _).
  rewrite (updateClientMetadataAndTryBecomePrimary_run st simpleDb_ b Hopen Hcan) in Hrun.
  injection Hrun as <-.
  rewrite canActAsPrimary_withHeartbeat in Hcan by done.
  destruct (heartbeatState_frame b st Hs Hkeys) as (Hs' & Hkeys' & _).
  pose proof (canActAsPrimary_heartbeatState b st Hs Hkeys Hcan) as Hcan'.
  rewrite <- (canActAsPrimary_withHeartbeat _ Hs' Hkeys') in Hcan'.
  rewrite (updateClientMetadataAndTryBecomePrimary_run _ simpleDb_ b); [|..|exact Hcan'].
  - f_equal. unfold heartbeatState at 1.
    destruct st as [t [pc cm rc] w doc [ops delayed next] n e r]. destruct t.
    unfold heartbeatState, heartbeatRecord, ownLease. simpl.
    rewrite insert_insert_eq. rewrite (bool_decide_eq_true_2 (b = b)) by done.
    destruct b; reflexivity.
  - by destruct st as [[] [] ? ? ? ? ? ?].
Qed.

Lemma updateClientMetadataAndTryBecomePrimary_idempotent_witness :
  updateClientMetadataAndTryBecomePrimary
    (snd (updateClientMetadataAndTryBecomePrimary stateBackground))
  = (Ok tt, snd (updateClientMetadataAndTryBecomePrimary stateBackground)).
Proof.
  apply (updateClientMetadataAndTryBecomePrimary_idempotent stateBackground).
  - reflexivity.
  - apply keysMatch_stateBackground.
  - reflexivity.
Defined.

(** ** A client on its own *)

(** X23. A client that has no active peer is always eligible, whatever its
    network and foreground state, unless another client holds a valid
    lease: when every record of the metadata store is the local client's
    own, or too old, or zombied, and the lease is absent, invalid or the
    local client's, [canActAsPrimary] returns true. *)
Theorem canActAsPrimary_alone st :
  sideChannelSupported st = true →
  (∀ c, c ∈ loadAll st →
        DbClientMetadata.clientId c = clientId (this st) ∨ ¬ activeClient st 5000 c) →
  (∀ p, primaryClient (db st) = Some p →
        DbPrimaryClient.ownerId p = clientId (this st) ∨ ¬ leaseValid st p) →
  canActAsPrimary st = Ok true.
Proof.
  intros Hs Halone Hlease.
  assert (canActAsPrimary_scan st = Ok true) as Hscan.
  { destruct (canActAsPrimary_scan_spec st Hs) as (b & -> & Hb). f_equal. apply Hb.
    right. intros P HP Hact Hne _. by destruct (Halone P HP). }
  unfold canActAsPrimary. destruct (primaryClient (db st)) as [p|] eqn:Hp; [|done].
  rewrite currentLeaseIsValid_supported by done.
  destruct (_ && _) eqn:Hv; simpl; [|done].
  apply leaseValid_bool in Hv.
  destruct (Hlease p eq_refl) as [Hown|Hno]; [|done].
  rewrite (bool_decide_eq_true_2 _ Hown). simpl.
  by destruct (networkEnabled (this st)).
Qed.

Lemma canActAsPrimary_alone_witness : canActAsPrimary stateAloneOffline = Ok true.
Proof.
  apply (canActAsPrimary_alone stateAloneOffline).
  - reflexivity.
  - intros c Hc. left. apply elem_of_loadAll in Hc as (k & Hk).
    change (clientMetadata (db stateAloneOffline))
      with (<["A" := DbClientMetadata.mk "A" 1000 false false (Some 0)]>
              (∅ : gmap string DbClientMetadata.t)) in Hk.
    apply lookup_insert_Some in Hk as [[_ <-]|[_ Hk]]; [reflexivity|].
    by rewrite lookup_empty in Hk.
  - intros p [= <-]. by left.
Defined.

(** ** A start that finds the lease taken *)

(** X24. [start] while another client holds a valid exclusive lease: it
    fails with PRIMARY_LEASE_EXCLUSIVE, after opening the database and
    registering its observers; the instance is not started, and the stores,
    the holder's lease among them, are untouched. [shutdown] can then be
    called, as its comment says: it succeeds, detaches the observers, and
    leaves the holder's lease in place and no zombie marker behind. *)
Theorem start_exclusive_then_shutdown st p w :
  documentVisibilityHandler (this st) = false →
  windowUnloadHandler (this st) = false →
  started st = false →
  isAvailable (env st) = true →
  openOrCreate_error (env st) = None →
  remoteDocumentCache_start_error (env st) = None →
  window st = Some w →
  (window_addEventListener w = true → window_removeEventListener w = true) →
  sideChannelSupported st = true →
  primaryClient (db st) = Some p →
  leaseValid st p →
  DbPrimaryClient.ownerId p ≠ clientId (this st) →
  DbPrimaryClient.allowTabSynchronization p = false →
  ∃ st1,
    start st = (Err PRIMARY_LEASE_EXCLUSIVE, st1)
    ∧ started st1 = false
    ∧ db st1 = db st
    ∧ ∃ st2,
        shutdown false st1 = (Ok tt, st2)
        ∧ primaryClient (db st2) = Some p
        ∧ documentVisibilityHandler (this st2) = false
        ∧ windowUnloadHandler (this st2) = false
        ∧ zombieMarked st2 (clientId (this st)) = false.
Proof.
  intros Hdv Hwu Hst Hav Hopen Hcache Hw Hrem Hs Hp Hv Hown Hallow.
  destruct st as [t d w0 doc q n e r]. destruct t. simpl in *. subst.
  unfold started in Hst. simpl in Hst. subst _started0.
  unfold start. simpl. rewrite Hav. simpl.
  unfold bind at 1. unfold ret at 1.
  unfold bind at 1. unfold ret at 1.
  unfold bind at 1. unfold SimpleDb_openOrCreate at 1. simpl. rewrite Hopen.
  unfold bind at 1. unfold modify at 1. simpl.
  unfold bind at 1. unfold startRemoteDocumentCache, SimpleDb_runTransaction,
    remoteDocumentCache_start. simpl. rewrite Hcache.
  unfold bind at 1. unfold attachVisibilityHandler. simpl.
  unfold bind at 1. unfold attachWindowUnloadHook.
  set (s2 := match doc with Some _ => _ | None => _ end).
  assert (∃ handler fg,
    s2 = (Ok tt,
          mkState (mkPersistence persistenceKey0 clientId0 allowTabSynchronization0
                     (Some (mkSimpleDb false)) false isPrimary0 networkEnabled0
                     persistenceError0 false fg handler clientMetadataRefresher0
                     lastGarbageCollectionTime0 lastProcessedDocumentChangeId0)
            d (Some w) doc q n e r)
    ∧ implb handler (match doc with
                     | Some x => document_addEventListener x
                     | None => false
                     end) = true) as (handler & fg & -> & Hhandler).
  { subst s2. destruct doc as [[[|] vs]|]; simpl; eexists _, _; split; reflexivity. }
  simpl.
  set (s3 := if window_addEventListener w then _ else _).
  assert (∃ handler',
    s3 = (Ok tt,
          mkState (mkPersistence persistenceKey0 clientId0 allowTabSynchronization0
                     (Some (mkSimpleDb false)) false isPrimary0 networkEnabled0
                     persistenceError0 handler' fg handler clientMetadataRefresher0
                     lastGarbageCollectionTime0 lastProcessedDocumentChangeId0)
            d (Some w) doc q n e r)
    ∧ implb handler' (window_removeEventListener w) = true) as (handler' & -> & Hhandler').
  { subst s3. destruct (window_addEventListener w) eqn:Hadd; eexists; split;
      try reflexivity. simpl. by apply Hrem. }
  set (s := mkState _ d (Some w) doc q n e r).
  assert (canActAsPrimary (withHeartbeat s) = Err PRIMARY_LEASE_EXCLUSIVE) as Hcan.
  { by apply (canActAsPrimary_exclusive _ p). }
  unfold bind at 1. unfold updateClientMetadataAndTryBecomePrimary, SimpleDb_runTransaction.
  subst s. simpl.
  unfold bind at 1. cbv beta iota zeta.
  unfold bind at 1. unfold eval at 1.
  unfold withHeartbeat, heartbeatRecord in Hcan. simpl in Hcan. simpl. rewrite Hcan.
  simpl.
  eexists. split; [reflexivity|]. split; [reflexivity|]. split; [reflexivity|].
  match goal with
  | |- ∃ st2, shutdown false ?s1 = _ ∧ _ =>
      destruct (shutdown_run false s1 (mkSimpleDb false))
        as (st2 & Hrun & _ & _ & Hd2 & Hw2 & _ & Hstore & Hz & _)
  end.
  - reflexivity.
  - unfold observersDetachable. simpl. by rewrite Hhandler, Hhandler'.
  - exists st2. split; [exact Hrun|]. simpl in *. rewrite Hstore.
    repeat (split; [first [done | idtac]|]); try done.
    simpl. destruct d as [pc cm rc]. simpl in *. subst pc.
    by rewrite (bool_decide_eq_false_2 _ Hown).
Qed.

Lemma start_exclusive_then_shutdown_witness :
  ∃ st1,
    start stateFreshExclusive = (Err PRIMARY_LEASE_EXCLUSIVE, st1)
    ∧ started st1 = false
    ∧ db st1 = db stateFreshExclusive
    ∧ ∃ st2,
        shutdown false st1 = (Ok tt, st2)
        ∧ primaryClient (db st2) = Some (leaseOf "B" false 1000)
        ∧ documentVisibilityHandler (this st2) = false
        ∧ windowUnloadHandler (this st2) = false
        ∧ zombieMarked st2 (clientId (this stateFreshExclusive)) = false.
Proof.
  apply (start_exclusive_then_shutdown stateFreshExclusive (leaseOf "B" false 1000)
           (exampleWindow ∅)); try reflexivity.
  - split; [unfold withinAge; simpl; lia | reflexivity].
  - discriminate.
Defined.
